(** * RPI-Cam-Web-Interface-Scraper: a shallow embedding of the pipeline

    The development follows the layout of the Python package:

    - [Py], [Re], [Datetime]  the builtins the package relies on: string
                         methods, [os.path.join], [range], [sorted], [int];
                         [re.search] for the four patterns of the listing
                         parser; [datetime] values, their comparison and
                         [strftime("%Y-%m-%d")];
    - [Runtime]          exceptions, the file system, the collaborators
                         (HTTP session, ffmpeg, the publishing service, the
                         wall clock) and the monad in which the methods run:
                         state, exceptions and the list of observable
                         events;
    - [Config]           rpicam_scraper/config.py;
    - [VideoScraper]     rpicam_scraper/video_scraper.py;
    - [YouTubeUploader]  rpicam_scraper/youtube_uploader.py;
    - [VideoProcessor]   rpicam_scraper/video_processor.py;
    - [Scheduler]        rpicam_scraper/scheduler.py.

    Then come the vocabulary of the statements, and the statements
    themselves, stage by stage.

    What the model leaves out.  Strings are byte strings; the text handled
    by the package (URLs, file names, listing text, dates) is ASCII, on
    which [\d] is [0-9] and [str] comparison is byte-wise comparison.  The
    contents of files are not modelled, only which paths exist.  Of the
    console output only the scheduler's stage lines are events.  The
    scheduler loop runs in one thread, for a given number of passes. *)

From Stdlib Require Import String Ascii List ZArith Lia Bool Arith.
From Stdlib Require Import Permutation Sorted.
Import ListNotations.

Local Open Scope list_scope.
Local Open Scope string_scope.

(* ====================================================================== *)
(** * Python builtins                                                      *)
(* ====================================================================== *)

Module Py.

(** [s.startswith(p)] *)
Definition startswith (s p : string) : bool := String.prefix p s.

(** [s.endswith(suf)]: some tail of [s] is [suf]. *)
Fixpoint endswith (s suf : string) : bool :=
  (s =? suf) ||
  match s with
  | EmptyString => false
  | String _ s' => endswith s' suf
  end.

(** [c in s] for a one-character [c]. *)
Fixpoint contains (c : ascii) (s : string) : bool :=
  match s with
  | EmptyString => false
  | String a s' => Ascii.eqb a c || contains c s'
  end.

(** [s.rstrip('/')] *)
Fixpoint rstrip_slash (s : string) : string :=
  match s with
  | EmptyString => EmptyString
  | String c s' =>
      match rstrip_slash s' with
      | EmptyString => if Ascii.eqb c "/" then EmptyString else String c EmptyString
      | r => String c r
      end
  end.

(** [s.split(sep)] for a one-character separator: never empty. *)
Fixpoint split (sep : ascii) (s : string) : list string :=
  match s with
  | EmptyString => [EmptyString]
  | String c s' =>
      if Ascii.eqb c sep then EmptyString :: split sep s'
      else match split sep s' with
           | [] => [String c EmptyString]
           | hd :: tl => String c hd :: tl
           end
  end.

(** [s.split('/')[-1]] *)
Definition last_component (s : string) : string :=
  last (split "/" s) EmptyString.

(** [os.path.join(a, b)] (posixpath). *)
Definition os_path_join (a b : string) : string :=
  if startswith b "/" then b
  else if (a =? "") || endswith a "/" then a ++ b
  else a ++ "/" ++ b.

(** [range(n)] for an [int] [n]: empty when [n <= 0]. *)
Definition range (n : Z) : list nat := seq 0 (Z.to_nat n).

(** [2 ** attempt] *)
Definition pow2 (attempt : nat) : Z := 2 ^ Z.of_nat attempt.

(** [sorted(l)] on a list of [str]: insertion into an ordered list. *)
Fixpoint insert_sorted (x : string) (l : list string) : list string :=
  match l with
  | [] => [x]
  | y :: l' => if String.leb x y then x :: l else y :: insert_sorted x l'
  end.

Definition sorted (l : list string) : list string :=
  fold_right insert_sorted [] l.

(** ** Decimal digits *)

Definition is_digit (c : ascii) : bool :=
  let n := nat_of_ascii c in (48 <=? n)%nat && (n <=? 57)%nat.

Definition digit_value (c : ascii) : Z := Z.of_nat (nat_of_ascii c) - 48.

Definition digit_char (d : Z) : ascii := ascii_of_nat (Z.to_nat (48 + d mod 10)).

(** Decimal rendering of a non-negative number, at least [width] digits
    (zero padded): the [%02d] / [%04d] of [strftime]. *)
Fixpoint decimal_digits (fuel : nat) (n : Z) (acc : string) : string :=
  match fuel with
  | O => acc
  | S fuel' =>
      let acc' := String (digit_char n) acc in
      if n / 10 =? 0 then acc' else decimal_digits fuel' (n / 10) acc'
  end%Z.

Fixpoint zero_pad (k : nat) (s : string) : string :=
  match k with
  | O => s
  | S k' => String "0" (zero_pad k' s)
  end.

Definition format_padded (width : nat) (n : Z) : string :=
  let s := decimal_digits (S (Z.to_nat n)) n EmptyString in
  zero_pad (width - String.length s) s.

(** ** [int(s)] on ASCII text

    Surrounding white space is stripped, one sign is accepted, then decimal
    digits, single underscores allowed between digits.  [None] stands for
    [ValueError]. *)

Definition is_space (c : ascii) : bool :=
  let n := nat_of_ascii c in
  ((9 <=? n)%nat && (n <=? 13)%nat) || (n =? 32)%nat || ((28 <=? n)%nat && (n <=? 31)%nat).

Fixpoint lstrip (s : string) : string :=
  match s with
  | String c s' => if is_space c then lstrip s' else s
  | EmptyString => EmptyString
  end.

Fixpoint rstrip (s : string) : string :=
  match s with
  | EmptyString => EmptyString
  | String c s' =>
      match rstrip s' with
      | EmptyString => if is_space c then EmptyString else String c EmptyString
      | r => String c r
      end
  end.

(** [digits_value acc prev_digit s]: the digits of [s] read after [acc];
    [prev_digit] tells whether the previous character was a digit (an
    underscore is only accepted between two digits). *)
Fixpoint digits_value (acc : Z) (prev_digit : bool) (s : string) : option Z :=
  match s with
  | EmptyString => if prev_digit then Some acc else None
  | String c s' =>
      if is_digit c then digits_value (10 * acc + digit_value c) true s'
      else if Ascii.eqb c "_" && prev_digit then
        match s' with
        | String c' _ => if is_digit c' then digits_value acc false s' else None
        | EmptyString => None
        end
      else None
  end.

Definition int (s : string) : option Z :=
  match rstrip (lstrip s) with
  | String "-" s' => option_map Z.opp (digits_value 0 false s')
  | String "+" s' => digits_value 0 false s'
  | s' => digits_value 0 false s'
  end.

End Py.

(* ====================================================================== *)
(** * [re.search] for the patterns of the listing parser                   *)
(* ====================================================================== *)

Module Re.

(** The atoms used by the four patterns: [\d], [\d*] and a literal
    character ([\d+] is [\d\d*], [\d{4}] is four times [\d]). *)
Inductive atom : Type :=
| Digit
| DigitStar
| Chr (c : ascii).

(** [match_here p s]: the text matched by [p] at the start of [s], with the
    greedy-then-backtrack priority of Python's matcher. *)
Fixpoint match_here (p : list atom) : string -> option string :=
  match p with
  | [] => fun _ => Some EmptyString
  | Digit :: p' => fun s =>
      match s with
      | String c s' =>
          if Py.is_digit c then option_map (String c) (match_here p' s') else None
      | EmptyString => None
      end
  | Chr a :: p' => fun s =>
      match s with
      | String c s' =>
          if Ascii.eqb c a then option_map (String c) (match_here p' s') else None
      | EmptyString => None
      end
  | DigitStar :: p' =>
      fix star (s : string) : option string :=
        match s with
        | String c s' =>
            if Py.is_digit c then
              match star s' with
              | Some m => Some (String c m)
              | None => match_here p' s
              end
            else match_here p' s
        | EmptyString => match_here p' s
        end
  end.

(** [re.search(p, s)]: the leftmost match; the patterns are one group, so
    [group(1)] is the whole match. *)
Fixpoint search (p : list atom) (s : string) : option string :=
  match match_here p s with
  | Some m => Some m
  | None =>
      match s with
      | EmptyString => None
      | String _ s' => search p s'
      end
  end.

Definition lit (s : string) : list atom := map Chr (list_ascii_of_string s).

(** [r"(\d+ MB)"] *)
Definition size_pattern : list atom := ([Digit; DigitStar] ++ lit " MB")%list.
(** [r"(\d+s)"] *)
Definition duration_pattern : list atom := ([Digit; DigitStar] ++ lit "s")%list.
(** [r"(\d{4}-\d{2}-\d{2})"] *)
Definition date_pattern : list atom :=
  [Digit; Digit; Digit; Digit; Chr "-"; Digit; Digit; Chr "-"; Digit; Digit].
(** [r"(\d{2}:\d{2}:\d{2})"] *)
Definition time_pattern : list atom :=
  [Digit; Digit; Chr ":"; Digit; Digit; Chr ":"; Digit; Digit].

End Re.

(* ====================================================================== *)
(** * [datetime]                                                           *)
(* ====================================================================== *)

Module Datetime.

Record date : Type := mk_date { year : Z; month : Z; day : Z }.

Record datetime : Type := mk_datetime {
  dt_date : date;
  hour : Z;
  minute : Z;
  second : Z;
  microsecond : Z
}.

Definition date_eqb (a b : date) : bool :=
  ((year a =? year b) && (month a =? month b) && (day a =? day b))%Z.


Definition is_leap (y : Z) : bool :=
  ((y mod 4 =? 0) && (negb (y mod 100 =? 0) || (y mod 400 =? 0)))%Z.

Definition days_before_year (y : Z) : Z :=
  let y' := (y - 1)%Z in (y' * 365 + y' / 4 - y' / 100 + y' / 400)%Z.

Definition days_before_month (y m : Z) : Z :=
  (nth (Z.to_nat m) [0; 0; 31; 59; 90; 120; 151; 181; 212; 243; 273; 304; 334] 0
   + (if (2 <? m) && is_leap y then 1 else 0))%Z.

(** [date.toordinal()] *)
Definition toordinal (d : date) : Z :=
  (days_before_year (year d) + days_before_month (year d) (month d) + day d)%Z.

(** Microseconds since [datetime.min]'s midnight of day 0: the value on
    which [<], [>=] and [-] of two [datetime] objects work. *)
Definition to_microseconds (t : datetime) : Z :=
  (((toordinal (dt_date t) * 24 + hour t) * 60 + minute t) * 60 + second t) * 1000000
  + microsecond t.

(** [a >= b] *)
Definition geb (a b : datetime) : bool := (to_microseconds b <=? to_microseconds a)%Z.



(** [now.replace(hour=h, minute=m, second=0, microsecond=0)]; [None] is the
    [ValueError] of an hour or a minute out of range. *)
Definition replace_time (now : datetime) (h m : Z) : option datetime :=
  if ((0 <=? h) && (h <? 24) && (0 <=? m) && (m <? 60))%Z
  then Some (mk_datetime (dt_date now) h m 0 0)
  else None.

(** [d.strftime("%Y-%m-%d")] *)
Definition strftime_ymd (d : date) : string :=
  Py.format_padded 4 (year d) ++ "-" ++ Py.format_padded 2 (month d) ++ "-"
  ++ Py.format_padded 2 (day d).

End Datetime.


(* ====================================================================== *)
(** * Runtime: exceptions, file system, collaborators, the monad           *)
(* ====================================================================== *)

Module Runtime.

(** ** Exceptions

    Every exception of the model derives from [Exception].  [resp] is the
    status of a truthy [resp] attribute when the exception carries one
    (googleapiclient's [HttpError] does). *)

Inductive exn_class : Type :=
| OSError
| ValueError
| KeyError
| TimeoutExpired
| OtherException.

Record exn : Type := mk_exn { class : exn_class; resp : option Z }.

Definition os_error : exn := mk_exn OSError None.
Definition value_error : exn := mk_exn ValueError None.
Definition key_error : exn := mk_exn KeyError None.
Definition http_status_error : exn := mk_exn OtherException None.

Definition is_os_error (e : exn) : bool :=
  match class e with OSError => true | _ => false end.

Definition is_timeout_expired (e : exn) : bool :=
  match class e with TimeoutExpired => true | _ => false end.

(** ** The file system

    A set of regular files and a set of directories, by path.  File
    contents are not part of the model. *)

Record FS : Type := mk_fs { files : list string; dirs : list string }.

Definition mem (p : string) (l : list string) : bool := existsb (String.eqb p) l.

Definition discard (p : string) (l : list string) : list string :=
  filter (fun q => negb (q =? p)) l.

Definition add (p : string) (l : list string) : list string :=
  if mem p l then l else (l ++ [p])%list.

(** [os.path.exists(p)] *)
Definition path_exists (s : FS) (p : string) : bool := mem p (files s) || mem p (dirs s).

(** [p] names an entry directly inside directory [d]. *)
Definition is_child (d p : string) : bool :=
  let name := Py.last_component p in
  negb (name =? "") && (Py.os_path_join d name =? p).

Definition children (s : FS) (d : string) : list string :=
  filter (is_child d) (files s ++ dirs s)%list.

(** [os.listdir(d)]; [None] is the [OSError] of a missing directory. *)
Definition listdir (s : FS) (d : string) : option (list string) :=
  if mem d (dirs s) then Some (map Py.last_component (children s d)) else None.

(** [os.remove(p)] *)
Definition remove (s : FS) (p : string) : option FS :=
  if mem p (files s) then Some (mk_fs (discard p (files s)) (dirs s)) else None.

(** [os.rmdir(d)]: only an existing, empty directory goes. *)
Definition rmdir (s : FS) (d : string) : option FS :=
  if mem d (dirs s) && match children s d with [] => true | _ => false end
  then Some (mk_fs (files s) (discard d (dirs s)))
  else None.

(** [os.path.dirname(p)] *)
Definition dirname (p : string) : string :=
  let head := substring 0 (String.length p - String.length (Py.last_component p)) p in
  match Py.rstrip_slash head with
  | EmptyString => head
  | stripped => stripped
  end.

Definition dir_available (s : FS) (d : string) : bool :=
  match Py.rstrip_slash d with
  | EmptyString => true
  | _ => mem d (dirs s)
  end.

(** [open(p, 'w')] / [open(p, 'wb')]: creates or truncates the file. *)
Definition open_write (s : FS) (p : string) : option FS :=
  if mem p (dirs s) || negb (dir_available s (dirname p)) then None
  else Some (mk_fs (add p (files s)) (dirs s)).

(** [os.makedirs(d, exist_ok=True)] *)
Fixpoint makedirs_upto (fuel : nat) (s : FS) (d : string) : option FS :=
  if dir_available s d then Some s
  else if mem d (files s) then None
  else match fuel with
       | O => None
       | S fuel' =>
           match makedirs_upto fuel' s (dirname d) with
           | Some s' => Some (mk_fs (files s') (add d (dirs s')))
           | None => None
           end
       end.

Definition makedirs (s : FS) (d : string) : option FS :=
  makedirs_upto (String.length d) s d.

(** ** What the listing parser sees of one [<fieldset class="fileicon">] *)

Record Fieldset : Type := mk_fieldset {
  (** [fieldset.find("a", href=True)]: the [href] of the first such link. *)
  a_href : option string;
  (** [fieldset.find("button", attrs={"name": "delete1"})]: absent, or
      present with or without a [value] attribute. *)
  delete_btn : option (option string);
  (** [fieldset.get_text(" ", strip=True)] *)
  get_text : string
}.

(** ** Collaborators *)

Inductive http_reply (A : Type) : Type :=
| Response (status_code : Z) (body : A)
| RequestError (e : exn).
Arguments Response {A} status_code body.
Arguments RequestError {A} e.

(** [subprocess.run(cmd, ..., timeout=300)]; [output_written] tells whether
    the command left a file at its output path. *)
Inductive run_result : Type :=
| Completed (returncode : Z) (output_written : bool)
| TimedOut (output_written : bool)
| RunFailed (e : exn).

(** One upload attempt: [videos().insert(...)] polled with [next_chunk()]
    until a response arrives, or an exception. *)
Inductive insert_result : Type :=
| Uploaded (video_id : string)
| InsertFailed (e : exn).

(** Stored credentials, as far as [get_authenticated_service] looks. *)
Record Credentials : Type := mk_creds {
  valid : bool;
  expired : bool;
  refresh_token : bool
}.

(** The environment answers the [n]-th call made to it; [n] is the
    program-wide call counter, so that a collaborator can answer the same
    request differently over time. *)
Record Env : Type := mk_env {
  datetime_now : nat -> Datetime.datetime;
  get_preview : nat -> string -> http_reply (list Fieldset);
  (** body: the exception raised while the stream is written, if any *)
  get_media : nat -> string -> http_reply (option exn);
  post_delete : nat -> string -> string -> http_reply unit;
  subprocess_run : nat -> list string -> run_result;
  (** [pickle.load] of the token file: credentials ([None] for a falsy
      object) or an exception *)
  pickle_load : nat -> sum (option Credentials) exn;
  (** [creds.refresh(Request())] *)
  creds_refresh : nat -> option exn;
  (** [InstalledAppFlow.from_client_secrets_file(...).run_console()] *)
  run_console : nat -> option exn;
  (** [build("youtube", "v3", credentials=creds)] *)
  build_service : nat -> option exn;
  videos_insert : nat -> string -> string -> string -> insert_result
}.

(** ** Observable actions

    The requests sent to the collaborators, the waits, and the
    stage-transition lines the scheduler prints (each carries the time
    stamp it prints).  The other console output is not modelled. *)

Inductive log_line : Type :=
| SchedulerStarted
| SchedulerStopped
| ScrapingStarted
| ScrapingCompleted
| ScrapingError
| DailyStarted
| DailyCompleted
| DailyFailed
| DailyError.

Inductive event : Type :=
| Sleep (secs : Z)
| HttpGet (url : string)
| HttpPost (url : string) (delete1 : string)
| Ffmpeg (cmd : list string)
| Insert (file_path title description : string)
| Print (stamp : Datetime.datetime) (line : log_line).

(** ** Program state *)

Record World : Type := mk_world {
  (** number of answers the environment has given so far *)
  calls : nat;
  fs : FS;
  (** [YouTubeUploader.youtube_service] is set *)
  youtube_service : bool
}.

(** ** State, exceptions and emitted events *)

Inductive outcome (A : Type) : Type :=
| Ret (a : A)
| Raise (e : exn).
Arguments Ret {A} a.
Arguments Raise {A} e.

(** A run yields a value or an exception, the state it leaves, and the
    events it produced, oldest first.  State changes and events made
    before an exception stay. *)
Definition M (A : Type) : Type := World -> outcome A * World * list event.

Definition value {A} (r : outcome A * World * list event) : outcome A := fst (fst r).
Definition world_after {A} (r : outcome A * World * list event) : World := snd (fst r).
Definition events {A} (r : outcome A * World * list event) : list event := snd r.

Definition ret {A} (a : A) : M A := fun w => (Ret a, w, []).

Definition raise {A} (e : exn) : M A := fun w => (Raise e, w, []).

Definition bind {A B} (m : M A) (k : A -> M B) : M B :=
  fun w =>
    match m w with
    | (Ret a, w', t) =>
        match k a w' with
        | (r, w'', t') => (r, w'', (t ++ t')%list)
        end
    | (Raise e, w', t) => (Raise e, w', t)
    end.

(** [try: body  except <catches> as e: handler e] *)
Definition try_except {A} (body : M A) (catches : exn -> bool) (handler : exn -> M A) : M A :=
  fun w =>
    match body w with
    | (Ret a, w', t) => (Ret a, w', t)
    | (Raise e, w', t) =>
        if catches e then
          match handler e w' with
          | (r, w'', t') => (r, w'', (t ++ t')%list)
          end
        else (Raise e, w', t)
    end.

(** [except Exception] *)
Definition any_exception (_ : exn) : bool := true.

Definition emit (e : event) : M unit := fun w => (Ret tt, w, [e]).

(** The state once the environment has given one more answer. *)
Definition answered (w : World) : World :=
  mk_world (S (calls w)) (fs w) (youtube_service w).

(** The next answer of the environment. *)
Definition ask {A} (oracle : nat -> A) : M A :=
  fun w => (Ret (oracle (calls w)), answered w, []).

Definition get_fs : M FS := fun w => (Ret (fs w), w, []).

Definition put_fs (s : FS) : M unit :=
  fun w => (Ret tt, mk_world (calls w) s (youtube_service w), []).

(** A file-system operation that raises [OSError] when it fails. *)
Definition fs_update (op : FS -> option FS) : M unit :=
  fun w =>
    match op (fs w) with
    | Some s => put_fs s w
    | None => (Raise os_error, w, [])
    end.

Definition set_youtube_service : M unit :=
  fun w => (Ret tt, mk_world (calls w) (fs w) true, []).

Definition get_youtube_service : M bool := fun w => (Ret (youtube_service w), w, []).

(** [raise e] when the collaborator answered with an exception. *)
Definition raise_if (r : option exn) : M unit :=
  match r with
  | Some e => raise e
  | None => ret tt
  end.

(** [time.sleep(secs)] *)
Definition time_sleep (secs : Z) : M unit := emit (Sleep secs).

(** [for x in l: body x] without [break] or [return]. *)
Fixpoint for_in {A} (l : list A) (body : A -> M unit) : M unit :=
  match l with
  | [] => ret tt
  | x :: l' => bind (body x) (fun _ => for_in l' body)
  end.

End Runtime.

Declare Scope py_scope.
Delimit Scope py_scope with py.
Notation "x <- m ;; k" := (Runtime.bind m (fun x => k))
  (at level 61, m at next level, right associativity) : py_scope.
Notation "m ;;; k" := (Runtime.bind m (fun _ => k))
  (at level 61, right associativity) : py_scope.

Import Runtime.
Local Open Scope py_scope.

(* ====================================================================== *)
(** * rpicam_scraper/config.py                                             *)
(* ====================================================================== *)

Record Config : Type := mk_config {
  BASE_URL : string;
  YOUTUBE_TOKEN_PATH : string;
  YOUTUBE_UPLOAD_TITLE_PREFIX : string;
  YOUTUBE_UPLOAD_DESCRIPTION : string;
  DATA_DIR : string;
  MAX_RETRIES : Z;
  SCRAPE_INTERVAL_MINUTES : Z;
  DAILY_PROCESS_TIME : string
}.

(** The [preview_url] property: raises [ValueError] without a base URL. *)
Definition preview_url (cfg : Config) : M string :=
  if BASE_URL cfg =? "" then raise value_error
  else ret (Py.rstrip_slash (BASE_URL cfg) ++ "/preview.php").

(** [Config.validate]: the one required variable is the base URL. *)
Definition validate (cfg : Config) : M unit :=
  let required_vars := [("RPICAM_BASE_URL", BASE_URL cfg)] in
  let missing_vars :=
    map fst (filter (fun var => snd var =? "") required_vars) in
  match missing_vars with
  | [] => ret tt
  | _ => raise value_error
  end.

(** [s.strip()] on ASCII text. *)
Definition strip (s : string) : string := Py.rstrip (Py.lstrip s).

(** The [youtube_tags_list] property, as a function of
    [YOUTUBE_UPLOAD_TAGS]:
    [[tag.strip() for tag in tags.split(",") if tag.strip()]]. *)
Definition youtube_tags_list (youtube_upload_tags : string) : list string :=
  map strip (filter (fun tag => negb (strip tag =? "")) (Py.split "," youtube_upload_tags)).

(* ====================================================================== *)
(** * rpicam_scraper/video_scraper.py                                      *)
(* ====================================================================== *)

Module VideoScraper.

(** The dictionary returned by [parse_video_metadata]. *)
Record VideoMeta : Type := mk_meta {
  video : string;
  thumbnail : option string;
  title : string;
  size : string;
  duration : string;
  date : string;
  time : string
}.

Definition group_or_empty (m : option string) : string :=
  match m with Some g => g | None => EmptyString end.

(** The test on the link of a listing entry. *)
Definition is_media_href (href : string) : bool :=
  Py.startswith href "media/" && Py.endswith href ".mp4".

Definition parse_video_metadata (fieldset : Fieldset) : outcome (option VideoMeta) :=
  match a_href fieldset with
  | None => Ret None
  | Some href =>
      if negb (is_media_href href) then Ret None
      else
        let video_url := href in
        let details := get_text fieldset in
        let size := group_or_empty (Re.search Re.size_pattern details) in
        let duration := group_or_empty (Re.search Re.duration_pattern details) in
        let date := group_or_empty (Re.search Re.date_pattern details) in
        let time_str := group_or_empty (Re.search Re.time_pattern details) in
        let title :=
          if negb (date =? "") && negb (time_str =? "")
          then date ++ " " ++ time_str
          else "Unknown DateTime" in
        let result thumbnail :=
          Ret (Some (mk_meta video_url thumbnail title size duration date time_str)) in
        match delete_btn fieldset with
        | None => result None
        | Some (Some value) => result (Some value)
        | Some None => Raise key_error   (* delete_btn["value"] *)
        end
  end.

(** The loop over [soup.find_all("fieldset", class_="fileicon")]. *)
Fixpoint collect_videos (fieldsets : list Fieldset) : outcome (list VideoMeta) :=
  match fieldsets with
  | [] => Ret []
  | fieldset :: rest =>
      match parse_video_metadata fieldset with
      | Raise e => Raise e
      | Ret meta =>
          match collect_videos rest with
          | Raise e => Raise e
          | Ret videos =>
              Ret (match meta with Some m => m :: videos | None => videos end)
          end
      end
  end.

(** [not video_meta.get('thumbnail')] is false: a non-empty handle. *)
Definition has_thumbnail (video_meta : VideoMeta) : bool :=
  match thumbnail video_meta with
  | Some t => negb (t =? "")
  | None => false
  end.

Section WithConfig.

Variable cfg : Config.
Variable env : Env.

(** One pass through the body of the [try] of [fetch_video_list]. *)
Definition request_preview : M (list Fieldset) :=
  url <- preview_url cfg ;;
  emit (HttpGet url) ;;;
  response <- ask (fun n => get_preview env n url) ;;
  match response with
  | Response status_code soup =>
      if negb (status_code =? 200)%Z then raise http_status_error else ret soup
  | RequestError e => raise e
  end.

(** The [for attempt in range(...)] of [fetch_video_list]; [None] is its
    [else] branch (no [break]). *)
Fixpoint fetch_preview (attempts : list nat) : M (option (list Fieldset)) :=
  match attempts with
  | [] => ret None
  | attempt :: rest =>
      got <- try_except (soup <- request_preview ;; ret (Some soup)) any_exception
               (fun _ => time_sleep (Py.pow2 attempt) ;;; ret None) ;;
      match got with
      | Some soup => ret (Some soup)
      | None => fetch_preview rest
      end
  end.

Definition fetch_video_list : M (list VideoMeta) :=
  page <- fetch_preview (Py.range (MAX_RETRIES cfg)) ;;
  match page with
  | None => ret []
  | Some soup =>
      match collect_videos soup with
      | Ret videos => ret videos
      | Raise e => raise e
      end
  end.

Definition video_url_of (video_meta : VideoMeta) : string :=
  Py.rstrip_slash (BASE_URL cfg) ++ "/" ++ video video_meta.

Definition local_path_of (video_meta : VideoMeta) (day_dir : string) : string :=
  Py.os_path_join day_dir (Py.last_component (video video_meta)).

(** The body of the [try] of [download_video]. *)
Definition request_media (video_url local_path : string) : M bool :=
  emit (HttpGet video_url) ;;;
  response <- ask (fun n => get_media env n video_url) ;;
  match response with
  | Response status_code stream_error =>
      if (status_code =? 200)%Z then
        fs_update (fun s => open_write s local_path) ;;;
        match stream_error with
        | Some e => raise e
        | None => ret true
        end
      else raise http_status_error
  | RequestError e => raise e
  end.

Fixpoint download_attempts (video_url local_path : string) (attempts : list nat) : M bool :=
  match attempts with
  | [] => ret false
  | attempt :: rest =>
      done <- try_except (request_media video_url local_path) any_exception
                (fun _ => time_sleep (Py.pow2 attempt) ;;; ret false) ;;
      if done : bool then ret true else download_attempts video_url local_path rest
  end.

Definition download_video (video_meta : VideoMeta) (day_dir : string) : M bool :=
  download_attempts (video_url_of video_meta) (local_path_of video_meta day_dir)
    (Py.range (MAX_RETRIES cfg)).

(** The body of the [try] of [delete_video_from_server]. *)
Definition request_delete (handle : string) : M bool :=
  url <- preview_url cfg ;;
  emit (HttpPost url handle) ;;;
  response <- ask (fun n => post_delete env n url handle) ;;
  match response with
  | Response status_code _ =>
      if (status_code =? 200)%Z then ret true else raise http_status_error
  | RequestError e => raise e
  end.

Fixpoint delete_attempts (handle : string) (attempts : list nat) : M bool :=
  match attempts with
  | [] => ret false
  | attempt :: rest =>
      done <- try_except (request_delete handle) any_exception
                (fun _ => time_sleep (Py.pow2 attempt) ;;; ret false) ;;
      if done : bool then ret true else delete_attempts handle rest
  end.

Definition delete_video_from_server (video_meta : VideoMeta) : M bool :=
  match thumbnail video_meta with
  | Some handle =>
      if handle =? "" then ret false
      else delete_attempts handle (Py.range (MAX_RETRIES cfg))
  | None => ret false
  end.

(** The body of the [for video_meta in videos] of [fetch_and_clean]. *)
Definition download_then_delete (day_dir : string) (video_meta : VideoMeta) : M unit :=
  downloaded <- download_video video_meta day_dir ;;
  if downloaded : bool then delete_video_from_server video_meta ;;; ret tt
  else ret tt.

Definition fetch_and_clean : M unit :=
  videos <- fetch_video_list ;;
  match videos with
  | [] => ret tt
  | _ =>
      now <- ask (datetime_now env) ;;
      let today := Datetime.strftime_ymd (Datetime.dt_date now) in
      let day_dir := Py.os_path_join (DATA_DIR cfg) today in
      fs_update (fun s => makedirs s day_dir) ;;;
      for_in videos (download_then_delete day_dir)
  end.

End WithConfig.

End VideoScraper.

(* ====================================================================== *)
(** * rpicam_scraper/youtube_uploader.py                                   *)
(* ====================================================================== *)

Module YouTubeUploader.

(** The wait of the rate-limit branch: [time.sleep(3600)]. *)
Definition rate_limit_cooldown : Z := 3600.

(** [hasattr(e, 'resp') and e.resp and e.resp.status == 403] *)
Definition is_rate_limit (e : exn) : bool :=
  match resp e with
  | Some status => (status =? 403)%Z
  | None => false
  end.

(** The wait chosen by the [except] branch of [upload_video]. *)
Definition retry_wait (e : exn) (attempt : nat) : Z :=
  if is_rate_limit e then rate_limit_cooldown else Py.pow2 attempt.

Section WithConfig.

Variable cfg : Config.
Variable env : Env.

(** [creds = flow.run_console()] for a fresh flow. *)
Definition log_in : M unit :=
  failure <- ask (run_console env) ;;
  raise_if failure.

(** [with open(config.YOUTUBE_TOKEN_PATH, "wb") as token: pickle.dump(...)] *)
Definition save_token : M unit :=
  fs_update (fun s => open_write s (YOUTUBE_TOKEN_PATH cfg)).

Definition get_authenticated_service : M unit :=
  s <- get_fs ;;
  creds <-
    (if path_exists s (YOUTUBE_TOKEN_PATH cfg) then
       if mem (YOUTUBE_TOKEN_PATH cfg) (files s) then
         loaded <- ask (pickle_load env) ;;
         match loaded with
         | inl creds => ret creds
         | inr e => raise e
         end
       else raise os_error
     else ret None) ;;
  match creds with
  | Some c =>
      if valid c then ret tt
      else
        (if expired c && refresh_token c
         then failure <- ask (creds_refresh env) ;; raise_if failure
         else log_in) ;;;
        save_token
  | None => log_in ;;; save_token
  end ;;;
  failure <- ask (build_service env) ;;
  raise_if failure ;;;
  set_youtube_service.

(** The body of the [try] of [upload_video]: one resumable upload. *)
Definition request_insert (file_path title description : string) : M bool :=
  emit (Insert file_path title description) ;;;
  result <- ask (fun n => videos_insert env n file_path title description) ;;
  match result with
  | Uploaded _ => ret true
  | InsertFailed e => raise e
  end.

Fixpoint upload_attempts (file_path title description : string) (attempts : list nat)
  : M bool :=
  match attempts with
  | [] => ret false
  | attempt :: rest =>
      done <- try_except (request_insert file_path title description) any_exception
                (fun e => time_sleep (retry_wait e attempt) ;;; ret false) ;;
      if done : bool then ret true
      else upload_attempts file_path title description rest
  end.

(** [MediaFileUpload(file_path, chunksize=-1, resumable=True)] opens the
    file for reading. *)
Definition media_file_upload (file_path : string) : M unit :=
  s <- get_fs ;;
  if mem file_path (files s) then ret tt else raise os_error.

Definition upload_video (file_path title : string) (description : option string) : M bool :=
  service <- get_youtube_service ;;
  (if service : bool then ret tt else get_authenticated_service) ;;;
  let description :=
    match description with
    | Some d => if d =? "" then YOUTUBE_UPLOAD_DESCRIPTION cfg else d
    | None => YOUTUBE_UPLOAD_DESCRIPTION cfg
    end in
  media_file_upload file_path ;;;
  upload_attempts file_path title description (Py.range (MAX_RETRIES cfg)).

End WithConfig.

End YouTubeUploader.

(* ====================================================================== *)
(** * rpicam_scraper/video_processor.py                                    *)
(* ====================================================================== *)

Module VideoProcessor.

Section WithConfig.

Variable cfg : Config.
Variable env : Env.

Definition is_mp4 (f : string) : bool := Py.endswith f ".mp4".

Definition get_video_files (day_dir : string) : M (list string) :=
  s <- get_fs ;;
  if negb (path_exists s day_dir) then ret []
  else
    match listdir s day_dir with
    | Some names => ret (Py.sorted (filter is_mp4 names))
    | None => raise os_error
    end.

(** The manifest is created (or truncated) and filled; its text is not
    part of the model. *)
Definition create_ffmpeg_file_list (day_dir : string) (files : list string) : M string :=
  let list_path := Py.os_path_join day_dir "files.txt" in
  fs_update (fun s => open_write s list_path) ;;;
  ret list_path.

Definition ffmpeg_cmd (list_path output_path : string) : list string :=
  ["ffmpeg"; "-y"; "-f"; "concat"; "-safe"; "0"; "-i"; list_path;
   "-c"; "copy"; output_path].

(** What the merge tool leaves on disk. *)
Definition record_output (output_path : string) (written : bool) : M unit :=
  if written then
    s <- get_fs ;;
    if mem output_path (dirs s) then ret tt
    else put_fs (mk_fs (add output_path (files s)) (dirs s))
  else ret tt.

(** The body of the [try] of [concatenate_videos]; [false] stands for the
    fall-through to the [time.sleep] below the [try]. *)
Definition run_ffmpeg (list_path output_path : string) : M bool :=
  let cmd := ffmpeg_cmd list_path output_path in
  emit (Ffmpeg cmd) ;;;
  result <- ask (fun n => subprocess_run env n cmd) ;;
  match result with
  | Completed returncode written =>
      record_output output_path written ;;;
      ret (returncode =? 0)%Z
  | TimedOut written =>
      record_output output_path written ;;;
      raise (mk_exn TimeoutExpired None)
  | RunFailed e => raise e
  end.

Fixpoint concatenate_attempts (list_path output_path : string) (attempts : list nat)
  : M bool :=
  match attempts with
  | [] => ret false
  | attempt :: rest =>
      done <- try_except
                (try_except (run_ffmpeg list_path output_path) is_timeout_expired
                   (fun _ => ret false))
                any_exception (fun _ => ret false) ;;
      if done : bool then ret true
      else time_sleep (Py.pow2 attempt) ;;; concatenate_attempts list_path output_path rest
  end.

Definition concatenate_videos (day_dir : string) (files : list string) (output_path : string)
  : M bool :=
  list_path <- create_ffmpeg_file_list day_dir files ;;
  concatenate_attempts list_path output_path (Py.range (MAX_RETRIES cfg)).

(** The body of the [for file in files_to_delete] of [cleanup_files]. *)
Definition cleanup_file (day_dir file : string) : M unit :=
  try_except
    (let file_path := Py.os_path_join day_dir file in
     s <- get_fs ;;
     if path_exists s file_path then fs_update (fun s => remove s file_path)
     else ret tt)
    any_exception (fun _ => ret tt).

Definition cleanup_files (day_dir : string) (files_to_delete : list string) : M unit :=
  for_in files_to_delete (cleanup_file day_dir).

Definition output_filename_of (date_str : string) : string := date_str ++ "_combined.mp4".

Definition title_of (date_str : string) : string :=
  YOUTUBE_UPLOAD_TITLE_PREFIX cfg ++ " " ++ date_str.

Definition process_daily_videos (date_str : option string) : M bool :=
  date_str <-
    match date_str with
    | Some d => ret d
    | None =>
        now <- ask (datetime_now env) ;;
        ret (Datetime.strftime_ymd (Datetime.dt_date now))
    end ;;
  let day_dir := Py.os_path_join (DATA_DIR cfg) date_str in
  s <- get_fs ;;
  if negb (path_exists s day_dir) then ret false
  else
    files <- get_video_files day_dir ;;
    match files with
    | [] => ret false
    | _ =>
        let output_filename := output_filename_of date_str in
        let output_path := Py.os_path_join day_dir output_filename in
        merged <- concatenate_videos day_dir files output_path ;;
        if negb merged then ret false
        else
          let title := title_of date_str in
          upload_success <- YouTubeUploader.upload_video cfg env output_path title None ;;
          (if upload_success : bool then
             let files_to_delete := (files ++ ["files.txt"; output_filename])%list in
             cleanup_files day_dir files_to_delete ;;;
             try_except (fs_update (fun s => rmdir s day_dir)) is_os_error
               (fun _ => ret tt)
           else ret tt) ;;;
          ret upload_success
    end.

End WithConfig.

End VideoProcessor.

(* ====================================================================== *)
(** * rpicam_scraper/scheduler.py                                          *)
(* ====================================================================== *)

Module Scheduler.

(** The mutable fields of [RPiCamScheduler]. *)
Record RPiCamScheduler : Type := mk_scheduler {
  running : bool;
  last_daily_process : option Datetime.date
}.

(** [RPiCamScheduler.__init__] *)
Definition init : RPiCamScheduler := mk_scheduler false None.

(** [hour, minute = map(int, config.DAILY_PROCESS_TIME.split(':'))] with its
    fallback to 23:59 on [ValueError]. *)
Definition configured_time (daily_process_time : string) : Z * Z :=
  match Py.split ":" daily_process_time with
  | [h; m] =>
      match Py.int h, Py.int m with
      | Some hour, Some minute => (hour, minute)
      | _, _ => (23, 59)%Z
      end
  | _ => (23, 59)%Z
  end.

Section WithConfig.

Variable cfg : Config.
Variable env : Env.

(** [print(f"[{datetime.datetime.now()}] ...")] *)
Definition print_now (line : log_line) : M unit :=
  stamp <- ask (datetime_now env) ;;
  emit (Print stamp line).

Definition should_run_daily_process (self : RPiCamScheduler) : M bool :=
  now <- ask (datetime_now env) ;;
  let (hour, minute) := configured_time (DAILY_PROCESS_TIME cfg) in
  match Datetime.replace_time now hour minute with
  | None => raise value_error
  | Some target_time =>
      let today := Datetime.dt_date now in
      if Datetime.geb now target_time &&
         match last_daily_process self with
         | None => true
         | Some last => negb (Datetime.date_eqb last today)
         end
      then ret true
      else ret false
  end.

Definition run_scraping : M unit :=
  try_except
    (print_now ScrapingStarted ;;;
     VideoScraper.fetch_and_clean cfg env ;;;
     print_now ScrapingCompleted)
    any_exception (fun _ => print_now ScrapingError).

Definition run_daily_process (self : RPiCamScheduler) : M RPiCamScheduler :=
  try_except
    (print_now DailyStarted ;;;
     success <- VideoProcessor.process_daily_videos cfg env None ;;
     if success : bool then
       print_now DailyCompleted ;;;
       now <- ask (datetime_now env) ;;
       ret (mk_scheduler (running self) (Some (Datetime.dt_date now)))
     else
       print_now DailyFailed ;;;
       ret self)
    any_exception (fun _ => print_now DailyError ;;; ret self).




End WithConfig.

End Scheduler.

Arguments Datetime.strftime_ymd : simpl never.
Arguments Py.os_path_join : simpl never.
Arguments Py.sorted : simpl never.
Arguments makedirs : simpl never.
Arguments open_write : simpl never.
Arguments listdir : simpl never.
Arguments remove : simpl never.
Arguments rmdir : simpl never.
Arguments path_exists : simpl never.
Arguments mem : simpl never.
Arguments discard : simpl never.
Arguments add : simpl never.
Arguments children : simpl never.

(* ====================================================================== *)
(** * Vocabulary of the statements                                         *)
(* ====================================================================== *)

(** The links of the listing entries that carry one. *)
Definition hrefs (fieldsets : list Fieldset) : list string :=
  flat_map (fun f => match a_href f with Some h => [h] | None => [] end) fieldsets.

(** The waits of a run, in order. *)
Definition sleeps (t : list event) : list Z :=
  flat_map (fun e => match e with Sleep secs => [secs] | _ => [] end) t.

(** The requests a run sent to a collaborator (HTTP, ffmpeg, upload). *)
Definition is_request (e : event) : bool :=
  match e with
  | HttpGet _ | HttpPost _ _ | Ffmpeg _ | Insert _ _ _ => true
  | Sleep _ | Print _ _ => false
  end.

Definition requests (t : list event) : list event := filter is_request t.

(** A run of failed attempts: each attempt sends [request] and then waits
    [2 ** attempt] seconds. *)
Definition retry_trace (request : event) (attempts : list nat) : list event :=
  flat_map (fun attempt => [request; Sleep (Py.pow2 attempt)]) attempts.

(** The listing request never succeeds. *)
Definition preview_unavailable (env : Env) : Prop :=
  forall n url,
    match get_preview env n url with
    | Response status_code _ => status_code <> 200%Z
    | RequestError _ => True
    end.

(** The merge tool never exits with code zero. *)
Definition ffmpeg_failing (env : Env) : Prop :=
  forall n cmd,
    match subprocess_run env n cmd with
    | Completed returncode _ => returncode <> 0%Z
    | TimedOut _ | RunFailed _ => True
    end.

(** ** Concrete scenarios *)

Definition noon : Datetime.datetime :=
  Datetime.mk_datetime (Datetime.mk_date 2025 8 12) 12 0 0 0.

(** Every collaborator is out of reach: requests fail with a connection
    error, ffmpeg cannot be started, no credentials can be obtained. *)
Definition env_down : Env :=
  mk_env (fun _ => noon)
    (fun _ _ => RequestError (mk_exn OtherException None))
    (fun _ _ => RequestError (mk_exn OtherException None))
    (fun _ _ _ => RequestError (mk_exn OtherException None))
    (fun _ _ => RunFailed os_error)
    (fun _ => inr os_error)
    (fun _ => Some (mk_exn OtherException None))
    (fun _ => Some os_error)
    (fun _ => Some (mk_exn OtherException None))
    (fun _ _ _ _ => InsertFailed (mk_exn OtherException None)).

Definition cfg_cam (max_retries : Z) : Config :=
  mk_config "http://cam/" "token.pickle" "RPiCam"
    "Uploaded by RPI-Cam-Web-Interface-Scraper" "/data/videos" max_retries 15 "23:59".

(** A fresh process on an empty disk. *)
Definition w_empty : World := mk_world 0 (mk_fs [] []) false.

(** A computation that sends no request, does not wait and prints
    nothing. *)
Definition silent {A} (m : M A) : Prop := forall w, events (m w) = [].

(** A computation that never raises. *)
Definition total {A} (m : M A) : Prop := forall w, exists a, value (m w) = Ret a.

(** A computation whose every run relates the state it starts from to the
    state it leaves. *)
Definition stable (R : World -> World -> Prop) {A} (m : M A) : Prop :=
  forall w, R w (world_after (m w)).

(** The set of directories is unchanged. *)
Definition same_dirs (w w' : World) : Prop := dirs (fs w') = dirs (fs w).

(** No regular file is lost. *)
Definition keeps_files (w w' : World) : Prop :=
  forall p, In p (files (fs w)) -> In p (files (fs w')).

(** Files may have been created, nothing was deleted. *)
Definition only_adds_files (w w' : World) : Prop := same_dirs w w' /\ keeps_files w w'.

(** The paths that are not among the entries [targets] of [day_dir]. *)
Definition spared (day_dir : string) (targets : list string) (paths : list string)
  : list string :=
  filter (fun p => negb (mem p (map (Py.os_path_join day_dir) targets))) paths.

Definition artifact_0812 : string := "/data/videos/2025-08-12/2025-08-12_combined.mp4".

(** The merged file of 2025-08-12 is on disk and the publishing session is
    already established. *)
Definition w_ready : World :=
  mk_world 0 (mk_fs [artifact_0812] ["/data/videos/2025-08-12"]) true.

(** Requests for the deletion of a video. *)
Definition is_delete_request (e : event) : bool :=
  match e with HttpPost _ _ => true | _ => false end.


(** The day bucket of a date key, its merged artifact and what a
    successful run deletes. *)
Definition day_dir_of (cfg : Config) (date_str : string) : string :=
  Py.os_path_join (DATA_DIR cfg) date_str.

Definition output_path_of (cfg : Config) (date_str : string) : string :=
  Py.os_path_join (day_dir_of cfg date_str) (VideoProcessor.output_filename_of date_str).

Definition files_to_delete (files : list string) (date_str : string) : list string :=
  (files ++ ["files.txt"; VideoProcessor.output_filename_of date_str])%list.

(** The cleanup that follows a successful publish: the files, then the
    directory. *)
Definition cleanup (day_dir : string) (targets : list string) : M unit :=
  VideoProcessor.cleanup_files day_dir targets ;;;
  try_except (fs_update (fun s => rmdir s day_dir)) is_os_error (fun _ => ret tt).

(** The date key used by a run: the one given, or today's. *)
Definition date_key (env : Env) (date_str : option string) (w : World) : string :=
  match date_str with
  | Some d => d
  | None => Datetime.strftime_ymd (Datetime.dt_date (datetime_now env (calls w)))
  end.

(** The state in which the run starts to look at the disk. *)
Definition after_date (date_str : option string) (w : World) : World :=
  match date_str with
  | Some _ => w
  | None => answered w
  end.


(** The camera lists two recordings; every collaborator answers and
    succeeds. *)
Definition listing_two : list Fieldset :=
  [mk_fieldset (Some "media/video001.mp4") (Some (Some "thumb001"))
     "26 MB 19s 2025-08-12 19:52:10";
   mk_fieldset (Some "media/video002.mp4") None "31 MB 22s 2025-08-12 20:01:44"].

Definition env_ok : Env :=
  mk_env (fun _ => noon)
    (fun _ _ => Response 200 listing_two)
    (fun _ _ => Response 200 None)
    (fun _ _ _ => Response 200 tt)
    (fun _ _ => Completed 0 true)
    (fun _ => inl (Some (mk_creds true false true)))
    (fun _ => None)
    (fun _ => None)
    (fun _ => None)
    (fun _ _ _ _ => Uploaded "dQw4w9WgXcQ").

(** As [env_ok], but the publishing service refuses every upload. *)
Definition env_no_publish : Env :=
  mk_env (datetime_now env_ok) (get_preview env_ok) (get_media env_ok) (post_delete env_ok)
    (subprocess_run env_ok) (pickle_load env_ok) (creds_refresh env_ok)
    (run_console env_ok) (build_service env_ok)
    (fun _ _ _ _ => InsertFailed (mk_exn OtherException (Some 500%Z))).

(** Two recordings in the bucket of 2025-08-12. *)
Definition w_two_files : World :=
  mk_world 0
    (mk_fs ["/data/videos/2025-08-12/video001.mp4"; "/data/videos/2025-08-12/video002.mp4"]
       ["/data/videos/2025-08-12"])
    false.

(** The order of [sorted] on strings. *)
Definition leb_rel (a b : string) : Prop := String.leb a b = true.











(** The time of day configured for the daily run, on the day of [now]. *)
Definition target_time (cfg : Config) (now : Datetime.datetime) : option Datetime.datetime :=
  Datetime.replace_time now
    (fst (Scheduler.configured_time (DAILY_PROCESS_TIME cfg)))
    (snd (Scheduler.configured_time (DAILY_PROCESS_TIME cfg))).

(** Every reading of the clock falls on the calendar date [today]. *)
Definition within_date (env : Env) (today : Datetime.date) : Prop :=
  forall n, Datetime.dt_date (datetime_now env n) = today.


(** The listing of a camera that serves the second recording only. *)
Definition listing_handles : list Fieldset :=
  [mk_fieldset (Some "media/video001.mp4") (Some (Some "thumb001"))
     "26 MB 19s 2025-08-12 19:52:10";
   mk_fieldset (Some "media/video002.mp4") (Some (Some "thumb002"))
     "31 MB 22s 2025-08-12 20:01:44"].

Definition env_first_lost : Env :=
  mk_env (datetime_now env_ok)
    (fun _ _ => Response 200 listing_handles)
    (fun _ url => if url =? "http://cam/media/video001.mp4"
                  then Response 404 None else Response 200 None)
    (post_delete env_ok) (subprocess_run env_ok) (pickle_load env_ok)
    (creds_refresh env_ok) (run_console env_ok) (build_service env_ok)
    (videos_insert env_ok).


(** ** Vocabulary of the further properties *)

(** [m] occurs in [s]. *)
Definition is_substring (m s : string) : Prop := exists pre post, s = pre ++ m ++ post.

(** A run of ["/"]. *)
Fixpoint only_slashes (s : string) : bool :=
  match s with
  | EmptyString => true
  | String c s' => Ascii.eqb c "/" && only_slashes s'
  end.

(** A run of decimal digits. *)
Fixpoint all_digits (s : string) : bool :=
  match s with
  | EmptyString => true
  | String c s' => Py.is_digit c && all_digits s'
  end.

(** [m] is, character by character, what a pattern without [\d*] asks
    for. *)
Fixpoint fits (p : list Re.atom) (m : string) : bool :=
  match p, m with
  | [], EmptyString => true
  | Re.Digit :: p', String c m' => Py.is_digit c && fits p' m'
  | Re.Chr a :: p', String c m' => Ascii.eqb c a && fits p' m'
  | _, _ => false
  end.

(** One or more digits followed by [suffix]: the shape of the size and of
    the duration of a record. *)
Definition number_with (suffix m : string) : Prop :=
  exists digits, m = digits ++ suffix /\ digits <> "" /\ all_digits digits = true.

(** The disk is unchanged. *)
Definition same_fs (w w' : World) : Prop := fs w' = fs w.

(** No file and no directory is lost (directories may be created). *)
Definition nothing_lost (w w' : World) : Prop :=
  (forall p, In p (files (fs w)) -> In p (files (fs w')))
  /\ (forall d, In d (dirs (fs w)) -> In d (dirs (fs w'))).

(** At most the file [path] was created; nothing else changed on disk. *)
Definition wrote_at_most (path : string) (w w' : World) : Prop :=
  dirs (fs w') = dirs (fs w)
  /\ (files (fs w') = files (fs w) \/ files (fs w') = add path (files (fs w))).

(** Nothing was deleted, no directory was created or removed, and every
    file created is one of [allowed]. *)
Definition created_within (allowed : list string) (w w' : World) : Prop :=
  only_adds_files w w'
  /\ forall p, In p (files (fs w')) -> In p (files (fs w)) \/ In p allowed.

(** The files a daily run may create: the manifest, the merged artifact
    and the token of the publishing session. *)
Definition may_create (cfg : Config) (date_str : string) : list string :=
  [Py.os_path_join (day_dir_of cfg date_str) "files.txt";
   output_path_of cfg date_str;
   YOUTUBE_TOKEN_PATH cfg].


(** The first [k] waits of the standard backoff: 1, 2, 4, ... *)
Definition backoff (k : nat) : list Z := map Py.pow2 (seq 0 k).

(** The merge phase of a log: ffmpeg commands and waits only. *)
Definition is_merge_event (e : event) : bool :=
  match e with Ffmpeg _ | Sleep _ => true | _ => false end.

(** The publish phase of a log: upload requests and waits only. *)
Definition is_publish_event (e : event) : bool :=
  match e with Insert _ _ _ | Sleep _ => true | _ => false end.

(** A bucket path that is a regular file. *)
Definition w_file_at_bucket : World :=
  mk_world 0 (mk_fs ["/data/videos/2025-08-12"] []) false.

(** Nothing is configured: no base URL. *)
Definition cfg_blank (max_retries : Z) : Config :=
  mk_config "" "token.pickle" "RPiCam" "Uploaded by RPI-Cam-Web-Interface-Scraper"
    "/data/videos" max_retries 15 "23:59".


(** Two minutes to midnight, and five past midnight of the next day. *)
Definition before_midnight : Datetime.datetime :=
  Datetime.mk_datetime (Datetime.mk_date 2025 8 12) 23 58 0 0.

Definition after_midnight : Datetime.datetime :=
  Datetime.mk_datetime (Datetime.mk_date 2025 8 13) 0 5 0 0.

(** As [env_ok], but midnight passes between the seventh and the eighth
    reading of the clock. *)
Definition env_over_midnight : Env :=
  mk_env (fun n => if (n <? 7)%nat then before_midnight else after_midnight)
    (get_preview env_ok) (get_media env_ok) (post_delete env_ok)
    (subprocess_run env_ok) (pickle_load env_ok) (creds_refresh env_ok)
    (run_console env_ok) (build_service env_ok) (videos_insert env_ok).


(* ====================================================================== *)
(** * Sanity checks of the builtins                                        *)
(* ====================================================================== *)

Example endswith_mp4 : Py.endswith "media/video001.mp4" ".mp4" = true.
Proof. reflexivity. Qed.
Example split_ex : Py.split ":" "23:59" = ["23"; "59"].
Proof. reflexivity. Qed.
Example int_ex : Py.int " -1_0 " = Some (-10)%Z.
Proof. reflexivity. Qed.
Example join_ex : Py.os_path_join "/data/videos" "2025-08-12" = "/data/videos/2025-08-12".
Proof. reflexivity. Qed.
Example fmt_ex : Py.format_padded 2 7 = "07" /\ Py.format_padded 4 2025 = "2025".
Proof. split; reflexivity. Qed.
Example sorted_ex : Py.sorted ["b.mp4"; "a.mp4"; "c.mp4"] = ["a.mp4"; "b.mp4"; "c.mp4"].
Proof. reflexivity. Qed.
Example rstrip_ex : Py.rstrip_slash "http://cam//" = "http://cam".
Proof. reflexivity. Qed.
Example search_size : Re.search Re.size_pattern "x 126 MB 19s" = Some "126 MB".
Proof. reflexivity. Qed.
Example strftime_ex :
  Datetime.strftime_ymd (Datetime.mk_date 2025 8 12) = "2025-08-12".
Proof. reflexivity. Qed.
Example toordinal_ex : Datetime.toordinal (Datetime.mk_date 2025 8 12) = 739475%Z.
Proof. reflexivity. Qed.

(* ====================================================================== *)
(** * Facts about the builtins                                             *)
(* ====================================================================== *)

Lemma endswith_unfold (s suf : string) :
  Py.endswith s suf =
  ((s =? suf) || match s with EmptyString => false | String _ s' => Py.endswith s' suf end).
Proof. now destruct s. Qed.

Lemma endswith_spec (s suf : string) :
  Py.endswith s suf = true <-> exists pre, s = pre ++ suf.
Proof.
  split.
  - induction s as [|c s IH]; rewrite endswith_unfold; intros H.
    + rewrite orb_false_r in H. apply String.eqb_eq in H. exists "". now subst.
    + apply orb_true_iff in H as [H|H].
      * apply String.eqb_eq in H. exists "". now subst.
      * destruct (IH H) as [pre ->]. now exists (String c pre).
  - intros [pre ->]. induction pre as [|c pre IH].
    + change ("" ++ suf) with suf. rewrite endswith_unfold.
      now rewrite String.eqb_refl.
    + change (String c pre ++ suf) with (String c (pre ++ suf)).
      rewrite endswith_unfold, IH. apply orb_true_r.
Qed.

Lemma startswith_spec (s p : string) :
  Py.startswith s p = true <-> exists rest, s = p ++ rest.
Proof.
  unfold Py.startswith. revert s.
  induction p as [|c p IH]; intros s.
  - split; [intros _; now exists s | intros _; now destruct s].
  - destruct s as [|a s]; simpl.
    + split; [discriminate | intros [rest H]; discriminate].
    + destruct (ascii_dec c a) as [->|Hne].
      * rewrite IH. split; intros [rest H]; exists rest; [now subst | now injection H].
      * split; [discriminate|]. intros [rest H]. injection H as H1 _. congruence.
Qed.

Lemma is_media_href_spec (href : string) :
  VideoScraper.is_media_href href = true <->
  (exists rest, href = "media/" ++ rest) /\ (exists pre, href = pre ++ ".mp4").
Proof.
  unfold VideoScraper.is_media_href.
  now rewrite andb_true_iff, startswith_spec, endswith_spec.
Qed.

(* ====================================================================== *)
(** * The listing parser                                                   *)
(* ====================================================================== *)

Section ListingParser.

Import VideoScraper.

Lemma parse_excluded (fieldset : Fieldset) :
  (forall href, a_href fieldset = Some href -> is_media_href href = false) ->
  parse_video_metadata fieldset = Ret None.
Proof.
  intros H. unfold parse_video_metadata.
  destruct (a_href fieldset) as [href|]; [|reflexivity].
  now rewrite (H href eq_refl).
Qed.

Lemma parse_retained (fieldset : Fieldset) (href : string) :
  a_href fieldset = Some href ->
  is_media_href href = true ->
  match delete_btn fieldset with
  | Some None => parse_video_metadata fieldset = Raise key_error
  | _ => exists m, parse_video_metadata fieldset = Ret (Some m) /\ video m = href
                   /\ thumbnail m = match delete_btn fieldset with
                                    | Some v => v
                                    | None => None
                                    end
  end.
Proof.
  intros Ha Hm. unfold parse_video_metadata. rewrite Ha, Hm. simpl negb. cbv iota.
  destruct (delete_btn fieldset) as [[v|]|]; eauto.
Qed.

Lemma collect_videos_keeps (fieldsets : list Fieldset) (videos : list VideoMeta) :
  collect_videos fieldsets = Ret videos ->
  map video videos = filter is_media_href (hrefs fieldsets).
Proof.
  revert videos. induction fieldsets as [|f l IH]; simpl; intros videos H.
  - now injection H as <-.
  - destruct (parse_video_metadata f) as [meta|e] eqn:Hp; [|discriminate].
    destruct (collect_videos l) as [vs|e]; [|discriminate].
    injection H as <-. specialize (IH vs eq_refl).
    unfold hrefs in *. simpl.
    destruct (a_href f) as [href|] eqn:Ha.
    + simpl. destruct (is_media_href href) eqn:Hm.
      * pose proof (parse_retained f href Ha Hm) as Hr.
        destruct (delete_btn f) as [[v|]|];
          try (destruct Hr as (m & Hr & Hv & _); rewrite Hp in Hr;
               injection Hr as ->; simpl; now rewrite Hv, IH).
        rewrite Hp in Hr. discriminate.
      * rewrite parse_excluded in Hp
          by (intros h Hh; rewrite Ha in Hh; now injection Hh as <-).
        injection Hp as <-. exact IH.
    + rewrite parse_excluded in Hp by (intros h Hh; rewrite Ha in Hh; discriminate).
      injection Hp as <-. exact IH.
Qed.




End ListingParser.

(* ====================================================================== *)
(** * Retry loops                                                          *)
(* ====================================================================== *)

Ltac unfold_monad :=
  unfold bind, try_except, ret, raise, raise_if, emit, ask, time_sleep, get_fs, put_fs,
    fs_update, get_youtube_service, set_youtube_service, any_exception,
    value, world_after, events in *.

(** Name the run of a sub-computation that the goal applies to a state. *)
Ltac name_run f :=
  match goal with
  | |- context [f ?w] =>
      let r := fresh "r" in let w' := fresh "w" in let t := fresh "t" in
      destruct (f w) as [[r w'] t] eqn:?
  end.

Section RetryLoops.

Variable cfg : Config.
Variable env : Env.

Lemma fetch_preview_failing (attempts : list nat) :
  BASE_URL cfg <> "" ->
  preview_unavailable env ->
  forall w,
    value (VideoScraper.fetch_preview cfg env attempts w) = Ret None
    /\ events (VideoScraper.fetch_preview cfg env attempts w)
       = retry_trace (HttpGet (Py.rstrip_slash (BASE_URL cfg) ++ "/preview.php")) attempts.
Proof.
  intros Hurl Hfail.
  induction attempts as [|attempt rest IH]; intros w; [now split|].
  cbn [VideoScraper.fetch_preview retry_trace flat_map].
  unfold VideoScraper.request_preview, preview_url.
  apply String.eqb_neq in Hurl. rewrite Hurl.
  unfold_monad. cbn.
  set (url := Py.rstrip_slash (BASE_URL cfg) ++ "/preview.php") in *.
  specialize (Hfail (calls w) url).
  destruct (get_preview env (calls w) url) as [status soup|e]; cbn.
  - apply Z.eqb_neq in Hfail. rewrite Hfail. cbn.
    match goal with |- context [VideoScraper.fetch_preview cfg env rest ?w'] =>
      specialize (IH w'); destruct (VideoScraper.fetch_preview cfg env rest w') as [[r w''] t]
    end.
    cbn in *. destruct IH as [-> ->]. now split.
  - match goal with |- context [VideoScraper.fetch_preview cfg env rest ?w'] =>
      specialize (IH w'); destruct (VideoScraper.fetch_preview cfg env rest w') as [[r w''] t]
    end.
    cbn in *. destruct IH as [-> ->]. now split.
Qed.

Lemma concatenate_attempts_failing (list_path output_path : string) (attempts : list nat) :
  ffmpeg_failing env ->
  forall w,
    value (VideoProcessor.concatenate_attempts env list_path output_path attempts w)
    = Ret false
    /\ events (VideoProcessor.concatenate_attempts env list_path output_path attempts w)
       = retry_trace (Ffmpeg (VideoProcessor.ffmpeg_cmd list_path output_path)) attempts.
Proof.
  intros Hfail.
  induction attempts as [|attempt rest IH]; intros w; [now split|].
  cbn [VideoProcessor.concatenate_attempts retry_trace flat_map].
  unfold VideoProcessor.run_ffmpeg, VideoProcessor.record_output.
  set (cmd := VideoProcessor.ffmpeg_cmd list_path output_path) in *.
  specialize (Hfail (calls w) cmd).
  unfold_monad. cbn.
  destruct (subprocess_run env (calls w) cmd) as [rc written|written|e]; cbn.
  - apply Z.eqb_neq in Hfail. rewrite Hfail.
    destruct written; cbn; [destruct (mem output_path (dirs (fs w))); cbn|];
      match goal with |- context [VideoProcessor.concatenate_attempts env _ _ rest ?w'] =>
        specialize (IH w');
        destruct (VideoProcessor.concatenate_attempts env list_path output_path rest w')
          as [[r w''] t]
      end; cbn in *; destruct IH as [-> ->]; now split.
  - destruct written; cbn; [destruct (mem output_path (dirs (fs w))); cbn|];
      match goal with |- context [VideoProcessor.concatenate_attempts env _ _ rest ?w'] =>
        specialize (IH w');
        destruct (VideoProcessor.concatenate_attempts env list_path output_path rest w')
          as [[r w''] t]
      end; cbn in *; destruct IH as [-> ->]; now split.
  - destruct (is_timeout_expired e); cbn;
      match goal with |- context [VideoProcessor.concatenate_attempts env _ _ rest ?w'] =>
        specialize (IH w');
        destruct (VideoProcessor.concatenate_attempts env list_path output_path rest w')
          as [[r w''] t]
      end; cbn in *; destruct IH as [-> ->]; now split.
Qed.

(** C4 (amended).  A retry loop whose operation fails on every attempt
    makes exactly [MAX_RETRIES] attempts and waits after each of them, the
    last one included: the wait that follows the attempt of index [i] is
    [2 ** i] seconds.  With three attempts allowed it sends three requests
    and sleeps three times, for 1, 2 and 4 seconds.  This holds for the
    listing request of [fetch_video_list], which then returns the empty
    list, and for the merge of [concatenate_videos], which returns
    [False]. *)
Theorem c4_retry_exhaustion (w : World) :
  (BASE_URL cfg <> "" -> preview_unavailable env ->
   let run := VideoScraper.fetch_video_list cfg env w in
   value run = Ret []
   /\ events run = retry_trace (HttpGet (Py.rstrip_slash (BASE_URL cfg) ++ "/preview.php"))
                     (Py.range (MAX_RETRIES cfg)))
  /\ (forall day_dir files output_path,
        open_write (fs w) (Py.os_path_join day_dir "files.txt") <> None ->
        ffmpeg_failing env ->
        let run := VideoProcessor.concatenate_videos cfg env day_dir files output_path w in
        value run = Ret false
        /\ events run
           = retry_trace
               (Ffmpeg (VideoProcessor.ffmpeg_cmd (Py.os_path_join day_dir "files.txt")
                          output_path))
               (Py.range (MAX_RETRIES cfg)))
  /\ (forall request,
        retry_trace request (Py.range 3)
        = [request; Sleep 1; request; Sleep 2; request; Sleep 4]).
Proof.
  split; [|split].
  - intros Hurl Hfail. cbv zeta. unfold VideoScraper.fetch_video_list.
    destruct (fetch_preview_failing (Py.range (MAX_RETRIES cfg)) Hurl Hfail w) as [Hv He].
    unfold bind.
    destruct (VideoScraper.fetch_preview cfg env (Py.range (MAX_RETRIES cfg)) w)
      as [[r w'] t].
    cbn in Hv, He. subst r t. cbn. rewrite app_nil_r. now split.
  - intros day_dir files output_path Hopen Hfail. cbv zeta.
    unfold VideoProcessor.concatenate_videos, VideoProcessor.create_ffmpeg_file_list.
    unfold_monad.
    destruct (open_write (fs w) (Py.os_path_join day_dir "files.txt")) as [s|];
      [|congruence].
    cbn.
    match goal with |- context [VideoProcessor.concatenate_attempts env ?l ?o ?a ?w'] =>
      destruct (concatenate_attempts_failing l o a Hfail w') as [Hv He];
      destruct (VideoProcessor.concatenate_attempts env l o a w') as [[r w''] t]
    end.
    cbn in *. now subst.
  - reflexivity.
Qed.

End RetryLoops.

(** Three attempts allowed, the camera out of reach, an existing day
    bucket and a merge tool that cannot be started. *)
Lemma c4_retry_exhaustion_witness :
  events (VideoScraper.fetch_video_list (cfg_cam 3) env_down w_ready)
  = [HttpGet "http://cam/preview.php"; Sleep 1;
     HttpGet "http://cam/preview.php"; Sleep 2;
     HttpGet "http://cam/preview.php"; Sleep 4]
  /\ value (VideoProcessor.concatenate_videos (cfg_cam 3) env_down
              "/data/videos/2025-08-12" ["a.mp4"; "b.mp4"] artifact_0812 w_ready)
     = Ret false.
Proof.
  pose proof (c4_retry_exhaustion (cfg_cam 3) env_down w_ready) as (Hlist & Hmerge & H3).
  split.
  - destruct Hlist as [_ ->].
    + discriminate.
    + intros n url. exact I.
    + apply H3.
  - apply Hmerge.
    + discriminate.
    + intros n cmd. exact I.
Defined.

(** C4 as stated fails: three failing attempts are followed by three
    sleeps, not two; the last attempt is followed by a sleep of four
    seconds. *)
Lemma c4_counterexample :
  let run := VideoScraper.fetch_video_list (cfg_cam 3) env_down w_empty in
  length (requests (events run)) = 3%nat
  /\ sleeps (events run) = [1; 2; 4]%Z
  /\ length (sleeps (events run)) <> 2%nat
  /\ last (events run) (Sleep 0) = Sleep 4.
Proof.
  cbv zeta. repeat split. discriminate.
Qed.

Section UploadLoop.

Import YouTubeUploader.

Variable cfg : Config.
Variable env : Env.
Variables file_path title description : string.

Lemma upload_attempts_step (attempt : nat) (rest : list nat) (w : World) :
  upload_attempts env file_path title description (attempt :: rest) w =
  match videos_insert env (calls w) file_path title description with
  | Uploaded _ => (Ret true, answered w, [Insert file_path title description])
  | InsertFailed e =>
      let r := upload_attempts env file_path title description rest (answered w) in
      (value r, world_after r,
       Insert file_path title description :: Sleep (retry_wait e attempt) :: events r)
  end.
Proof.
  cbn [upload_attempts]. unfold request_insert. unfold_monad. cbn.
  destruct (videos_insert env (calls w) file_path title description) as [id|e]; cbn.
  - reflexivity.
  - now destruct (upload_attempts env file_path title description rest (answered w))
      as [[r w'] t].
Qed.

Lemma upload_attempts_returns (attempts : list nat) (w : World) :
  exists b, value (upload_attempts env file_path title description attempts w) = Ret b.
Proof.
  revert w. induction attempts as [|attempt rest IH]; intros w.
  - now exists false.
  - rewrite upload_attempts_step.
    destruct (videos_insert env (calls w) file_path title description) as [id|e].
    + now exists true.
    + exact (IH (answered w)).
Qed.

Lemma upload_attempts_exhausted (attempts : list nat) (w : World) :
  value (upload_attempts env file_path title description attempts w) = Ret false ->
  length (requests (events (upload_attempts env file_path title description attempts w)))
  = length attempts
  /\ length (sleeps (events (upload_attempts env file_path title description attempts w)))
     = length attempts
  /\ forall i, (i < length attempts)%nat ->
       exists e, videos_insert env (calls w + i) file_path title description = InsertFailed e.
Proof.
  revert w. induction attempts as [|attempt rest IH]; intros w.
  - intros _. repeat split. intros i Hi. inversion Hi.
  - rewrite upload_attempts_step.
    destruct (videos_insert env (calls w) file_path title description) as [id|e] eqn:Hreply.
    + discriminate.
    + cbv zeta. intros H.
      assert (H' : value (upload_attempts env file_path title description rest (answered w))
                   = Ret false) by exact H.
      destruct (IH (answered w) H') as (Hr & Hs & Hf).
      unfold requests, sleeps in *.
      cbn [value events world_after fst snd filter flat_map is_request app length] in *.
      split; [congruence|]. split; [congruence|].
      intros [|i] Hi.
      * rewrite Nat.add_0_r. eauto.
      * cbn in Hi. specialize (Hf i (proj2 (Nat.succ_lt_mono _ _) Hi)).
        cbn [answered calls] in Hf. now rewrite Nat.add_succ_r.
Qed.

End UploadLoop.

(* ====================================================================== *)
(** * Frame properties of the monad                                        *)
(* ====================================================================== *)

Section Frames.

Context {A B : Type}.

Lemma bind_Ret (m : M A) (k : A -> M B) (w w' : World) (a : A) (t : list event) :
  m w = (Ret a, w', t) ->
  bind m k w = (value (k a w'), world_after (k a w'), (t ++ events (k a w'))%list).
Proof. unfold bind. intros ->. now destruct (k a w') as [[r w''] t']. Qed.

Lemma bind_Raise (m : M A) (k : A -> M B) (w w' : World) (e : exn) (t : list event) :
  m w = (Raise e, w', t) -> bind m k w = (Raise e, w', t).
Proof. unfold bind. now intros ->. Qed.

Lemma silent_bind (m : M A) (k : A -> M B) :
  silent m -> (forall a, silent (k a)) -> silent (bind m k).
Proof.
  intros Hm Hk w. specialize (Hm w). unfold bind.
  destruct (m w) as [[[a|e] w'] t]; cbn in Hm; subst t; [|reflexivity].
  specialize (Hk a w'). now destruct (k a w') as [[r w''] t'].
Qed.

Lemma silent_try_except (m : M A) (catches : exn -> bool) (h : exn -> M A) :
  silent m -> (forall e, silent (h e)) -> silent (try_except m catches h).
Proof.
  intros Hm Hh w. specialize (Hm w). unfold try_except.
  destruct (m w) as [[[a|e] w'] t]; cbn in Hm; subst t; [reflexivity|].
  destruct (catches e); [|reflexivity].
  specialize (Hh e w'). now destruct (h e w') as [[r w''] t'].
Qed.

Lemma total_bind (m : M A) (k : A -> M B) :
  total m -> (forall a, total (k a)) -> total (bind m k).
Proof.
  intros Hm Hk w. destruct (Hm w) as [a Ha]. unfold bind.
  destruct (m w) as [[r w'] t]; cbn in Ha; subst r.
  destruct (Hk a w') as [b Hb]. destruct (k a w') as [[r w''] t'].
  now exists b.
Qed.

Lemma total_try_except (m : M A) (h : exn -> M A) :
  (forall e, total (h e)) -> total (try_except m any_exception h).
Proof.
  intros Hh w. unfold try_except.
  destruct (m w) as [[[a|e] w'] t]; [now exists a|].
  cbn. destruct (Hh e w') as [b Hb]. destruct (h e w') as [[r w''] t'].
  now exists b.
Qed.

Section Stable.

Variable R : World -> World -> Prop.
Hypothesis R_refl : forall w, R w w.
Hypothesis R_trans : forall w1 w2 w3, R w1 w2 -> R w2 w3 -> R w1 w3.

Lemma stable_bind (m : M A) (k : A -> M B) :
  stable R m -> (forall a, stable R (k a)) -> stable R (bind m k).
Proof.
  intros Hm Hk w. specialize (Hm w). unfold bind.
  destruct (m w) as [[[a|e] w'] t]; cbn in Hm; [|exact Hm].
  specialize (Hk a w'). destruct (k a w') as [[r w''] t']. cbn in *. eauto.
Qed.

Lemma stable_try_except (m : M A) (catches : exn -> bool) (h : exn -> M A) :
  stable R m -> (forall e, stable R (h e)) -> stable R (try_except m catches h).
Proof.
  intros Hm Hh w. specialize (Hm w). unfold try_except.
  destruct (m w) as [[[a|e] w'] t]; cbn in Hm; [exact Hm|].
  destruct (catches e); [|exact Hm].
  specialize (Hh e w'). destruct (h e w') as [[r w''] t']. cbn in *. eauto.
Qed.

Lemma stable_ret (a : A) : stable R (ret a).
Proof. intros w. apply R_refl. Qed.

Lemma stable_raise (e : exn) : stable R (@raise A e).
Proof. intros w. apply R_refl. Qed.

End Stable.

Lemma silent_ret (a : A) : silent (ret a).
Proof. now intros w. Qed.

Lemma silent_raise (e : exn) : silent (@raise A e).
Proof. now intros w. Qed.

Lemma silent_ask (oracle : nat -> A) : silent (ask oracle).
Proof. now intros w. Qed.

Lemma total_ret (a : A) : total (ret a).
Proof. intros w. now exists a. Qed.

Lemma total_ask (oracle : nat -> A) : total (ask oracle).
Proof. intros w. now eexists. Qed.

End Frames.

Lemma silent_get_fs : silent get_fs.
Proof. now intros w. Qed.

Lemma silent_put_fs (s : FS) : silent (put_fs s).
Proof. now intros w. Qed.

Lemma silent_fs_update (op : FS -> option FS) : silent (fs_update op).
Proof. intros w. unfold fs_update. now destruct (op (fs w)). Qed.

Lemma silent_raise_if (r : option exn) : silent (raise_if r).
Proof. now destruct r. Qed.

Lemma silent_set_youtube_service : silent set_youtube_service.
Proof. now intros w. Qed.

Lemma silent_get_youtube_service : silent get_youtube_service.
Proof. now intros w. Qed.

Lemma total_emit (e : event) : total (emit e).
Proof. intros w. now exists tt. Qed.

Lemma total_get_fs : total get_fs.
Proof. intros w. now eexists. Qed.

Lemma total_put_fs (s : FS) : total (put_fs s).
Proof. intros w. now exists tt. Qed.

Create HintDb silent_db.
#[local] Hint Resolve silent_ret silent_raise silent_ask silent_get_fs silent_put_fs
  silent_fs_update silent_raise_if silent_set_youtube_service
  silent_get_youtube_service : silent_db.

Create HintDb total_db.
#[local] Hint Resolve total_ret total_ask total_emit total_get_fs total_put_fs : total_db.

Ltac split_cases :=
  match goal with
  | |- context [match ?x with _ => _ end] => destruct x
  | |- context [if ?x then _ else _] => destruct x
  end.

Ltac silent_tac :=
  repeat first
    [ solve [auto with silent_db]
    | apply silent_bind
    | apply silent_try_except
    | match goal with |- forall _, _ => intro end
    | progress unfold time_sleep
    | split_cases ].

Ltac total_tac :=
  repeat first
    [ solve [auto with total_db]
    | apply total_bind
    | apply total_try_except
    | match goal with |- forall _, _ => intro end
    | progress unfold time_sleep
    | split_cases ].

Section UploadVideo.

Import YouTubeUploader.

Variable cfg : Config.
Variable env : Env.

Lemma get_authenticated_service_silent (w : World) :
  events (get_authenticated_service cfg env w) = [].
Proof.
  revert w. change (silent (get_authenticated_service cfg env)).
  unfold get_authenticated_service, log_in, save_token. silent_tac.
Qed.

(** The description sent with an upload: [description or
    config.YOUTUBE_UPLOAD_DESCRIPTION]. *)
Lemma upload_video_unfold (file_path title : string) (description : option string)
      (w : World) :
  let sent := match description with
              | Some d => if d =? "" then YOUTUBE_UPLOAD_DESCRIPTION cfg else d
              | None => YOUTUBE_UPLOAD_DESCRIPTION cfg
              end in
  let attempts w1 :=
    upload_attempts env file_path title sent (Py.range (MAX_RETRIES cfg)) w1 in
  upload_video cfg env file_path title description w =
  if youtube_service w then
    if mem file_path (files (fs w)) then attempts w else (Raise os_error, w, [])
  else
    match get_authenticated_service cfg env w with
    | (Ret _, w1, _) =>
        if mem file_path (files (fs w1)) then attempts w1 else (Raise os_error, w1, [])
    | (Raise e, w1, _) => (Raise e, w1, [])
    end.
Proof.
  cbv zeta. unfold upload_video, media_file_upload.
  unfold bind at 1. unfold get_youtube_service at 1.
  destruct (youtube_service w).
  - unfold_monad. cbn. destruct (mem file_path (files (fs w))); cbn; [|reflexivity].
    now destruct (upload_attempts _ _ _ _ _ w) as [[r w'] t].
  - pose proof (get_authenticated_service_silent w) as Hs.
    unfold bind at 1. unfold bind at 1.
    destruct (get_authenticated_service cfg env w) as [[[u|e] w1] t1]; cbn in Hs; subst t1.
    + unfold_monad. cbn. destruct (mem file_path (files (fs w1))); cbn; [|reflexivity].
      now destruct (upload_attempts _ _ _ _ _ w1) as [[r w'] t].
    + reflexivity.
Qed.

Lemma range_length (n : Z) : length (Py.range n) = Z.to_nat n.
Proof. unfold Py.range. apply length_seq. Qed.

(** C5 (amended).  [upload_video] resolves to a boolean whenever the
    publishing session is already established and the media file can be
    opened; the only exceptions it lets through are those raised while the
    session is being established ([get_authenticated_service]) or while the
    media file is opened, both of which happen before the retry loop; no
    failure of an upload attempt propagates, and [False] is returned only
    after [MAX_RETRIES] attempts, each followed by its wait. *)
Theorem c5_upload_video_outcome
    (file_path title : string) (description : option string) (w : World) :
  let run := upload_video cfg env file_path title description w in
  (youtube_service w = true -> mem file_path (files (fs w)) = true ->
   exists b, value run = Ret b)
  /\ (forall e, value run = Raise e ->
       (youtube_service w = false
        /\ value (get_authenticated_service cfg env w) = Raise e)
       \/ (e = os_error /\ mem file_path (files (fs (world_after run))) = false))
  /\ (value run = Ret false ->
      length (requests (events run)) = Z.to_nat (MAX_RETRIES cfg)
      /\ length (sleeps (events run)) = Z.to_nat (MAX_RETRIES cfg)).
Proof.
  cbv zeta. rewrite upload_video_unfold. cbv zeta.
  set (sent := match description with Some d => _ | None => _ end).
  split; [|split].
  - intros -> ->. apply upload_attempts_returns.
  - intros e. destruct (youtube_service w).
    + destruct (mem file_path (files (fs w))) eqn:Hm.
      * intros H. destruct (upload_attempts_returns env file_path title sent
                              (Py.range (MAX_RETRIES cfg)) w) as [b Hb].
        congruence.
      * cbn. intros [= <-]. now right.
    + destruct (get_authenticated_service cfg env w) as [[[u|e'] w1] t1].
      * destruct (mem file_path (files (fs w1))) eqn:Hm.
        -- intros H. destruct (upload_attempts_returns env file_path title sent
                                 (Py.range (MAX_RETRIES cfg)) w1) as [b Hb].
           congruence.
        -- cbn. intros [= <-]. now right.
      * cbn. intros [= <-]. now left.
  - rewrite <- range_length.
    destruct (youtube_service w).
    + destruct (mem file_path (files (fs w))); [|discriminate].
      intros H. now destruct (upload_attempts_exhausted env _ _ _ _ _ H) as (? & ? & _).
    + destruct (get_authenticated_service cfg env w) as [[[u|e'] w1] t1]; [|discriminate].
      destruct (mem file_path (files (fs w1))); [|discriminate].
      intros H. now destruct (upload_attempts_exhausted env _ _ _ _ _ H) as (? & ? & _).
Qed.

End UploadVideo.

(** With the session established and the merged file on disk, three failed
    attempts end in [False]. *)
Lemma c5_upload_video_outcome_witness :
  (exists b, value (YouTubeUploader.upload_video (cfg_cam 3) env_down artifact_0812
                      "RPiCam 2025-08-12" None w_ready) = Ret b)
  /\ length (requests (events (YouTubeUploader.upload_video (cfg_cam 3) env_down
                                 artifact_0812 "RPiCam 2025-08-12" None w_ready)))
     = 3%nat.
Proof.
  pose proof (c5_upload_video_outcome (cfg_cam 3) env_down artifact_0812
                "RPiCam 2025-08-12" None w_ready) as (Hret & _ & Hfalse).
  split.
  - apply Hret; reflexivity.
  - apply Hfalse. reflexivity.
Defined.

(** C5 as stated fails: in a fresh process whose log-in cannot complete,
    [upload_video] raises instead of returning a boolean. *)
Lemma c5_counterexample :
  value (YouTubeUploader.upload_video (cfg_cam 3) env_down artifact_0812
           "RPiCam 2025-08-12" None w_empty) = Raise os_error
  /\ events (YouTubeUploader.upload_video (cfg_cam 3) env_down artifact_0812
               "RPiCam 2025-08-12" None w_empty) = [].
Proof. split; reflexivity. Qed.

(* ====================================================================== *)
(** * The waits of the publish stage                                       *)
(* ====================================================================== *)

Lemma pow2_lt_cooldown (attempt : nat) :
  (Py.pow2 attempt < YouTubeUploader.rate_limit_cooldown)%Z <-> (attempt < 12)%nat.
Proof.
  unfold Py.pow2, YouTubeUploader.rate_limit_cooldown. split; intros H.
  - destruct (Nat.lt_ge_cases attempt 12) as [|Hge]; [assumption|exfalso].
    assert (2 ^ 12 <= 2 ^ Z.of_nat attempt)%Z by (apply Z.pow_le_mono_r; lia).
    change (2 ^ 12)%Z with 4096%Z in *. lia.
  - assert (2 ^ Z.of_nat attempt <= 2 ^ 11)%Z by (apply Z.pow_le_mono_r; lia).
    change (2 ^ 11)%Z with 2048%Z in *. lia.
Qed.

(** C6 (amended).  A failed upload attempt is followed by one wait before
    the loop goes on: the fixed cooldown of 3600 seconds when the exception
    carries a response of status 403, and [2 ** attempt] seconds for any
    other exception.  The cooldown does not depend on the attempt, and it
    is longer than the standard backoff exactly for the attempts of index
    below 12. *)
Theorem c6_publish_waits (env : Env) (file_path title description : string) :
  (forall attempt rest w e,
      videos_insert env (calls w) file_path title description = InsertFailed e ->
      events (YouTubeUploader.upload_attempts env file_path title description
                (attempt :: rest) w)
      = Insert file_path title description
        :: Sleep (if YouTubeUploader.is_rate_limit e
                  then YouTubeUploader.rate_limit_cooldown
                  else Py.pow2 attempt)
        :: events (YouTubeUploader.upload_attempts env file_path title description
                     rest (answered w)))
  /\ (forall e, YouTubeUploader.is_rate_limit e = true <-> resp e = Some 403%Z)
  /\ YouTubeUploader.rate_limit_cooldown = 3600%Z
  /\ (forall attempt,
        (Py.pow2 attempt < YouTubeUploader.rate_limit_cooldown)%Z <-> (attempt < 12)%nat).
Proof.
  split; [|split; [|split]].
  - intros attempt rest w e H. rewrite upload_attempts_step, H. reflexivity.
  - intros e. unfold YouTubeUploader.is_rate_limit.
    destruct (resp e) as [status|]; [|split; discriminate].
    rewrite Z.eqb_eq. split; congruence.
  - reflexivity.
  - exact pow2_lt_cooldown.
Qed.

(** A rate-limited first attempt waits an hour, a generic failure of the
    same attempt one second. *)
Lemma c6_publish_waits_witness :
  events (YouTubeUploader.upload_attempts env_down "a.mp4" "t" "d" [0%nat] w_ready)
  = [Insert "a.mp4" "t" "d"; Sleep 1]
  /\ (Py.pow2 11 < YouTubeUploader.rate_limit_cooldown)%Z.
Proof.
  pose proof (c6_publish_waits env_down "a.mp4" "t" "d") as (Hstep & _ & _ & Hlt).
  split.
  - rewrite (Hstep 0%nat [] w_ready (mk_exn OtherException None)); reflexivity.
  - apply Hlt. lia.
Defined.

(** C6 as stated fails: with thirteen attempts allowed, the standard
    backoff after the last generic failure (4096 seconds) is longer than
    the rate-limit cooldown. *)
Lemma c6_counterexample :
  In (Sleep (Py.pow2 12))
     (events (YouTubeUploader.upload_video (cfg_cam 13) env_down artifact_0812
                "RPiCam 2025-08-12" None w_ready))
  /\ (YouTubeUploader.rate_limit_cooldown < Py.pow2 12)%Z.
Proof.
  split; [vm_compute; tauto | reflexivity].
Qed.

(* ====================================================================== *)
(** * Fetch and purge                                                      *)
(* ====================================================================== *)

Section FetchAndClean.

Import VideoScraper.

Variable cfg : Config.
Variable env : Env.

(** One pass of the download loop: the request, then either success or the
    wait of the [except] branch. *)
Lemma download_attempt_cases (video_url local_path : string) (attempt : nat) (w : World) :
  let r := try_except (request_media env video_url local_path) any_exception
             (fun _ => time_sleep (Py.pow2 attempt) ;;; ret false) w in
  (value r = Ret true /\ events r = [HttpGet video_url])
  \/ (value r = Ret false /\ events r = [HttpGet video_url; Sleep (Py.pow2 attempt)]).
Proof.
  cbv zeta. unfold request_media. unfold_monad. cbn.
  destruct (get_media env (calls w) video_url) as [status stream_error|e]; cbn.
  - destruct (status =? 200)%Z; cbn.
    + destruct (open_write (fs w) local_path); cbn.
      * destruct stream_error; cbn; auto.
      * auto.
    + auto.
  - auto.
Qed.

Lemma download_attempts_spec (video_url local_path : string) (attempts : list nat) :
  forall w,
    let r := download_attempts env video_url local_path attempts w in
    (exists b, value r = Ret b)
    /\ existsb is_delete_request (events r) = false
    /\ (attempts <> [] -> In (HttpGet video_url) (events r))
    /\ (value r = Ret true -> attempts <> []).
Proof.
  induction attempts as [|attempt rest IH]; intros w r.
  - subst r. cbn. repeat split; eauto; try discriminate; intro; congruence.
  - assert (Hr : r = download_attempts env video_url local_path (attempt :: rest) w)
      by reflexivity.
    clearbody r. cbn [download_attempts] in Hr.
    pose proof (download_attempt_cases video_url local_path attempt w) as Hc.
    cbv zeta in Hc. unfold bind at 1 in Hr.
    destruct (try_except _ _ _ w) as [[r1 w1] t1].
    cbn [value events fst snd] in Hc.
    destruct Hc as [[-> ->]|[-> ->]].
    + cbn in Hr. subst r. cbn. repeat split; eauto; try discriminate.
    + specialize (IH w1). cbv zeta in IH.
      destruct (download_attempts env video_url local_path rest w1) as [[r2 w2] t2].
      cbn in Hr, IH. subst r. cbn. destruct IH as (Hb & Hd & _ & _).
      repeat split; eauto; try discriminate.
Qed.

(** One pass of the deletion loop. *)
Lemma delete_attempt_cases (handle : string) (attempt : nat) (w : World) :
  BASE_URL cfg <> "" ->
  let url := Py.rstrip_slash (BASE_URL cfg) ++ "/preview.php" in
  let r := try_except (request_delete cfg env handle) any_exception
             (fun _ => time_sleep (Py.pow2 attempt) ;;; ret false) w in
  (value r = Ret true /\ events r = [HttpPost url handle])
  \/ (value r = Ret false /\ events r = [HttpPost url handle; Sleep (Py.pow2 attempt)]).
Proof.
  intros Hurl. apply String.eqb_neq in Hurl.
  cbv zeta. unfold request_delete, preview_url. rewrite Hurl. unfold_monad. cbn.
  destruct (post_delete env (calls w) _ handle) as [status body|e]; cbn.
  - destruct (status =? 200)%Z; cbn; auto.
  - auto.
Qed.

Lemma delete_attempts_spec (handle : string) (attempts : list nat) :
  BASE_URL cfg <> "" ->
  forall w,
    let r := delete_attempts cfg env handle attempts w in
    (exists b, value r = Ret b)
    /\ (attempts <> [] -> existsb is_delete_request (events r) = true)
    /\ (forall url h, In (HttpPost url h) (events r) -> h = handle)
    /\ (forall url, ~ In (HttpGet url) (events r)).
Proof.
  intros Hurl.
  induction attempts as [|attempt rest IH]; intros w r.
  - subst r. cbn. repeat split; eauto; try congruence; tauto.
  - assert (Hr : r = delete_attempts cfg env handle (attempt :: rest) w) by reflexivity.
    clearbody r. cbn [delete_attempts] in Hr.
    pose proof (delete_attempt_cases handle attempt w Hurl) as Hc.
    cbv zeta in Hc. unfold bind at 1 in Hr.
    destruct (try_except _ _ _ w) as [[r1 w1] t1].
    cbn [value events fst snd] in Hc.
    destruct Hc as [[-> ->]|[-> ->]].
    + cbn in Hr. subst r. cbn. repeat split; eauto.
      * intros url h [H|[]]. congruence.
      * intros url [H|[]]. discriminate.
    + specialize (IH w1). cbv zeta in IH.
      destruct (delete_attempts cfg env handle rest w1) as [[r2 w2] t2].
      cbn in Hr, IH. subst r. cbn. destruct IH as (Hb & _ & Hh & Hg).
      repeat split; eauto.
      * intros url h [H|[H|H]]; [congruence|discriminate|eauto].
      * intros url [H|[H|H]]; [discriminate|discriminate|eapply Hg; eauto].
Qed.

Lemma fetch_attempt_cases (attempt : nat) (w : World) :
  let r := try_except (soup <- request_preview cfg env ;; ret (Some soup)) any_exception
             (fun _ => time_sleep (Py.pow2 attempt) ;;; ret None) w in
  (value r = Ret None \/ (exists soup, value r = Ret (Some soup)) /\ BASE_URL cfg <> "")
  /\ existsb is_delete_request (events r) = false.
Proof.
  cbv zeta. unfold request_preview, preview_url.
  destruct (BASE_URL cfg =? "") eqn:Hurl.
  - unfold_monad. cbn. auto.
  - apply String.eqb_neq in Hurl. unfold_monad. cbn.
    destruct (get_preview env (calls w) _) as [status soup|e]; cbn.
    + destruct (status =? 200)%Z; cbn; eauto.
    + auto.
Qed.

Lemma fetch_preview_spec (attempts : list nat) :
  forall w,
    let r := fetch_preview cfg env attempts w in
    (exists page, value r = Ret page)
    /\ existsb is_delete_request (events r) = false
    /\ (forall soup, value r = Ret (Some soup) -> BASE_URL cfg <> "" /\ attempts <> []).
Proof.
  induction attempts as [|attempt rest IH]; intros w r.
  - subst r. cbn. repeat split; eauto; discriminate.
  - assert (Hr : r = fetch_preview cfg env (attempt :: rest) w) by reflexivity.
    clearbody r. cbn [fetch_preview] in Hr.
    pose proof (fetch_attempt_cases attempt w) as Hc.
    cbv zeta in Hc. unfold bind at 1 in Hr.
    destruct (try_except _ _ _ w) as [[r1 w1] t1].
    cbn [value events fst snd] in Hc.
    destruct Hc as [[->|[[soup ->] Hurl]] Ht].
    + specialize (IH w1). cbv zeta in IH.
      destruct (fetch_preview cfg env rest w1) as [[r2 w2] t2].
      cbn in Hr, IH. subst r. cbn. destruct IH as (Hb & Hd & Hs).
      rewrite existsb_app, Ht, Hd.
      repeat split; eauto; try discriminate. now apply (Hs soup).
    + cbn in Hr. subst r. cbn. rewrite app_nil_r.
      repeat split; eauto; discriminate.
Qed.

Lemma fetch_video_list_spec (w : World) :
  let r := fetch_video_list cfg env w in
  existsb is_delete_request (events r) = false
  /\ (forall videos, value r = Ret videos -> videos <> [] ->
        BASE_URL cfg <> "" /\ Py.range (MAX_RETRIES cfg) <> []).
Proof.
  intros r.
  assert (Hr : r = fetch_video_list cfg env w) by reflexivity.
  clearbody r. unfold fetch_video_list in Hr.
  pose proof (fetch_preview_spec (Py.range (MAX_RETRIES cfg)) w) as Hp.
  cbv zeta in Hp. unfold bind in Hr.
  destruct (fetch_preview cfg env (Py.range (MAX_RETRIES cfg)) w) as [[r1 w1] t1].
  cbn in Hp. destruct Hp as ([page ->] & Hd & Hs).
  destruct page as [soup|].
  - destruct (Hs soup eq_refl) as [Hurl Hn].
    destruct (collect_videos soup) as [videos|e]; cbn in Hr; subst r; cbn;
      rewrite app_nil_r; split; auto; discriminate.
  - cbn in Hr. subst r. cbn. rewrite app_nil_r. split; auto.
    intros videos [= <-]. congruence.
Qed.

(** What the loop body does for one record. *)
Lemma download_then_delete_spec (day_dir : string) (video_meta : VideoMeta) (w : World) :
  BASE_URL cfg <> "" ->
  Py.range (MAX_RETRIES cfg) <> [] ->
  let run := download_then_delete cfg env day_dir video_meta w in
  let download := download_video cfg env video_meta day_dir w in
  value run = Ret tt
  /\ In (HttpGet (video_url_of cfg video_meta)) (events run)
  /\ (existsb is_delete_request (events run) = true <->
      value download = Ret true /\ has_thumbnail video_meta = true)
  /\ (forall url handle, In (HttpPost url handle) (events run) ->
        thumbnail video_meta = Some handle).
Proof.
  intros Hurl Hn run download.
  assert (Hrun : run = download_then_delete cfg env day_dir video_meta w) by reflexivity.
  assert (Hdl : download = download_video cfg env video_meta day_dir w) by reflexivity.
  clearbody run download.
  unfold download_then_delete in Hrun. unfold bind at 1 in Hrun.
  rewrite <- Hdl in Hrun. unfold download_video in Hdl.
  pose proof (download_attempts_spec (video_url_of cfg video_meta)
                (local_path_of video_meta day_dir) (Py.range (MAX_RETRIES cfg)) w) as Hd.
  cbv zeta in Hd. rewrite <- Hdl in Hd. clear Hdl.
  destruct download as [[r1 w1] t1].
  cbn [value events fst snd] in *.
  destruct Hd as ([downloaded ->] & Hnd & Hget & _). specialize (Hget Hn).
  assert (Hposts : forall url h, ~ In (HttpPost url h) t1).
  { intros url h Hin. rewrite <- not_true_iff_false in Hnd. apply Hnd.
    apply existsb_exists. now exists (HttpPost url h). }
  destruct downloaded.
  - unfold delete_video_from_server, has_thumbnail in *.
    destruct (thumbnail video_meta) as [handle|]; [destruct (handle =? "") eqn:Hh|].
    + cbn in Hrun. subst run. cbn. rewrite app_nil_r, Hnd.
      split; [reflexivity|]. split; [assumption|].
      split; [split; [discriminate|intros [? ?]; discriminate]|].
      intros url h Hin. now apply Hposts in Hin.
    + pose proof (delete_attempts_spec handle (Py.range (MAX_RETRIES cfg)) Hurl w1) as Hx.
      cbv zeta in Hx. unfold bind at 1 in Hrun.
      destruct (delete_attempts cfg env handle _ w1) as [[r2 w2] t2].
      cbn [value events fst snd] in *.
      destruct Hx as ([b ->] & Hdel & Hh' & _). specialize (Hdel Hn).
      cbn in Hrun. subst run. cbn. rewrite app_nil_r, existsb_app, Hdel, orb_true_r.
      repeat split; auto with datatypes.
      intros url h Hin. apply in_app_or in Hin as [Hin|Hin].
      * now apply Hposts in Hin.
      * now rewrite (Hh' url h Hin).
    + cbn in Hrun. subst run. cbn. rewrite app_nil_r, Hnd.
      split; [reflexivity|]. split; [assumption|].
      split; [split; [discriminate|intros [? ?]; discriminate]|].
      intros url h Hin. now apply Hposts in Hin.
  - cbn in Hrun. subst run. cbn. rewrite app_nil_r, Hnd.
    split; [reflexivity|]. split; [assumption|].
    split; [split; [discriminate|intros [? ?]; discriminate]|].
    intros url h Hin. now apply Hposts in Hin.
Qed.



End FetchAndClean.

(** Of two listed recordings the first cannot be downloaded: it is tried
    three times and left on the camera, and the second is still downloaded
    and then deleted. *)
Example fetch_and_clean_first_lost :
  let run := VideoScraper.fetch_and_clean (cfg_cam 3) env_first_lost w_two_files in
  value run = Ret tt
  /\ filter is_request (events run)
     = [HttpGet "http://cam/preview.php";
        HttpGet "http://cam/media/video001.mp4";
        HttpGet "http://cam/media/video001.mp4";
        HttpGet "http://cam/media/video001.mp4";
        HttpGet "http://cam/media/video002.mp4";
        HttpPost "http://cam/preview.php" "thumb002"].
Proof. cbv zeta. split; reflexivity. Qed.

(* ====================================================================== *)
(** * The daily pipeline                                                   *)
(* ====================================================================== *)

Section Growth.

Lemma only_adds_files_refl (w : World) : only_adds_files w w.
Proof. split; [reflexivity|now intros p]. Qed.

Lemma only_adds_files_trans (w1 w2 w3 : World) :
  only_adds_files w1 w2 -> only_adds_files w2 w3 -> only_adds_files w1 w3.
Proof.
  unfold only_adds_files, same_dirs, keeps_files. intros [H1 H2] [H3 H4].
  split; [congruence|auto].
Qed.

Lemma grows_bind {A B} (m : M A) (k : A -> M B) :
  stable only_adds_files m -> (forall a, stable only_adds_files (k a)) ->
  stable only_adds_files (bind m k).
Proof. apply stable_bind. exact only_adds_files_trans. Qed.

Lemma grows_try_except {A} (m : M A) (catches : exn -> bool) (h : exn -> M A) :
  stable only_adds_files m -> (forall e, stable only_adds_files (h e)) ->
  stable only_adds_files (try_except m catches h).
Proof. apply stable_try_except. exact only_adds_files_trans. Qed.

Lemma grows_ret {A} (a : A) : stable only_adds_files (ret a).
Proof. apply stable_ret. exact only_adds_files_refl. Qed.

Lemma grows_raise {A} (e : exn) : stable only_adds_files (@raise A e).
Proof. apply stable_raise. exact only_adds_files_refl. Qed.

Lemma grows_ask {A} (oracle : nat -> A) : stable only_adds_files (ask oracle).
Proof. intros w. split; [reflexivity|now intros p]. Qed.

Lemma grows_emit (e : event) : stable only_adds_files (emit e).
Proof. intros w. split; [reflexivity|now intros p]. Qed.

Lemma grows_get_fs : stable only_adds_files get_fs.
Proof. intros w. split; [reflexivity|now intros p]. Qed.

Lemma grows_get_youtube_service : stable only_adds_files get_youtube_service.
Proof. intros w. split; [reflexivity|now intros p]. Qed.

Lemma grows_set_youtube_service : stable only_adds_files set_youtube_service.
Proof. intros w. split; [reflexivity|now intros p]. Qed.

Lemma grows_raise_if (r : option exn) : stable only_adds_files (raise_if r).
Proof. intros w. destruct r; (split; [reflexivity|now intros p]). Qed.

Lemma mem_In (p : string) (l : list string) : mem p l = true <-> In p l.
Proof.
  unfold mem. rewrite existsb_exists. split.
  - intros (q & Hin & Heq). apply String.eqb_eq in Heq. now subst.
  - intros Hin. exists p. split; [assumption|apply String.eqb_refl].
Qed.

Lemma In_add (p q : string) (l : list string) : In q l -> In q (add p l).
Proof. unfold add. destruct (mem p l); auto with datatypes. Qed.

Lemma In_add_self (p : string) (l : list string) : In p (add p l).
Proof.
  unfold add. destruct (mem p l) eqn:H; [now apply mem_In|auto with datatypes].
Qed.

Lemma grows_put_files (l : list string) (w : World) :
  (forall p, In p (files (fs w)) -> In p l) ->
  only_adds_files w (world_after (put_fs (mk_fs l (dirs (fs w))) w)).
Proof. intros H. split; [reflexivity|exact H]. Qed.

Lemma grows_open_write (p : string) :
  stable only_adds_files (fs_update (fun s => open_write s p)).
Proof.
  intros w. unfold fs_update, open_write.
  destruct (_ || _); [apply only_adds_files_refl|].
  apply grows_put_files. intros q. apply In_add.
Qed.

End Growth.

Create HintDb grows_db.
#[local] Hint Resolve grows_ask grows_emit grows_get_fs grows_get_youtube_service
  grows_set_youtube_service grows_raise_if grows_open_write : grows_db.
#[local] Hint Extern 1 (stable only_adds_files (ret _)) => apply grows_ret : grows_db.
#[local] Hint Extern 1 (stable only_adds_files (raise _)) => apply grows_raise : grows_db.

Ltac grows_tac :=
  repeat first
    [ solve [auto with grows_db]
    | apply grows_bind
    | apply grows_try_except
    | match goal with |- forall _, _ => intro end
    | progress unfold time_sleep
    | split_cases ].

Section DailyPipeline.

Import VideoProcessor.

Variable cfg : Config.
Variable env : Env.

Lemma cleanup_file_silent (day_dir file : string) : silent (cleanup_file day_dir file).
Proof. unfold cleanup_file. silent_tac. Qed.

Lemma cleanup_silent (day_dir : string) (targets : list string) :
  silent (cleanup day_dir targets).
Proof.
  unfold cleanup, cleanup_files. apply silent_bind.
  - induction targets as [|f l IH]; cbn [for_in]; [auto with silent_db|].
    apply silent_bind; [apply cleanup_file_silent|auto].
  - silent_tac.
Qed.

Lemma cleanup_file_total (day_dir file : string) : total (cleanup_file day_dir file).
Proof. unfold cleanup_file. total_tac. Qed.

Lemma cleanup_total (day_dir : string) (targets : list string) :
  total (cleanup day_dir targets).
Proof.
  unfold cleanup, cleanup_files. apply total_bind.
  - induction targets as [|f l IH]; cbn [for_in]; [auto with total_db|].
    apply total_bind; [apply cleanup_file_total|auto].
  - intros _ w. unfold try_except, fs_update.
    destruct (rmdir (fs w) day_dir); cbn; now exists tt.
Qed.

Lemma record_output_grows (output_path : string) (written : bool) :
  stable only_adds_files (record_output output_path written).
Proof.
  unfold record_output. destruct written; [|apply grows_ret].
  intros w. unfold_monad. cbn.
  destruct (mem output_path (dirs (fs w))); [apply only_adds_files_refl|].
  cbn. split; [reflexivity|]. intros q. apply In_add.
Qed.

Lemma concatenate_videos_grows (day_dir : string) (files : list string)
      (output_path : string) :
  stable only_adds_files (concatenate_videos cfg env day_dir files output_path).
Proof.
  unfold concatenate_videos, create_ffmpeg_file_list.
  apply grows_bind; [grows_tac|]. intros list_path.
  induction (Py.range (MAX_RETRIES cfg)) as [|attempt rest IH]; cbn [concatenate_attempts].
  - apply grows_ret.
  - assert (Hrun : stable only_adds_files (run_ffmpeg env list_path output_path)).
    { unfold run_ffmpeg. pose proof record_output_grows. grows_tac. }
    apply grows_bind; [grows_tac|].
    intros done. destruct done; [apply grows_ret|]. grows_tac.
Qed.

Lemma upload_video_grows (file_path title : string) (description : option string) :
  stable only_adds_files (YouTubeUploader.upload_video cfg env file_path title description).
Proof.
  unfold YouTubeUploader.upload_video, YouTubeUploader.get_authenticated_service,
    YouTubeUploader.media_file_upload, YouTubeUploader.log_in, YouTubeUploader.save_token.
  apply grows_bind; [grows_tac|]. intros service.
  apply grows_bind; [grows_tac|]. intros _.
  apply grows_bind; [grows_tac|]. intros _.
  induction (Py.range (MAX_RETRIES cfg)) as [|attempt rest IH];
    cbn [YouTubeUploader.upload_attempts].
  - apply grows_ret.
  - unfold YouTubeUploader.request_insert.
    apply grows_bind; [grows_tac|].
    intros done. destruct done; [apply grows_ret|exact IH].
Qed.

Lemma discard_absent (p : string) (l : list string) : mem p l = false -> discard p l = l.
Proof.
  unfold mem, discard. induction l as [|q l IH]; cbn; [reflexivity|].
  intros H. apply orb_false_iff in H as [Hq Hl].
  rewrite String.eqb_sym, Hq. cbn. now rewrite IH.
Qed.

Lemma mem_cons (q p : string) (l : list string) : mem q (p :: l) = (q =? p) || mem q l.
Proof. reflexivity. Qed.

Lemma spared_nil (day_dir : string) (paths : list string) : spared day_dir [] paths = paths.
Proof.
  unfold spared. cbn [map]. induction paths as [|q l IH]; [reflexivity|].
  cbn [filter]. change (mem q []) with false. cbn [negb]. now rewrite IH.
Qed.

Lemma spared_cons (day_dir f : string) (targets paths : list string) :
  spared day_dir targets (discard (Py.os_path_join day_dir f) paths)
  = spared day_dir (f :: targets) paths.
Proof.
  unfold spared, discard. cbn [map].
  induction paths as [|q l IH]; cbn [filter]; [reflexivity|].
  rewrite mem_cons.
  destruct (q =? Py.os_path_join day_dir f); cbn [negb orb filter].
  - exact IH.
  - destruct (mem q (map (Py.os_path_join day_dir) targets)); cbn [negb]; now rewrite IH.
Qed.

(** [cleanup_files] takes one entry off the set of files, whether it was
    there or not, and never anything else. *)
Lemma cleanup_file_effect (day_dir file : string) (w : World) :
  cleanup_file day_dir file w
  = (Ret tt,
     mk_world (calls w)
       (mk_fs (discard (Py.os_path_join day_dir file) (files (fs w))) (dirs (fs w)))
       (youtube_service w),
     []).
Proof.
  unfold cleanup_file, fs_update, remove, path_exists. unfold_monad. cbn.
  set (p := Py.os_path_join day_dir file).
  destruct w as [n [fl dl] yt]. cbn.
  destruct (mem p fl) eqn:Hf; cbn; [now rewrite Hf|].
  rewrite (discard_absent _ _ Hf).
  destruct (mem p dl); cbn; now rewrite ?Hf.
Qed.

Lemma cleanup_files_effect (day_dir : string) (targets : list string) (w : World) :
  cleanup_files day_dir targets w
  = (Ret tt,
     mk_world (calls w) (mk_fs (spared day_dir targets (files (fs w))) (dirs (fs w)))
       (youtube_service w),
     []).
Proof.
  unfold cleanup_files. revert w.
  induction targets as [|f l IH]; intros w; cbn [for_in].
  - rewrite spared_nil. now destruct w as [n [fl dl] yt].
  - unfold bind. rewrite cleanup_file_effect, IH.
    cbn [calls fs files dirs youtube_service app]. now rewrite spared_cons.
Qed.

(** The disk after the cleanup of a successful run. *)
Lemma cleanup_effect (day_dir : string) (targets : list string) (w : World) :
  let cleaned := mk_fs (spared day_dir targets (files (fs w))) (dirs (fs w)) in
  fs (world_after (cleanup day_dir targets w))
  = if mem day_dir (dirs cleaned) && match children cleaned day_dir with
                                     | [] => true
                                     | _ => false
                                     end
    then mk_fs (files cleaned) (discard day_dir (dirs cleaned))
    else cleaned.
Proof.
  cbv zeta. unfold cleanup, bind. rewrite cleanup_files_effect.
  unfold try_except, fs_update, rmdir. cbn [fs files dirs].
  destruct (mem day_dir (dirs (fs w)) && _); reflexivity.
Qed.

(** One pass of the merge loop sends the command once and does not raise. *)
Lemma ffmpeg_attempt_cases (list_path output_path : string) (w : World) :
  let r := try_except
             (try_except (run_ffmpeg env list_path output_path) is_timeout_expired
                (fun _ => ret false))
             any_exception (fun _ => ret false) w in
  (exists b, value r = Ret b)
  /\ events r = [Ffmpeg (ffmpeg_cmd list_path output_path)].
Proof.
  cbv zeta. unfold run_ffmpeg, record_output. unfold_monad. cbn.
  destruct (subprocess_run env (calls w) _) as [rc written|written|e]; cbn.
  - destruct written; cbn; [destruct (mem output_path (dirs (fs w))); cbn|]; eauto.
  - destruct written; cbn; [destruct (mem output_path (dirs (fs w))); cbn|]; eauto.
  - destruct (is_timeout_expired e); cbn; eauto.
Qed.

Lemma concatenate_attempts_events (list_path output_path : string) (attempts : list nat) :
  forall w e,
    In e (events (concatenate_attempts env list_path output_path attempts w)) ->
    e = Ffmpeg (ffmpeg_cmd list_path output_path) \/ exists secs, e = Sleep secs.
Proof.
  induction attempts as [|attempt rest IH]; intros w e; [intros []|].
  cbn [concatenate_attempts].
  pose proof (ffmpeg_attempt_cases list_path output_path w) as Hc. cbv zeta in Hc.
  unfold bind at 1.
  destruct (try_except _ _ _ w) as [[r1 w1] t1]. cbn [value events fst snd] in Hc.
  destruct Hc as ([b ->] & ->).
  destruct b.
  - cbn. intros [<-|[]]. now left.
  - unfold_monad. cbn. specialize (IH w1).
    destruct (concatenate_attempts env list_path output_path rest w1) as [[r2 w2] t2].
    cbn in *. intros [<-|[<-|H]]; eauto.
Qed.

Lemma concatenate_videos_events (day_dir : string) (files : list string)
      (output_path : string) (w : World) (e : event) :
  In e (events (concatenate_videos cfg env day_dir files output_path w)) ->
  e = Ffmpeg (ffmpeg_cmd (Py.os_path_join day_dir "files.txt") output_path)
  \/ exists secs, e = Sleep secs.
Proof.
  unfold concatenate_videos, create_ffmpeg_file_list, fs_update. unfold_monad.
  destruct (open_write (fs w) _) as [s|]; cbn; [|intros []].
  match goal with |- context [concatenate_attempts env ?l ?o ?a ?w'] =>
    pose proof (concatenate_attempts_events l o a w' e) as H;
    destruct (concatenate_attempts env l o a w') as [[r w''] t]
  end.
  exact H.
Qed.

Lemma upload_attempts_events (file_path title description : string) (attempts : list nat) :
  forall w,
    let r := YouTubeUploader.upload_attempts env file_path title description attempts w in
    (forall e, In e (events r) ->
               e = Insert file_path title description \/ exists secs, e = Sleep secs)
    /\ (value r = Ret true -> In (Insert file_path title description) (events r)).
Proof.
  induction attempts as [|attempt rest IH]; intros w; cbv zeta.
  - split; [intros e []|discriminate].
  - rewrite upload_attempts_step.
    destruct (videos_insert env (calls w) file_path title description) as [id|e0].
    + cbn. split; [intros e [<-|[]]; now left|auto].
    + cbv zeta. cbn [value events fst snd]. destruct (IH (answered w)) as [He Hv].
      split.
      * intros e [<-|[<-|H]]; eauto.
      * intros H. left. reflexivity.
Qed.

Lemma upload_video_events (file_path title : string) (description : option string)
      (w : World) :
  let r := YouTubeUploader.upload_video cfg env file_path title description w in
  (forall e, In e (events r) ->
             (exists sent, e = Insert file_path title sent) \/ exists secs, e = Sleep secs)
  /\ (value r = Ret true -> exists sent, In (Insert file_path title sent) (events r))
  /\ ((exists fp t d, In (Insert fp t d) (events r)) ->
      mem file_path (files (fs (world_after r))) = true).
Proof.
  cbv zeta. rewrite upload_video_unfold. cbv zeta.
  set (sent := match description with Some d => _ | None => _ end).
  assert (Hfs : forall w1,
             fs (world_after (YouTubeUploader.upload_attempts env file_path title sent
                                (Py.range (MAX_RETRIES cfg)) w1)) = fs w1).
  { intros w1. induction (Py.range (MAX_RETRIES cfg)) as [|a l IH] in w1 |- *;
      [reflexivity|].
    rewrite upload_attempts_step.
    destruct (videos_insert env (calls w1) file_path title sent); [reflexivity|].
    cbv zeta. cbn [world_after fst snd]. now rewrite IH. }
  assert (Hatt : forall w1,
    mem file_path (files (fs w1)) = true ->
    let r := YouTubeUploader.upload_attempts env file_path title sent
               (Py.range (MAX_RETRIES cfg)) w1 in
    (forall e, In e (events r) ->
               (exists sent, e = Insert file_path title sent) \/ exists secs, e = Sleep secs)
    /\ (value r = Ret true -> exists sent, In (Insert file_path title sent) (events r))
    /\ ((exists fp t d, In (Insert fp t d) (events r)) ->
        mem file_path (files (fs (world_after r))) = true)).
  { intros w1 Hm. cbv zeta.
    destruct (upload_attempts_events file_path title sent (Py.range (MAX_RETRIES cfg)) w1)
      as [He Hv].
    split; [|split].
    - intros e Hin. destruct (He e Hin) as [->|H]; eauto.
    - eauto.
    - intros _. now rewrite Hfs. }
  destruct (youtube_service w).
  - destruct (mem file_path (files (fs w))) eqn:Hm; [now apply Hatt|].
    cbn. split; [intros e []|split; [discriminate|intros (fp & t & d & [])]].
  - destruct (YouTubeUploader.get_authenticated_service cfg env w) as [[[u|e0] w1] t1].
    + destruct (mem file_path (files (fs w1))) eqn:Hm; [now apply Hatt|].
      cbn. split; [intros e []|split; [discriminate|intros (fp & t & d & [])]].
    + cbn. split; [intros e []|split; [discriminate|intros (fp & t & d & [])]].
Qed.

(** The stages of a run, one after the other. *)
Lemma process_daily_videos_unfold (date_str : option string) (w : World) :
  let date := date_key env date_str w in
  let w0 := after_date date_str w in
  let day_dir := day_dir_of cfg date in
  let output_path := output_path_of cfg date in
  process_daily_videos cfg env date_str w =
  if negb (path_exists (fs w0) day_dir) then (Ret false, w0, [])
  else
    match listdir (fs w0) day_dir with
    | None => (Raise os_error, w0, [])
    | Some names =>
        match Py.sorted (filter is_mp4 names) with
        | [] => (Ret false, w0, [])
        | files =>
            let merge := concatenate_videos cfg env day_dir files output_path w0 in
            match value merge with
            | Raise e => (Raise e, world_after merge, events merge)
            | Ret false => (Ret false, world_after merge, events merge)
            | Ret true =>
                let publish := YouTubeUploader.upload_video cfg env output_path
                                 (title_of cfg date) None (world_after merge) in
                match value publish with
                | Ret true =>
                    (Ret true,
                     world_after (cleanup day_dir (files_to_delete files date)
                                    (world_after publish)),
                     (events merge ++ events publish)%list)
                | other => (other, world_after publish, (events merge ++ events publish)%list)
                end
            end
        end
    end.
Proof.
  cbv zeta. unfold process_daily_videos.
  assert (Hdate :
    forall k : string -> M bool,
      bind match date_str with
           | Some d => ret d
           | None => now <- ask (datetime_now env) ;;
                     ret (Datetime.strftime_ymd (Datetime.dt_date now))
           end k w
      = k (date_key env date_str w) (after_date date_str w)).
  { intros k. destruct date_str as [d|]; unfold_monad; cbn.
    - now destruct (k d w) as [[r w'] t].
    - now destruct (k _ (answered w)) as [[r w'] t]. }
  rewrite Hdate. clear Hdate. unfold output_path_of, day_dir_of.
  set (date := date_key env date_str w). set (w0 := after_date date_str w).
  set (day_dir := Py.os_path_join (DATA_DIR cfg) date).
  set (output_path := Py.os_path_join day_dir (output_filename_of date)).
  unfold bind at 1. unfold get_fs at 1.
  destruct (path_exists (fs w0) day_dir) eqn:Hex; cbn [negb]; [|reflexivity].
  unfold get_video_files. unfold bind at 1. unfold bind at 1. unfold get_fs at 1.
  rewrite Hex. cbn [negb].
  destruct (listdir (fs w0) day_dir) as [names|]; [|reflexivity].
  cbn [ret]. rewrite app_nil_l.
  destruct (Py.sorted (filter is_mp4 names)) as [|f files] eqn:Hfiles; [reflexivity|].
  unfold bind at 1.
  destruct (concatenate_videos cfg env day_dir (f :: files) output_path w0)
    as [[[merged|e] w1] t1]; cbn [value world_after events fst snd]; [|reflexivity].
  destruct merged; cbn [negb]; [|cbn; now rewrite app_nil_r].
  unfold bind at 1.
  destruct (YouTubeUploader.upload_video cfg env output_path (title_of cfg date) None w1)
    as [[[published|e] w2] t2]; cbn [value world_after events fst snd]; [|reflexivity].
  destruct published.
  - fold (files_to_delete (f :: files) date).
    change (cleanup_files day_dir (files_to_delete (f :: files) date) ;;;
            try_except (fs_update (fun s => rmdir s day_dir)) is_os_error
              (fun _ => ret tt))
      with (cleanup day_dir (files_to_delete (f :: files) date)).
    pose proof (cleanup_silent day_dir (files_to_delete (f :: files) date) w2) as Hs.
    destruct (cleanup_total day_dir (files_to_delete (f :: files) date) w2) as [[] Ht].
    unfold bind at 1.
    destruct (cleanup day_dir (files_to_delete (f :: files) date) w2) as [[r3 w3] t3].
    cbn in Hs, Ht. subst. cbn. now rewrite !app_nil_r.
  - cbn. now rewrite !app_nil_r.
Qed.

Lemma fs_after_date (date_str : option string) (w : World) :
  fs (after_date date_str w) = fs w.
Proof. now destruct date_str. Qed.


Lemma discard_In (p q : string) (l : list string) :
  In q (discard p l) <-> In q l /\ q <> p.
Proof.
  unfold discard. rewrite filter_In, negb_true_iff, String.eqb_neq. tauto.
Qed.

Lemma spared_In (day_dir : string) (targets paths : list string) (p : string) :
  In p (spared day_dir targets paths)
  <-> In p paths /\ ~ In p (map (Py.os_path_join day_dir) targets).
Proof.
  unfold spared. rewrite filter_In, negb_true_iff, <- not_true_iff_false, mem_In. tauto.
Qed.

Lemma listdir_is_dir (s : FS) (d : string) (names : list string) :
  listdir s d = Some names -> mem d (dirs s) = true.
Proof. unfold listdir. now destruct (mem d (dirs s)). Qed.


Lemma append_assoc (a b c : string) : (a ++ b) ++ c = a ++ (b ++ c).
Proof. induction a as [|x a IH]; cbn; [reflexivity|now rewrite IH]. Qed.

Lemma endswith_append (a b suf : string) :
  String.length suf <= String.length b -> Py.endswith (a ++ b) suf = Py.endswith b suf.
Proof.
  intros Hlen. induction a as [|x a IH]; [reflexivity|].
  change (String x a ++ b) with (String x (a ++ b)).
  rewrite endswith_unfold, IH.
  replace (String x (a ++ b) =? suf) with false; [reflexivity|].
  symmetry. apply String.eqb_neq. intros H.
  apply (f_equal String.length) in H. cbn in H.
  assert (String.length (a ++ b) = String.length a + String.length b).
  { clear. induction a; cbn; auto. }
  lia.
Qed.

(** C8 (amended).  Every upload request of a run carries the path
    [<day bucket>/<date>_combined.mp4] and the title made of the configured
    prefix, one space and the date key, and a run that returns [True] has
    sent at least one such request.  The name of the merged artifact,
    [<date>_combined.mp4], depends on the date key only; for the date key
    "2025-08-12" and a data directory given without a trailing slash the
    path is [<dataDir>/2025-08-12/2025-08-12_combined.mp4]. *)
Theorem c8_publish_call (date_str : option string) (w : World) :
  let date := date_key env date_str w in
  let run := process_daily_videos cfg env date_str w in
  (forall file_path title description,
      In (Insert file_path title description) (events run) ->
      file_path = output_path_of cfg date
      /\ title = YOUTUBE_UPLOAD_TITLE_PREFIX cfg ++ " " ++ date)
  /\ (value run = Ret true ->
      exists description,
        In (Insert (output_path_of cfg date)
              (YOUTUBE_UPLOAD_TITLE_PREFIX cfg ++ " " ++ date) description)
           (events run))
  /\ output_path_of cfg date
     = Py.os_path_join (Py.os_path_join (DATA_DIR cfg) date) (date ++ "_combined.mp4")
  /\ (DATA_DIR cfg <> "" -> Py.endswith (DATA_DIR cfg) "/" = false ->
      output_path_of cfg "2025-08-12"
      = DATA_DIR cfg ++ "/2025-08-12/2025-08-12_combined.mp4").
Proof.
  intros date run.
  assert (Hrun : run = process_daily_videos cfg env date_str w) by reflexivity.
  clearbody run. rewrite process_daily_videos_unfold in Hrun. cbv zeta in Hrun.
  fold date in Hrun.
  set (w0 := after_date date_str w) in *. set (day_dir := day_dir_of cfg date) in *.
  assert (Hshape :
    (forall file_path title description,
        In (Insert file_path title description) (events run) ->
        file_path = output_path_of cfg date /\ title = title_of cfg date)
    /\ (value run = Ret true ->
        exists description,
          In (Insert (output_path_of cfg date) (title_of cfg date) description)
             (events run))).
  { destruct (path_exists (fs w0) day_dir); cbn [negb] in Hrun;
      [|subst run; split; [intros ? ? ? []|discriminate]].
    destruct (listdir (fs w0) day_dir) as [names|];
      [|subst run; split; [intros ? ? ? []|discriminate]].
    destruct (Py.sorted (filter is_mp4 names)) as [|f media];
      [subst run; split; [intros ? ? ? []|discriminate]|].
    pose proof (concatenate_videos_events day_dir (f :: media) (output_path_of cfg date) w0)
      as Hmerge.
    set (merge := concatenate_videos cfg env day_dir (f :: media)
                    (output_path_of cfg date) w0) in *.
    assert (Hm : forall fp t d, ~ In (Insert fp t d) (events merge)).
    { intros fp t d Hin. destruct (Hmerge _ Hin) as [H|[secs H]]; discriminate. }
    destruct (value merge) as [[|]|e];
      [| subst run; split; [intros fp t d Hin; now apply Hm in Hin|discriminate] ..].
    pose proof (upload_video_events (output_path_of cfg date) (title_of cfg date) None
                  (world_after merge)) as (Hall & Hsent & _).
    set (publish := YouTubeUploader.upload_video cfg env (output_path_of cfg date)
                      (title_of cfg date) None (world_after merge)) in *.
    assert (Hins : forall fp t d,
               In (Insert fp t d) (events merge ++ events publish) ->
               fp = output_path_of cfg date /\ t = title_of cfg date).
    { intros fp t d Hin. apply in_app_or in Hin as [Hin|Hin]; [now apply Hm in Hin|].
      destruct (Hall _ Hin) as [[sent H]|[secs H]]; [|discriminate].
      injection H as -> -> _. now split. }
    destruct (value publish) as [[|]|e]; subst run;
      (split; [exact Hins|]); try discriminate.
    intros _. destruct (Hsent eq_refl) as [sent Hin]. exists sent.
    cbn. apply in_or_app. now right. }
  destruct Hshape as [H1 H2].
  split; [exact H1|]. split; [exact H2|]. split; [reflexivity|].
  intros Hne Hslash. unfold output_path_of, day_dir_of, output_filename_of.
  apply String.eqb_neq in Hne.
  assert (Hday : Py.os_path_join (DATA_DIR cfg) "2025-08-12" = DATA_DIR cfg ++ "/2025-08-12").
  { unfold Py.os_path_join. cbn [Py.startswith]. rewrite Hne, Hslash. reflexivity. }
  rewrite Hday. unfold Py.os_path_join.
  rewrite endswith_append by (cbn; lia).
  replace (DATA_DIR cfg ++ "/2025-08-12" =? "") with false
    by (symmetry; apply String.eqb_neq; now destruct (DATA_DIR cfg)).
  change (Py.startswith ("2025-08-12" ++ "_combined.mp4") "/") with false.
  change (Py.endswith "/2025-08-12" "/") with false.
  cbn [orb]. rewrite append_assoc. reflexivity.
Qed.

End DailyPipeline.

(** C8 as stated fails: in the scenario of the claim (two recordings of
    2025-08-12, merge and publish succeed) the only upload request carries
    the path ending in "2025-08-12_combined.mp4"; none carries the path
    "<dataDir>/2025-08-12/2025-08-12_combined". *)
Lemma c8_counterexample :
  let run := VideoProcessor.process_daily_videos (cfg_cam 3) env_ok (Some "2025-08-12")
               w_two_files in
  value run = Ret true
  /\ requests (events run)
     = [Ffmpeg (VideoProcessor.ffmpeg_cmd "/data/videos/2025-08-12/files.txt"
                  "/data/videos/2025-08-12/2025-08-12_combined.mp4");
        Insert "/data/videos/2025-08-12/2025-08-12_combined.mp4" "RPiCam 2025-08-12"
          "Uploaded by RPI-Cam-Web-Interface-Scraper"]
  /\ ~ (exists description,
          In (Insert "/data/videos/2025-08-12/2025-08-12_combined" "RPiCam 2025-08-12"
                description)
             (events run)).
Proof.
  cbv zeta. split; [reflexivity|]. split; [reflexivity|].
  intros (description & Hin). vm_compute in Hin.
  destruct Hin as [H|[H|[]]]; discriminate.
Qed.

(** The scenario of C8 on the default configuration. *)
Lemma c8_publish_call_witness :
  In (Insert "/data/videos/2025-08-12/2025-08-12_combined.mp4" "RPiCam 2025-08-12"
        "Uploaded by RPI-Cam-Web-Interface-Scraper")
     (events (VideoProcessor.process_daily_videos (cfg_cam 3) env_ok (Some "2025-08-12")
                w_two_files))
  /\ output_path_of (cfg_cam 3) "2025-08-12"
     = DATA_DIR (cfg_cam 3) ++ "/2025-08-12/2025-08-12_combined.mp4".
Proof.
  pose proof (c8_publish_call (cfg_cam 3) env_ok (Some "2025-08-12") w_two_files)
    as (Hall & Hsent & _ & Hpath).
  split.
  - destruct (Hsent eq_refl) as [description Hin].
    destruct (Hall _ _ _ Hin) as [_ _].
    vm_compute in Hin. destruct Hin as [H|[H|[]]]; [discriminate|].
    injection H as <-. vm_compute. tauto.
  - apply Hpath; [discriminate|reflexivity].
Defined.

(* ====================================================================== *)
(** * The file list of a day bucket                                        *)
(* ====================================================================== *)

Section PathFacts.

Lemma split_nonempty (sep : ascii) (s : string) : Py.split sep s <> [].
Proof.
  destruct s as [|c s]; cbn; [discriminate|].
  destruct (Ascii.eqb c sep); [discriminate|].
  destruct (Py.split sep s); discriminate.
Qed.

Lemma split_app_sep (sep : ascii) (a b : string) :
  Py.split sep (a ++ String sep b) = (Py.split sep a ++ Py.split sep b)%list.
Proof.
  induction a as [|c a IH].
  - cbn. now rewrite Ascii.eqb_refl.
  - change (String c a ++ String sep b) with (String c (a ++ String sep b)).
    cbn [Py.split]. rewrite IH.
    destruct (Ascii.eqb c sep); [reflexivity|].
    pose proof (split_nonempty sep a) as Hne.
    destruct (Py.split sep a) as [|hd tl]; [congruence|reflexivity].
Qed.

Lemma split_no_sep (sep : ascii) (s : string) :
  Py.contains sep s = false -> Py.split sep s = [s].
Proof.
  induction s as [|c s IH]; cbn; [reflexivity|].
  intros H. apply orb_false_iff in H as [Hc Hs].
  rewrite Hc, (IH Hs). reflexivity.
Qed.

Lemma last_app_nonempty {A} (l1 l2 : list A) (d : A) :
  l2 <> [] -> last (l1 ++ l2) d = last l2 d.
Proof.
  intros Hne. induction l1 as [|x l1 IH]; [reflexivity|].
  cbn [app last]. rewrite IH.
  destruct (l1 ++ l2)%list eqn:E; [|reflexivity].
  apply app_eq_nil in E as [_ E]. congruence.
Qed.

Lemma last_component_slash (a b : string) :
  Py.last_component (a ++ String "/" b) = Py.last_component b.
Proof.
  unfold Py.last_component. rewrite split_app_sep.
  apply last_app_nonempty, split_nonempty.
Qed.

Lemma last_component_plain (name : string) :
  Py.contains "/" name = false -> Py.last_component name = name.
Proof. intros H. unfold Py.last_component. now rewrite split_no_sep. Qed.

Lemma startswith_slash_contains (name : string) :
  Py.startswith name "/" = true -> Py.contains "/" name = true.
Proof.
  intros H. apply startswith_spec in H as [rest ->]. reflexivity.
Qed.

(** An entry name without a separator is the last component of its path
    in the directory. *)
Lemma last_component_join (d name : string) :
  Py.contains "/" name = false ->
  Py.last_component (Py.os_path_join d name) = name.
Proof.
  intros Hname. unfold Py.os_path_join.
  destruct (Py.startswith name "/") eqn:Hs.
  { apply startswith_slash_contains in Hs. congruence. }
  destruct (d =? "") eqn:Hd; cbn [orb].
  { apply String.eqb_eq in Hd. subst d. now apply last_component_plain. }
  destruct (Py.endswith d "/") eqn:He.
  - apply endswith_spec in He as [pre ->]. rewrite append_assoc.
    change ("/" ++ name) with (String "/" name).
    rewrite last_component_slash. now apply last_component_plain.
  - change ("/" ++ name) with (String "/" name).
    rewrite last_component_slash. now apply last_component_plain.
Qed.

Lemma contains_append (c : ascii) (a b : string) :
  Py.contains c (a ++ b) = Py.contains c a || Py.contains c b.
Proof.
  induction a as [|x a IH]; [reflexivity|].
  cbn. now rewrite IH, orb_assoc.
Qed.

Lemma is_child_join (d name : string) :
  name <> "" -> Py.contains "/" name = false ->
  is_child d (Py.os_path_join d name) = true.
Proof.
  intros Hne Hname. unfold is_child. rewrite (last_component_join d name Hname).
  apply String.eqb_neq in Hne. now rewrite Hne, String.eqb_refl.
Qed.

Lemma listdir_lists_file (s : FS) (d name : string) :
  name <> "" -> Py.contains "/" name = false ->
  mem d (dirs s) = true ->
  mem (Py.os_path_join d name) (files s) = true ->
  exists names, listdir s d = Some names /\ In name names.
Proof.
  intros Hne Hname Hd Hf. unfold listdir. rewrite Hd. eexists. split; [reflexivity|].
  rewrite <- (last_component_join d name Hname) at 1.
  apply in_map. unfold children. apply filter_In. split.
  - apply in_or_app. left. now apply mem_In.
  - now apply is_child_join.
Qed.

End PathFacts.

Section Sorting.

Lemma insert_sorted_perm (x : string) (l : list string) :
  Permutation (Py.insert_sorted x l) (x :: l).
Proof.
  induction l as [|y l IH]; cbn; [reflexivity|].
  destruct (String.leb x y); [reflexivity|].
  rewrite IH. apply perm_swap.
Qed.

Lemma sorted_perm (l : list string) : Permutation (Py.sorted l) l.
Proof.
  unfold Py.sorted. induction l as [|x l IH]; cbn; [reflexivity|].
  rewrite insert_sorted_perm. now constructor.
Qed.

Lemma insert_sorted_ordered (x : string) (l : list string) :
  Sorted leb_rel l -> Sorted leb_rel (Py.insert_sorted x l).
Proof.
  induction 1 as [|y l Hs IH Hhd]; cbn; [repeat constructor|].
  destruct (String.leb x y) eqn:Hxy.
  - repeat constructor; assumption.
  - constructor; [exact IH|].
    assert (Hyx : leb_rel y x).
    { unfold leb_rel. destruct (String.leb_total x y); congruence. }
    destruct l as [|z l]; cbn.
    + now constructor.
    + destruct (String.leb x z); constructor; [assumption|].
      now inversion Hhd.
Qed.

Lemma sorted_ordered (l : list string) : Sorted leb_rel (Py.sorted l).
Proof.
  unfold Py.sorted. induction l as [|x l IH]; cbn; [constructor|].
  now apply insert_sorted_ordered.
Qed.

End Sorting.

Section FileList.

Import VideoProcessor.

Variable cfg : Config.
Variable env : Env.

Lemma get_video_files_listed (w : World) (day_dir : string) (names : list string) :
  listdir (fs w) day_dir = Some names ->
  get_video_files day_dir w = (Ret (Py.sorted (filter is_mp4 names)), w, []).
Proof.
  intros Hls. unfold get_video_files. unfold_monad.
  assert (Hex : path_exists (fs w) day_dir = true).
  { unfold path_exists. rewrite (listdir_is_dir _ _ _ Hls). apply orb_true_r. }
  rewrite Hex, Hls. reflexivity.
Qed.

Lemma output_filename_plain (date : string) :
  Py.contains "/" date = false ->
  output_filename_of date <> "" /\ Py.contains "/" (output_filename_of date) = false
  /\ is_mp4 (output_filename_of date) = true.
Proof.
  intros H. unfold output_filename_of, is_mp4. split; [now destruct date|]. split.
  - rewrite contains_append, H. reflexivity.
  - apply endswith_spec. exists (date ++ "_combined"). now rewrite append_assoc.
Qed.

(** C10.  [get_video_files] returns the entries of the bucket whose name
    ends in ".mp4", all of them and nothing else, in ascending order.  In
    particular, after a run whose publish step was attempted and failed,
    the merged artifact [<date>_combined.mp4] is still on disk and is part
    of the file list that the next run for that date starts from. *)
Theorem c10_file_list :
  (forall w day_dir names,
      listdir (fs w) day_dir = Some names ->
      let media := Py.sorted (filter is_mp4 names) in
      value (get_video_files day_dir w) = Ret media
      /\ Sorted leb_rel media
      /\ Permutation media (filter is_mp4 names)
      /\ (forall f, In f media <-> In f names /\ Py.endswith f ".mp4" = true))
  /\ (forall date w,
        Py.contains "/" date = false ->
        let run := process_daily_videos cfg env (Some date) w in
        value run = Ret false ->
        (exists file_path title description,
            In (Insert file_path title description) (events run)) ->
        mem (output_path_of cfg date) (files (fs (world_after run))) = true
        /\ exists media,
             value (get_video_files (day_dir_of cfg date) (world_after run)) = Ret media
             /\ In (output_filename_of date) media).
Proof.
  split.
  - intros w day_dir names Hls media.
    rewrite (get_video_files_listed _ _ _ Hls).
    split; [reflexivity|]. split; [apply sorted_ordered|].
    split; [apply sorted_perm|].
    intros f. subst media. split.
    + intros H. apply (Permutation_in _ (sorted_perm _)) in H.
      now apply filter_In in H.
    + intros H. apply (Permutation_in _ (Permutation_sym (sorted_perm _))).
      now apply filter_In.
  - intros date w Hdate run Hfalse (fp & t & d & Hin).
    assert (Hrun : run = process_daily_videos cfg env (Some date) w) by reflexivity.
    clearbody run. rewrite process_daily_videos_unfold in Hrun. cbv zeta in Hrun.
    cbn [date_key after_date] in Hrun.
    set (day_dir := day_dir_of cfg date) in *.
    set (output_path := output_path_of cfg date) in *.
    destruct (path_exists (fs w) day_dir); cbn [negb] in Hrun;
      [|subst run; destruct Hin].
    destruct (listdir (fs w) day_dir) as [names|] eqn:Hls; [|subst run; destruct Hin].
    destruct (Py.sorted (filter is_mp4 names)) as [|f media]; [subst run; destruct Hin|].
    pose proof (concatenate_videos_events cfg env day_dir (f :: media) output_path w)
      as Hmerge.
    pose proof (concatenate_videos_grows cfg env day_dir (f :: media) output_path w)
      as [Hd1 _].
    set (merge := concatenate_videos cfg env day_dir (f :: media) output_path w) in *.
    assert (Hm : forall fp t d, ~ In (Insert fp t d) (events merge)).
    { intros fp' t' d' H. destruct (Hmerge _ H) as [H'|[secs H']]; discriminate. }
    destruct (value merge) as [[|]|e];
      [| subst run; now apply Hm in Hin ..].
    pose proof (upload_video_events cfg env output_path (title_of cfg date) None
                  (world_after merge)) as (_ & _ & Hpresent).
    pose proof (upload_video_grows cfg env output_path (title_of cfg date) None
                  (world_after merge)) as [Hd2 _].
    set (publish := YouTubeUploader.upload_video cfg env output_path (title_of cfg date)
                      None (world_after merge)) in *.
    assert (Hw : world_after run = world_after publish /\ events run
                 = (events merge ++ events publish)%list).
    { destruct (value publish) as [[|]|e]; subst run; try discriminate; now split. }
    destruct Hw as [Hw He]. rewrite Hw. rewrite He in Hin.
    apply in_app_or in Hin as [Hin|Hin]; [now apply Hm in Hin|].
    assert (Hfile : mem output_path (files (fs (world_after publish))) = true)
      by (apply Hpresent; eauto).
    split; [exact Hfile|].
    destruct (output_filename_plain date Hdate) as (Hne & Hplain & Hmp4).
    assert (Hdir : mem day_dir (dirs (fs (world_after publish))) = true).
    { unfold same_dirs in Hd1, Hd2. rewrite Hd2, Hd1. exact (listdir_is_dir _ _ _ Hls). }
    destruct (listdir_lists_file (fs (world_after publish)) day_dir
                (output_filename_of date) Hne Hplain Hdir Hfile) as (names' & Hls' & Hin').
    exists (Py.sorted (filter is_mp4 names')).
    rewrite (get_video_files_listed _ _ _ Hls'). split; [reflexivity|].
    apply (Permutation_in _ (Permutation_sym (sorted_perm _))).
    apply filter_In. now split.
Qed.

End FileList.

(* ====================================================================== *)
(** * The daily pipeline on concrete buckets                               *)
(* ====================================================================== *)



(** Two recordings, merged, but the publishing service refuses the upload
    three times: the artifact stays and the next run lists it. *)
Lemma c10_file_list_witness :
  let run := VideoProcessor.process_daily_videos (cfg_cam 3) env_no_publish
               (Some "2025-08-12") w_two_files in
  (exists media,
      value (VideoProcessor.get_video_files "/data/videos/2025-08-12" (world_after run))
      = Ret media
      /\ In "2025-08-12_combined.mp4" media)
  /\ value (VideoProcessor.get_video_files "/data/videos/2025-08-12" w_two_files)
     = Ret ["video001.mp4"; "video002.mp4"].
Proof.
  cbv zeta. destruct (c10_file_list (cfg_cam 3) env_no_publish) as [Hlist Hleft].
  split.
  - apply (Hleft "2025-08-12" w_two_files).
    + reflexivity.
    + reflexivity.
    + do 3 eexists. vm_compute. right. left. reflexivity.
  - destruct (Hlist w_two_files "/data/videos/2025-08-12" ["video001.mp4"; "video002.mp4"]
                eq_refl) as [Hv _].
    exact Hv.
Defined.

(* ====================================================================== *)
(** * What the stages print                                                *)
(* ====================================================================== *)

Section EmitsOnly.

Context {A B : Type}.
Variable P : event -> Prop.






End EmitsOnly.




Section StagesPrintNothing.

Variable cfg : Config.
Variable env : Env.



End StagesPrintNothing.

(* ====================================================================== *)
(** * The scheduler                                                        *)
(* ====================================================================== *)

Section Monitor.





End Monitor.

Section SchedulerFacts.

Import Scheduler.

Variable cfg : Config.
Variable env : Env.

Lemma bind_assoc {A B C} (m : M A) (f : A -> M B) (g : B -> M C) (w : World) :
  bind (bind m f) g w = bind m (fun a => bind (f a) g) w.
Proof.
  unfold bind. destruct (m w) as [[[a|e] w1] t1]; [|reflexivity].
  destruct (f a w1) as [[[b|e] w2] t2]; [|reflexivity].
  destruct (g b w2) as [[r w3] t3]. now rewrite app_assoc.
Qed.

Lemma bind_ext {A B} (m : M A) (k1 k2 : A -> M B) (w : World) :
  (forall a w', k1 a w' = k2 a w') -> bind m k1 w = bind m k2 w.
Proof.
  intros H. unfold bind. destruct (m w) as [[[a|e] w1] t1]; [|reflexivity].
  now rewrite H.
Qed.

(** The decision taken at a tick. *)
Lemma should_run_daily_process_eq (self : RPiCamScheduler) (w : World) :
  let now := datetime_now env (calls w) in
  let fresh := match last_daily_process self with
               | None => true
               | Some last => negb (Datetime.date_eqb last (Datetime.dt_date now))
               end in
  should_run_daily_process cfg env self w =
  match Datetime.replace_time now (fst (configured_time (DAILY_PROCESS_TIME cfg)))
          (snd (configured_time (DAILY_PROCESS_TIME cfg))) with
  | Some target_time => (Ret (Datetime.geb now target_time && fresh), answered w, [])
  | None => (Raise value_error, answered w, [])
  end.
Proof.
  cbv zeta. unfold should_run_daily_process. unfold_monad. cbn.
  destruct (configured_time (DAILY_PROCESS_TIME cfg)) as [h m]. cbn [fst snd].
  destruct (Datetime.replace_time _ h m) as [target|]; [|reflexivity].
  now destruct (Datetime.geb _ target && _).
Qed.

(** A triggered run: the start line, the pipeline, then the line of its
    outcome; only a success moves the last-run date. *)
Lemma run_daily_process_eq (self : RPiCamScheduler) (w : World) :
  let pipeline := VideoProcessor.process_daily_videos cfg env None (answered w) in
  let w2 := world_after pipeline in
  let started := Print (datetime_now env (calls w)) DailyStarted in
  let finished line := Print (datetime_now env (calls w2)) line in
  run_daily_process cfg env self w =
  match value pipeline with
  | Ret true =>
      (Ret (mk_scheduler (running self)
              (Some (Datetime.dt_date (datetime_now env (S (calls w2)))))),
       answered (answered w2),
       started :: events pipeline ++ [finished DailyCompleted])%list
  | Ret false =>
      (Ret self, answered w2, started :: events pipeline ++ [finished DailyFailed])%list
  | Raise _ =>
      (Ret self, answered w2, started :: events pipeline ++ [finished DailyError])%list
  end.
Proof.
  cbv zeta. unfold run_daily_process, print_now.
  generalize (VideoProcessor.process_daily_videos cfg env None). intros pipeline.
  unfold_monad. cbn.
  destruct (pipeline (answered w)) as [[[success|e] w2] t].
  - destruct success; cbn; now rewrite ?app_nil_r.
  - cbn. now rewrite ?app_nil_r.
Qed.





Lemma date_eqb_eq (a b : Datetime.date) : Datetime.date_eqb a b = true <-> a = b.
Proof.
  unfold Datetime.date_eqb. rewrite !andb_true_iff, !Z.eqb_eq.
  destruct a, b; cbn. split; [intros [[-> ->] ->]; reflexivity|].
  intros [= -> -> ->]. auto.
Qed.


Section OneDate.

Variable today : Datetime.date.
Hypothesis Hday : within_date env today.







End OneDate.

End SchedulerFacts.


(* ====================================================================== *)
(** * The configuration                                                    *)
(* ====================================================================== *)

Section ConfigFacts.

Lemma rstrip_slash_spec (s : string) :
  exists slashes,
    s = Py.rstrip_slash s ++ slashes
    /\ only_slashes slashes = true
    /\ Py.endswith (Py.rstrip_slash s) "/" = false.
Proof.
  induction s as [|c s (slashes & Hs & Hall & Hend)].
  - now exists "".
  - cbn [Py.rstrip_slash].
    destruct (Py.rstrip_slash s) as [|a r] eqn:Hr.
    + destruct (Ascii.eqb c "/") eqn:Hc.
      * exists (String c s). cbn [append only_slashes]. rewrite Hc.
        cbn in Hs. subst slashes. now rewrite Hall.
      * exists s. cbn in Hs. subst slashes. split; [reflexivity|]. split; [exact Hall|].
        rewrite endswith_unfold. cbn. rewrite Hc. reflexivity.
    + exists slashes. split; [cbn in Hs |- *; now rewrite <- Hs|]. split; [exact Hall|].
      rewrite endswith_unfold, Hend.
      replace (String c (String a r) =? "/") with false; [reflexivity|].
      symmetry. apply String.eqb_neq. intros [= _ H].
Qed.

(** X1.  [validate] raises [ValueError] exactly when the base URL is empty,
    and so does the [preview_url] property; neither touches anything.  Once
    [validate] has passed, [preview_url] is the base URL without its
    trailing slashes, followed by "/preview.php": one slash separates the
    two, however many the configured value ends with. *)
Theorem validate_guards_preview_url (cfg : Config) (w : World) :
  (BASE_URL cfg = "" ->
   validate cfg w = (Raise value_error, w, [])
   /\ preview_url cfg w = (Raise value_error, w, []))
  /\ (BASE_URL cfg <> "" ->
      validate cfg w = (Ret tt, w, [])
      /\ exists base slashes,
           BASE_URL cfg = base ++ slashes
           /\ only_slashes slashes = true
           /\ Py.endswith base "/" = false
           /\ preview_url cfg w = (Ret (base ++ "/preview.php"), w, [])).
Proof.
  unfold validate, preview_url. cbn [filter map fst snd]. split.
  - intros ->. now split.
  - intros Hurl. apply String.eqb_neq in Hurl. rewrite Hurl. split; [reflexivity|].
    destruct (rstrip_slash_spec (BASE_URL cfg)) as (slashes & Hs & Hall & Hend).
    exists (Py.rstrip_slash (BASE_URL cfg)), slashes. auto.
Qed.

Lemma validate_guards_preview_url_witness :
  value (validate (cfg_blank 3) w_empty) = Raise value_error
  /\ value (preview_url (cfg_cam 3) w_empty) = Ret "http://cam/preview.php".
Proof.
  split.
  - destruct (validate_guards_preview_url (cfg_blank 3) w_empty) as [H _].
    destruct (H eq_refl) as [-> _]. reflexivity.
  - destruct (validate_guards_preview_url (cfg_cam 3) w_empty) as [_ H].
    destruct H as (_ & base & slashes & _ & _ & _ & _); [discriminate|].
    reflexivity.
Defined.

Lemma split_components_plain (sep : ascii) (s x : string) :
  In x (Py.split sep s) -> Py.contains sep x = false.
Proof.
  revert x. induction s as [|c s IH]; intros x.
  - intros [<-|[]]. reflexivity.
  - cbn [Py.split]. destruct (Ascii.eqb c sep) eqn:Hc.
    + intros [<-|H]; [reflexivity|auto].
    + pose proof (split_nonempty sep s) as Hne.
      destruct (Py.split sep s) as [|hd tl]; [congruence|].
      intros [<-|H].
      * cbn. rewrite Hc. apply IH. now left.
      * apply IH. now right.
Qed.

Lemma contains_lstrip (c : ascii) (s : string) :
  Py.contains c s = false -> Py.contains c (Py.lstrip s) = false.
Proof.
  induction s as [|a s IH]; [reflexivity|].
  intros H. cbn [Py.lstrip]. destruct (Py.is_space a); [|exact H].
  cbn in H. apply orb_false_iff in H as [_ H]. auto.
Qed.

Lemma contains_rstrip (c : ascii) (s : string) :
  Py.contains c s = false -> Py.contains c (Py.rstrip s) = false.
Proof.
  induction s as [|a s IH]; [reflexivity|].
  intros H. cbn in H. apply orb_false_iff in H as [Ha H]. specialize (IH H).
  cbn [Py.rstrip]. destruct (Py.rstrip s) as [|b r].
  - destruct (Py.is_space a); [reflexivity|]. cbn. now rewrite Ha.
  - change (Py.contains c (String a (String b r)))
      with ((a =? c)%char || Py.contains c (String b r)).
    now rewrite Ha, IH.
Qed.

Lemma rstrip_idempotent (s : string) : Py.rstrip (Py.rstrip s) = Py.rstrip s.
Proof.
  induction s as [|a s IH]; [reflexivity|].
  cbn [Py.rstrip]. destruct (Py.rstrip s) as [|b r] eqn:Hr.
  - destruct (Py.is_space a) eqn:Ha; [reflexivity|]. cbn. now rewrite Ha.
  - cbn [Py.rstrip] in IH |- *. now rewrite IH.
Qed.

(** What [lstrip] returns does not start with white space, and [rstrip]
    keeps it so. *)
Lemma lstrip_head (s : string) :
  match Py.lstrip s with
  | String a _ => Py.is_space a = false
  | EmptyString => True
  end.
Proof.
  induction s as [|a s IH]; [exact I|].
  cbn [Py.lstrip]. destruct (Py.is_space a) eqn:Ha; [exact IH|exact Ha].
Qed.

Lemma lstrip_rstrip_clean (t : string) :
  match t with String a _ => Py.is_space a = false | EmptyString => True end ->
  Py.lstrip (Py.rstrip t) = Py.rstrip t.
Proof.
  destruct t as [|a t]; [reflexivity|]. intros Ha.
  cbn [Py.rstrip]. destruct (Py.rstrip t) as [|b r]; rewrite ?Ha; cbn; now rewrite Ha.
Qed.

Lemma strip_idempotent (s : string) : strip (strip s) = strip s.
Proof.
  unfold strip. rewrite (lstrip_rstrip_clean _ (lstrip_head s)).
  apply rstrip_idempotent.
Qed.

(** X2.  Every tag of [youtube_tags_list] is non-empty, holds no comma and
    carries no white space at either end; the tags are the stripped
    components of the configured text, in order, the blank ones left
    out. *)
Theorem youtube_tags_list_clean (youtube_upload_tags tag : string) :
  In tag (youtube_tags_list youtube_upload_tags) ->
  tag <> ""
  /\ Py.contains "," tag = false
  /\ strip tag = tag
  /\ exists component,
       In component (Py.split "," youtube_upload_tags) /\ tag = strip component.
Proof.
  unfold youtube_tags_list. intros H.
  apply in_map_iff in H as (component & <- & H).
  apply filter_In in H as [Hin Hne].
  apply negb_true_iff, String.eqb_neq in Hne.
  split; [exact Hne|]. split; [|split; [apply strip_idempotent|eauto]].
  apply contains_rstrip, contains_lstrip. exact (split_components_plain _ _ _ Hin).
Qed.

Lemma youtube_tags_list_clean_witness :
  youtube_tags_list " RPiCam, AutoUpload ,, " = ["RPiCam"; "AutoUpload"]
  /\ Py.contains "," "AutoUpload" = false.
Proof.
  split; [reflexivity|].
  apply (youtube_tags_list_clean " RPiCam, AutoUpload ,, " "AutoUpload").
  right. left. reflexivity.
Defined.

End ConfigFacts.

(* ====================================================================== *)
(** * The fields of a parsed record                                        *)
(* ====================================================================== *)

Section ParsedFields.

Import VideoScraper.

Lemma match_here_star (p : list Re.atom) (c : ascii) (s : string) :
  Re.match_here (Re.DigitStar :: p) (String c s)
  = if Py.is_digit c then
      match Re.match_here (Re.DigitStar :: p) s with
      | Some m => Some (String c m)
      | None => Re.match_here p (String c s)
      end
    else Re.match_here p (String c s).
Proof. reflexivity. Qed.

Lemma match_here_digit (p : list Re.atom) (c : ascii) (s : string) :
  Re.match_here (Re.Digit :: p) (String c s)
  = if Py.is_digit c then option_map (String c) (Re.match_here p s) else None.
Proof. reflexivity. Qed.

Lemma match_here_star_nil (p : list Re.atom) :
  Re.match_here (Re.DigitStar :: p) "" = Re.match_here p "".
Proof. reflexivity. Qed.

(** A match at the start of a text is a prefix of the text. *)
Lemma match_here_prefix (p : list Re.atom) :
  forall s m, Re.match_here p s = Some m -> exists rest, s = m ++ rest.
Proof.
  induction p as [|a p IH]; intros s m.
  - intros [= <-]. now exists s.
  - destruct a as [| |a].
    + destruct s as [|c s]; cbn [Re.match_here]; [discriminate|].
      destruct (Py.is_digit c); [|discriminate].
      destruct (Re.match_here p s) as [m'|] eqn:Hm; [|discriminate].
      intros [= <-]. destruct (IH s m' Hm) as [rest ->]. now exists rest.
    + revert m. induction s as [|c s IHs]; intros m.
      * rewrite match_here_star_nil. apply IH.
      * rewrite match_here_star. destruct (Py.is_digit c); [|apply IH].
        destruct (Re.match_here (Re.DigitStar :: p) s) as [m'|]; [|apply IH].
        intros [= <-]. destruct (IHs m' eq_refl) as [rest ->]. now exists rest.
    + destruct s as [|c s]; cbn [Re.match_here]; [discriminate|].
      destruct (Ascii.eqb c a); [|discriminate].
      destruct (Re.match_here p s) as [m'|] eqn:Hm; [|discriminate].
      intros [= <-]. destruct (IH s m' Hm) as [rest ->]. now exists rest.
Qed.

Lemma search_substring (p : list Re.atom) (s m : string) :
  Re.search p s = Some m -> is_substring m s.
Proof.
  induction s as [|c s IH]; cbn [Re.search].
  - destruct (Re.match_here p "") as [m'|] eqn:Hm; [|discriminate].
    intros [= <-]. destruct (match_here_prefix _ _ _ Hm) as [rest Hr].
    now exists "", rest.
  - destruct (Re.match_here p (String c s)) as [m'|] eqn:Hm.
    + intros [= <-]. destruct (match_here_prefix _ _ _ Hm) as [rest Hr].
      now exists "", rest.
    + intros H. destruct (IH H) as (pre & post & ->). now exists (String c pre), post.
Qed.

(** A match of a pattern without [\d*] has the shape of the pattern. *)
Lemma match_here_fits (p : list Re.atom) :
  (forall a, In a p -> a <> Re.DigitStar) ->
  forall s m, Re.match_here p s = Some m -> fits p m = true.
Proof.
  induction p as [|a p IH]; intros Hp s m.
  - now intros [= <-].
  - assert (Hp' : forall a', In a' p -> a' <> Re.DigitStar) by (intros a' H; apply Hp; now right).
    destruct a as [| |a].
    + destruct s as [|c s]; cbn [Re.match_here]; [discriminate|].
      destruct (Py.is_digit c) eqn:Hc; [|discriminate].
      destruct (Re.match_here p s) as [m'|] eqn:Hm; [|discriminate].
      intros [= <-]. cbn [fits]. now rewrite Hc, (IH Hp' s m' Hm).
    + now destruct (Hp Re.DigitStar (or_introl eq_refl)).
    + destruct s as [|c s]; cbn [Re.match_here]; [discriminate|].
      destruct (Ascii.eqb c a) eqn:Hc; [|discriminate].
      destruct (Re.match_here p s) as [m'|] eqn:Hm; [|discriminate].
      intros [= <-]. cbn [fits]. now rewrite Hc, (IH Hp' s m' Hm).
Qed.

Lemma search_fits (p : list Re.atom) (s m : string) :
  (forall a, In a p -> a <> Re.DigitStar) ->
  Re.search p s = Some m -> fits p m = true.
Proof.
  intros Hp. induction s as [|c s IH]; cbn [Re.search].
  - destruct (Re.match_here p "") as [m'|] eqn:Hm; [|discriminate].
    intros [= <-]. exact (match_here_fits p Hp _ _ Hm).
  - destruct (Re.match_here p (String c s)) as [m'|] eqn:Hm; [|exact IH].
    intros [= <-]. exact (match_here_fits p Hp _ _ Hm).
Qed.

(** A match of literal text is that text. *)
Lemma match_here_lit (suffix : string) :
  forall s m, Re.match_here (Re.lit suffix) s = Some m -> m = suffix.
Proof.
  unfold Re.lit. induction suffix as [|a suffix IH]; intros s m.
  - now intros [= <-].
  - cbn [list_ascii_of_string map Re.match_here].
    destruct s as [|c s]; [discriminate|].
    destruct (Ascii.eqb c a) eqn:Hc; [|discriminate].
    apply Ascii.eqb_eq in Hc. subst c.
    destruct (Re.match_here _ s) as [m'|] eqn:Hm; [|discriminate].
    intros [= <-]. now rewrite (IH s m' Hm).
Qed.

(** A match of [\d*] followed by literal text is a run of digits followed
    by that text. *)
Lemma match_here_digits_lit (suffix : string) :
  forall s m,
    Re.match_here (Re.DigitStar :: Re.lit suffix) s = Some m ->
    exists digits, m = digits ++ suffix /\ all_digits digits = true.
Proof.
  induction s as [|c s IH]; intros m.
  - rewrite match_here_star_nil. intros H. apply match_here_lit in H. now exists "".
  - rewrite match_here_star.
    assert (Hlit : Re.match_here (Re.lit suffix) (String c s) = Some m ->
                   exists digits, m = digits ++ suffix /\ all_digits digits = true).
    { intros H. apply match_here_lit in H. now exists "". }
    destruct (Py.is_digit c) eqn:Hc; [|exact Hlit].
    destruct (Re.match_here (Re.DigitStar :: Re.lit suffix) s) as [m'|]; [|exact Hlit].
    intros [= <-]. destruct (IH m' eq_refl) as (digits & -> & Hd).
    exists (String c digits). cbn. now rewrite Hc, Hd.
Qed.

Lemma search_number_with (suffix s m : string) :
  Re.search (Re.Digit :: Re.DigitStar :: Re.lit suffix) s = Some m -> number_with suffix m.
Proof.
  assert (Hhere : forall s m,
             Re.match_here (Re.Digit :: Re.DigitStar :: Re.lit suffix) s = Some m ->
             number_with suffix m).
  { clear s m. intros s m. destruct s as [|c s]; [discriminate|].
    rewrite match_here_digit. destruct (Py.is_digit c) eqn:Hc; [|discriminate].
    destruct (Re.match_here (Re.DigitStar :: Re.lit suffix) s) as [m'|] eqn:Hm;
      [|discriminate].
    intros [= <-]. destruct (match_here_digits_lit suffix s m' Hm) as (digits & -> & Hd).
    exists (String c digits). split; [reflexivity|]. split; [discriminate|].
    cbn. now rewrite Hc, Hd. }
  induction s as [|c s IH]; cbn [Re.search].
  - destruct (Re.match_here _ "") as [m'|] eqn:Hm; [|discriminate].
    intros [= <-]. eauto.
  - destruct (Re.match_here _ (String c s)) as [m'|] eqn:Hm; [|exact IH].
    intros [= <-]. eauto.
Qed.

Lemma fits_length (p : list Re.atom) :
  forall m, fits p m = true -> String.length m = length p.
Proof.
  induction p as [|a p IH]; intros m; destruct m as [|c m]; cbn [fits];
    try discriminate; try reflexivity.
  - now destruct a.
  - destruct a as [| |a]; try discriminate; intros H;
      apply andb_true_iff in H as [_ H]; cbn; now rewrite (IH m H).
Qed.

Lemma is_substring_empty (s : string) : is_substring "" s.
Proof. now exists "", s. Qed.

Lemma group_or_empty_substring (p : list Re.atom) (s : string) :
  is_substring (group_or_empty (Re.search p s)) s.
Proof.
  destruct (Re.search p s) as [m|] eqn:Hm; cbn.
  - exact (search_substring _ _ _ Hm).
  - apply is_substring_empty.
Qed.

Lemma star_free_date : forall a, In a Re.date_pattern -> a <> Re.DigitStar.
Proof. intros a H. cbn in H. intuition (subst; discriminate). Qed.

Lemma star_free_time : forall a, In a Re.time_pattern -> a <> Re.DigitStar.
Proof. intros a H. cbn in H. intuition (subst; discriminate). Qed.

(** X3.  Every field that [parse_video_metadata] reads off the text of a
    listing entry occurs in that text.  The size is empty or digits
    followed by " MB", the duration empty or digits followed by "s"; the
    date is empty or of the shape dddd-dd-dd, the time empty or of the
    shape dd:dd:dd.  The title is the date, a space and the time (19
    characters) when both were found, and "Unknown DateTime" as soon as one
    of them is missing. *)
Theorem parsed_fields_come_from_text (fieldset : Fieldset) (meta : VideoMeta) :
  parse_video_metadata fieldset = Ret (Some meta) ->
  let text := get_text fieldset in
  (is_substring (size meta) text /\ is_substring (duration meta) text
   /\ is_substring (date meta) text /\ is_substring (time meta) text)
  /\ (size meta = "" \/ number_with " MB" (size meta))
  /\ (duration meta = "" \/ number_with "s" (duration meta))
  /\ (date meta = "" \/ fits Re.date_pattern (date meta) = true)
  /\ (time meta = "" \/ fits Re.time_pattern (time meta) = true)
  /\ (date meta <> "" -> time meta <> "" ->
      title meta = date meta ++ " " ++ time meta /\ String.length (title meta) = 19)
  /\ (date meta = "" \/ time meta = "" -> title meta = "Unknown DateTime").
Proof.
  intros Hparse text. unfold parse_video_metadata in Hparse.
  destruct (a_href fieldset) as [href|]; [|discriminate].
  destruct (negb (is_media_href href)); [discriminate|].
  fold text in Hparse.
  set (sz := group_or_empty (Re.search Re.size_pattern text)) in *.
  set (du := group_or_empty (Re.search Re.duration_pattern text)) in *.
  set (da := group_or_empty (Re.search Re.date_pattern text)) in *.
  set (ti := group_or_empty (Re.search Re.time_pattern text)) in *.
  assert (Hmeta : size meta = sz /\ duration meta = du /\ date meta = da /\ time meta = ti
                  /\ title meta = if negb (da =? "") && negb (ti =? "")
                                  then da ++ " " ++ ti else "Unknown DateTime").
  { destruct (delete_btn fieldset) as [[value|]|]; try discriminate;
      injection Hparse as <-; cbn; auto. }
  destruct Hmeta as (-> & -> & -> & -> & Htitle). clear Hparse.
  assert (Hda : da = "" \/ fits Re.date_pattern da = true).
  { subst da. destruct (Re.search Re.date_pattern text) as [m|] eqn:Hm; cbn; [right|now left].
    exact (search_fits _ _ _ star_free_date Hm). }
  assert (Hti : ti = "" \/ fits Re.time_pattern ti = true).
  { subst ti. destruct (Re.search Re.time_pattern text) as [m|] eqn:Hm; cbn; [right|now left].
    exact (search_fits _ _ _ star_free_time Hm). }
  split.
  { repeat split; apply group_or_empty_substring. }
  split.
  { subst sz. destruct (Re.search Re.size_pattern text) as [m|] eqn:Hm; cbn; [right|now left].
    exact (search_number_with " MB" _ _ Hm). }
  split.
  { subst du. destruct (Re.search Re.duration_pattern text) as [m|] eqn:Hm; cbn;
      [right|now left].
    exact (search_number_with "s" _ _ Hm). }
  split; [exact Hda|]. split; [exact Hti|]. split.
  - intros Hd Ht. rewrite Htitle.
    destruct Hda as [Hda|Hda]; [congruence|]. destruct Hti as [Hti|Hti]; [congruence|].
    apply String.eqb_neq in Hd, Ht. rewrite Hd, Ht. cbn [negb andb].
    split; [reflexivity|].
    apply fits_length in Hda, Hti. cbn [length Re.date_pattern Re.time_pattern] in Hda, Hti.
    assert (Hlen : forall a b, String.length (a ++ b) = String.length a + String.length b).
    { intros a b. induction a as [|x a IH]; cbn; auto. }
    rewrite !Hlen, Hda, Hti. reflexivity.
  - rewrite Htitle. intros [-> | ->]; [reflexivity|].
    now destruct (negb (da =? "")).
Qed.

Lemma parsed_fields_come_from_text_witness :
  number_with " MB" "26 MB"
  /\ fits Re.date_pattern "2025-08-12" = true
  /\ is_substring "19:52:10" "26 MB 19s 2025-08-12 19:52:10".
Proof.
  pose proof (parsed_fields_come_from_text
                (mk_fieldset (Some "media/video001.mp4") (Some (Some "thumb001"))
                   "26 MB 19s 2025-08-12 19:52:10")
                (mk_meta "media/video001.mp4" (Some "thumb001") "2025-08-12 19:52:10"
                   "26 MB" "19s" "2025-08-12" "19:52:10") eq_refl) as H.
  cbv zeta in H. destruct H as ((_ & _ & _ & Ht) & [Hs|Hs] & _ & [Hd|Hd] & _);
    try discriminate.
  split; [exact Hs|]. split; [exact Hd|exact Ht].
Defined.

End ParsedFields.

(* ====================================================================== *)
(** * Retry loops that succeed                                             *)
(* ====================================================================== *)

Section RetryTrace.

(** A loop whose pass [step attempt] sends [req] and returns [True], or
    sends [req], waits [2 ** attempt] seconds and returns [False]. *)
Variable step : nat -> M bool.
Variable req : event.
Variable loop : list nat -> M bool.

Hypothesis loop_nil : forall w, loop [] w = ret false w.
Hypothesis loop_cons :
  forall attempt rest w,
    loop (attempt :: rest) w
    = bind (step attempt) (fun done : bool => if done then ret true else loop rest) w.
Hypothesis step_cases :
  forall attempt w,
    (value (step attempt w) = Ret true /\ events (step attempt w) = [req])
    \/ (value (step attempt w) = Ret false
        /\ events (step attempt w) = [req; Sleep (Py.pow2 attempt)]).

Lemma retry_loop_trace (attempts : list nat) :
  forall w,
    exists failed,
      (value (loop attempts w) = Ret true
       /\ failed < length attempts
       /\ events (loop attempts w) = (retry_trace req (firstn failed attempts) ++ [req])%list)
      \/ (value (loop attempts w) = Ret false
          /\ failed = length attempts
          /\ events (loop attempts w) = retry_trace req attempts).
Proof.
  induction attempts as [|attempt rest IH]; intros w.
  - exists 0. right. rewrite loop_nil. now split.
  - rewrite loop_cons. unfold bind.
    destruct (step_cases attempt w) as [[Hv He]|[Hv He]];
      destruct (step attempt w) as [[r1 w1] t1]; cbn [value events fst snd] in Hv, He;
      subst r1 t1.
    + exists 0. left. cbn. split; [reflexivity|]. split; [lia|reflexivity].
    + destruct (IH w1) as [failed [(Hv & Hlt & He)|(Hv & Hlen & He)]];
        destruct (loop rest w1) as [[r2 w2] t2]; cbn [value events fst snd] in Hv, He;
        subst r2 t2; exists (S failed); [left|right]; cbn; (split; [reflexivity|]);
        (split; [lia|reflexivity]).
Qed.

End RetryTrace.

Lemma firstn_range (n : Z) (k : nat) :
  k <= Z.to_nat n -> firstn k (Py.range n) = seq 0 k.
Proof.
  unfold Py.range. generalize (Z.to_nat n) 0. clear n. intros n.
  revert k. induction n as [|n IH]; intros k start H.
  - now replace k with 0 by lia.
  - destruct k as [|k]; [reflexivity|]. cbn. f_equal. apply IH. lia.
Qed.

Lemma sleeps_app (t1 t2 : list event) : sleeps (t1 ++ t2) = (sleeps t1 ++ sleeps t2)%list.
Proof. apply flat_map_app. Qed.

Lemma sleeps_retry_trace (req : event) (attempts : list nat) :
  is_request req = true ->
  sleeps (retry_trace req attempts) = map Py.pow2 attempts
  /\ requests (retry_trace req attempts) = map (fun _ => req) attempts.
Proof.
  intros Hreq. unfold sleeps, requests, retry_trace.
  induction attempts as [|a l [IH1 IH2]]; [now split|].
  cbn [flat_map map app filter]. rewrite Hreq. cbn [is_request].
  destruct req; try discriminate; cbn; now rewrite IH1, IH2.
Qed.

Section DownloadVideo.

Import VideoScraper.

Variable cfg : Config.
Variable env : Env.

Lemma add_present (p : string) (l : list string) : mem p l = true -> add p l = l.
Proof. unfold add. now intros ->. Qed.

Lemma add_idempotent (p : string) (l : list string) : add p (add p l) = add p l.
Proof. apply add_present, mem_In, In_add_self. Qed.

Lemma wrote_at_most_refl (path : string) (w : World) : wrote_at_most path w w.
Proof. split; auto. Qed.

Lemma wrote_at_most_trans (path : string) (w1 w2 w3 : World) :
  wrote_at_most path w1 w2 -> wrote_at_most path w2 w3 -> wrote_at_most path w1 w3.
Proof.
  intros [Hd1 Hf1] [Hd2 Hf2]. split; [congruence|].
  destruct Hf1 as [Hf1|Hf1], Hf2 as [Hf2|Hf2]; rewrite Hf2, Hf1;
    rewrite ?add_idempotent; auto.
Qed.

Lemma wrote_at_most_calls (path : string) (w : World) (n : nat) (yt : bool) :
  wrote_at_most path w (mk_world n (fs w) yt).
Proof. split; auto. Qed.

Lemma request_media_writes (video_url local_path : string) :
  stable (wrote_at_most local_path) (request_media env video_url local_path).
Proof.
  intros w. unfold request_media, fs_update, open_write. unfold_monad. cbn.
  destruct (get_media env (calls w) video_url) as [status stream_error|e]; cbn;
    [|apply wrote_at_most_calls].
  destruct (status =? 200)%Z; cbn; [|apply wrote_at_most_calls].
  destruct (_ || _); cbn; [apply wrote_at_most_calls|].
  destruct stream_error; cbn; split; auto.
Qed.

Lemma request_media_done (video_url local_path : string) (w : World) :
  value (request_media env video_url local_path w) = Ret true ->
  mem local_path (files (fs (world_after (request_media env video_url local_path w)))) = true.
Proof.
  unfold request_media, fs_update, open_write. unfold_monad. cbn.
  destruct (get_media env (calls w) video_url) as [status stream_error|e]; cbn;
    [|discriminate].
  destruct (status =? 200)%Z; cbn; [|discriminate].
  destruct (_ || _); cbn; [discriminate|].
  destruct stream_error; cbn; [discriminate|].
  intros _. apply mem_In, In_add_self.
Qed.

Lemma download_attempts_disk (video_url local_path : string) (attempts : list nat) :
  forall w,
    let r := download_attempts env video_url local_path attempts w in
    wrote_at_most local_path w (world_after r)
    /\ (value r = Ret true -> mem local_path (files (fs (world_after r))) = true).
Proof.
  induction attempts as [|attempt rest IH]; intros w r.
  - subst r. split; [apply wrote_at_most_refl|discriminate].
  - assert (Hr : r = download_attempts env video_url local_path (attempt :: rest) w)
      by reflexivity.
    clearbody r. cbn [download_attempts] in Hr.
    pose proof (request_media_writes video_url local_path w) as Hw.
    pose proof (request_media_done video_url local_path w) as Hd.
    unfold bind at 1, try_except at 1 in Hr.
    destruct (request_media env video_url local_path w) as [[[done|e] w1] t1];
      cbn [value world_after fst snd any_exception] in *.
    + destruct done.
      * cbn in Hr. subst r. cbn. auto.
      * specialize (IH w1). cbv zeta in IH.
        destruct (download_attempts env video_url local_path rest w1) as [[r2 w2] t2].
        cbn in Hr, IH. subst r. cbn. destruct IH as [IH1 IH2]. split; [|exact IH2].
        exact (wrote_at_most_trans _ _ _ _ Hw IH1).
    + unfold_monad. cbn in Hr. specialize (IH w1). cbv zeta in IH.
      destruct (download_attempts env video_url local_path rest w1) as [[r2 w2] t2].
      cbn in Hr, IH. subst r. cbn. destruct IH as [IH1 IH2]. split; [|exact IH2].
      exact (wrote_at_most_trans _ _ _ _ Hw IH1).
Qed.

Lemma download_video_writes (video_meta : VideoMeta) (day_dir : string) (w : World) :
  let r := download_video cfg env video_meta day_dir w in
  let local_path := Py.os_path_join day_dir (Py.last_component (video video_meta)) in
  (exists b, value r = Ret b)
  /\ wrote_at_most local_path w (world_after r)
  /\ (value r = Ret true -> mem local_path (files (fs (world_after r))) = true).
Proof.
  cbv zeta. unfold download_video.
  destruct (download_attempts_spec env (video_url_of cfg video_meta)
              (local_path_of video_meta day_dir) (Py.range (MAX_RETRIES cfg)) w)
    as (Hb & _).
  split; [exact Hb|].
  exact (download_attempts_disk _ _ _ w).
Qed.

(** X4.  [download_video] never raises: it returns a boolean.  On disk it
    creates at most the file <day_dir>/<last component of the link>, and
    changes nothing else; when it returns [True] that file exists. *)
Theorem download_video_disk (video_meta : VideoMeta) (day_dir : string) (w : World) :
  let r := download_video cfg env video_meta day_dir w in
  let local_path := Py.os_path_join day_dir (Py.last_component (video video_meta)) in
  (exists b, value r = Ret b)
  /\ wrote_at_most local_path w (world_after r)
  /\ (value r = Ret true -> mem local_path (files (fs (world_after r))) = true).
Proof. exact (download_video_writes video_meta day_dir w). Qed.

(** X5.  The requests and waits of [download_video]: some number of
    attempts fail, each followed by its wait of 1, 2, 4, ... seconds; then
    either one more request succeeds and [True] is returned at once, or all
    [MAX_RETRIES] attempts have failed and [False] is returned after the
    last wait. *)
Theorem download_video_trace (video_meta : VideoMeta) (day_dir : string) (w : World) :
  let r := download_video cfg env video_meta day_dir w in
  let req := HttpGet (Py.rstrip_slash (BASE_URL cfg) ++ "/" ++ video video_meta) in
  exists failed,
    sleeps (events r) = backoff failed
    /\ ((value r = Ret true
         /\ failed < Z.to_nat (MAX_RETRIES cfg)
         /\ events r = (retry_trace req (seq 0 failed) ++ [req])%list)
        \/ (value r = Ret false
            /\ failed = Z.to_nat (MAX_RETRIES cfg)
            /\ events r = retry_trace req (seq 0 failed))).
Proof.
  cbv zeta. unfold download_video.
  set (url := video_url_of cfg video_meta).
  change (Py.rstrip_slash (BASE_URL cfg) ++ "/" ++ video video_meta) with url.
  set (path := local_path_of video_meta day_dir).
  destruct (retry_loop_trace
              (fun attempt => try_except (request_media env url path) any_exception
                                (fun _ => time_sleep (Py.pow2 attempt) ;;; ret false))
              (HttpGet url) (download_attempts env url path)
              (fun w => eq_refl) (fun attempt rest w => eq_refl)
              (fun attempt w => download_attempt_cases env url path attempt w)
              (Py.range (MAX_RETRIES cfg)) w)
    as [failed [(Hv & Hlt & He)|(Hv & Hlen & He)]];
    rewrite range_length in *; exists failed.
  - rewrite firstn_range in He by lia. split; [|left; auto].
    rewrite He, sleeps_app.
    destruct (sleeps_retry_trace (HttpGet url) (seq 0 failed) eq_refl) as [-> _].
    apply app_nil_r.
  - assert (Hrange : Py.range (MAX_RETRIES cfg) = seq 0 failed)
      by (unfold Py.range; now rewrite Hlen).
    rewrite Hrange in Hv, He |- *. split; [|right; auto].
    rewrite He.
    now destruct (sleeps_retry_trace (HttpGet url) (seq 0 failed) eq_refl) as [-> _].
Qed.

End DownloadVideo.

(* ====================================================================== *)
(** * From the scraper to the daily pipeline                               *)
(* ====================================================================== *)

Section DownloadedIsListed.

Import VideoScraper.

Variable cfg : Config.
Variable env : Env.

Lemma split_append_plain (sep : ascii) (a b : string) :
  Py.contains sep b = false ->
  Py.split sep (a ++ b)
  = (removelast (Py.split sep a) ++ [(last (Py.split sep a) "" ++ b)%string])%list.
Proof.
  intros Hb. induction a as [|c a IH].
  - cbn. now apply split_no_sep.
  - change (String c a ++ b) with (String c (a ++ b)). cbn [Py.split]. rewrite IH.
    pose proof (split_nonempty sep a) as Hne.
    destruct (Ascii.eqb c sep).
    + destruct (Py.split sep a) as [|hd tl]; [congruence|reflexivity].
    + destruct (Py.split sep a) as [|hd tl]; [congruence|].
      destruct tl as [|hd' tl]; reflexivity.
Qed.

Lemma last_component_append (a b : string) :
  Py.contains "/" b = false -> Py.last_component (a ++ b) = Py.last_component a ++ b.
Proof.
  intros Hb. unfold Py.last_component. rewrite (split_append_plain _ _ _ Hb).
  apply last_last.
Qed.

Lemma last_component_is_plain (s : string) : Py.contains "/" (Py.last_component s) = false.
Proof.
  apply (split_components_plain "/" s). unfold Py.last_component.
  pose proof (split_nonempty "/" s) as Hne.
  rewrite (app_removelast_last "" Hne) at 2. apply in_or_app. right. now left.
Qed.

(** The file name under which a listed recording is stored. *)
Lemma media_file_name (href : string) :
  is_media_href href = true ->
  Py.last_component href <> ""
  /\ Py.contains "/" (Py.last_component href) = false
  /\ VideoProcessor.is_mp4 (Py.last_component href) = true.
Proof.
  intros H. apply is_media_href_spec in H as [_ [pre ->]].
  rewrite last_component_append by reflexivity.
  split; [now destruct (Py.last_component pre)|]. split.
  - rewrite contains_append, last_component_is_plain. reflexivity.
  - apply endswith_spec. now exists (Py.last_component pre).
Qed.

(** X6.  What the scraper downloads, the daily pipeline finds: when
    [download_video] returns [True] for a record whose link passed the
    filter of the parser, into a bucket that is a directory, the file name
    of the recording is in the list that [get_video_files] returns for that
    bucket. *)
Theorem downloaded_video_is_listed
    (video_meta : VideoMeta) (day_dir : string) (w : World) :
  is_media_href (video video_meta) = true ->
  mem day_dir (dirs (fs w)) = true ->
  let r := download_video cfg env video_meta day_dir w in
  value r = Ret true ->
  exists media,
    value (VideoProcessor.get_video_files day_dir (world_after r)) = Ret media
    /\ In (Py.last_component (video video_meta)) media.
Proof.
  intros Hhref Hdir r Htrue.
  destruct (download_video_writes cfg env video_meta day_dir w) as (_ & [Hdirs _] & Hfile).
  fold r in Hdirs, Hfile. specialize (Hfile Htrue).
  destruct (media_file_name _ Hhref) as (Hne & Hplain & Hmp4).
  rewrite <- Hdirs in Hdir.
  destruct (listdir_lists_file _ _ _ Hne Hplain Hdir Hfile) as (names & Hls & Hin).
  exists (Py.sorted (filter VideoProcessor.is_mp4 names)).
  rewrite (get_video_files_listed _ _ _ Hls). split; [reflexivity|].
  apply (Permutation_in _ (Permutation_sym (sorted_perm _))).
  apply filter_In. now split.
Qed.

End DownloadedIsListed.

Lemma downloaded_video_is_listed_witness :
  exists media,
    value (VideoProcessor.get_video_files "/data/videos/2025-08-12"
             (world_after
                (VideoScraper.download_video (cfg_cam 3) env_ok
                   (VideoScraper.mk_meta "media/video003.mp4" None "Unknown DateTime"
                      "" "" "" "")
                   "/data/videos/2025-08-12" w_two_files)))
    = Ret media
    /\ In "video003.mp4" media.
Proof.
  apply (downloaded_video_is_listed (cfg_cam 3) env_ok
           (VideoScraper.mk_meta "media/video003.mp4" None "Unknown DateTime" "" "" "" "")
           "/data/videos/2025-08-12" w_two_files); reflexivity.
Defined.

(* ====================================================================== *)
(** * What the scraper does to the disk                                    *)
(* ====================================================================== *)

Section DiskFrames.

Lemma same_fs_refl (w : World) : same_fs w w.
Proof. reflexivity. Qed.

Lemma same_fs_trans (w1 w2 w3 : World) : same_fs w1 w2 -> same_fs w2 w3 -> same_fs w1 w3.
Proof. unfold same_fs. congruence. Qed.

Lemma same_fs_bind {A B} (m : M A) (k : A -> M B) :
  stable same_fs m -> (forall a, stable same_fs (k a)) -> stable same_fs (bind m k).
Proof. apply stable_bind. exact same_fs_trans. Qed.

Lemma same_fs_try_except {A} (m : M A) (catches : exn -> bool) (h : exn -> M A) :
  stable same_fs m -> (forall e, stable same_fs (h e)) -> stable same_fs (try_except m catches h).
Proof. apply stable_try_except. exact same_fs_trans. Qed.

Lemma same_fs_ret {A} (a : A) : stable same_fs (ret a).
Proof. now intros w. Qed.

Lemma same_fs_raise {A} (e : exn) : stable same_fs (@raise A e).
Proof. now intros w. Qed.

Lemma same_fs_ask {A} (oracle : nat -> A) : stable same_fs (ask oracle).
Proof. now intros w. Qed.

Lemma same_fs_emit (e : event) : stable same_fs (emit e).
Proof. now intros w. Qed.

Lemma nothing_lost_refl (w : World) : nothing_lost w w.
Proof. now split. Qed.

Lemma nothing_lost_trans (w1 w2 w3 : World) :
  nothing_lost w1 w2 -> nothing_lost w2 w3 -> nothing_lost w1 w3.
Proof. intros [H1 H2] [H3 H4]. split; auto. Qed.

Lemma same_fs_nothing_lost (w w' : World) : same_fs w w' -> nothing_lost w w'.
Proof. unfold same_fs, nothing_lost. intros ->. now split. Qed.

Lemma wrote_at_most_nothing_lost (path : string) (w w' : World) :
  wrote_at_most path w w' -> nothing_lost w w'.
Proof.
  intros [Hd [Hf|Hf]]; split; rewrite ?Hd, ?Hf; auto. intros p. apply In_add.
Qed.

Lemma makedirs_upto_keeps (fuel : nat) :
  forall s d s',
    makedirs_upto fuel s d = Some s' ->
    files s' = files s /\ forall x, In x (dirs s) -> In x (dirs s').
Proof.
  induction fuel as [|fuel IH]; intros s d s'; cbn [makedirs_upto].
  - destruct (dir_available s d); [intros [= <-]; now split|].
    destruct (mem d (files s)); discriminate.
  - destruct (dir_available s d); [intros [= <-]; now split|].
    destruct (mem d (files s)); [discriminate|].
    destruct (makedirs_upto fuel s (dirname d)) as [s1|] eqn:H1; [|discriminate].
    intros [= <-]. destruct (IH _ _ _ H1) as [Hf Hd]. cbn. split; [exact Hf|].
    intros x Hx. apply In_add. auto.
Qed.

Lemma makedirs_nothing_lost (d : string) :
  stable nothing_lost (fs_update (fun s => makedirs s d)).
Proof.
  intros w. unfold fs_update, makedirs.
  destruct (makedirs_upto _ (fs w) d) as [s'|] eqn:H; [|apply nothing_lost_refl].
  destruct (makedirs_upto_keeps _ _ _ _ H) as [Hf Hd].
  split; cbn; [now rewrite Hf|exact Hd].
Qed.

End DiskFrames.

Create HintDb same_fs_db.
#[local] Hint Resolve same_fs_ask same_fs_emit : same_fs_db.
#[local] Hint Extern 1 (stable same_fs (ret _)) => apply same_fs_ret : same_fs_db.
#[local] Hint Extern 1 (stable same_fs (raise _)) => apply same_fs_raise : same_fs_db.

Ltac same_fs_tac :=
  repeat first
    [ solve [auto with same_fs_db]
    | apply same_fs_bind
    | apply same_fs_try_except
    | match goal with |- forall _, _ => intro end
    | progress unfold time_sleep
    | split_cases ].

Section ScraperDisk.

Import VideoScraper.

Variable cfg : Config.
Variable env : Env.

Lemma fetch_preview_same_fs (attempts : list nat) :
  stable same_fs (fetch_preview cfg env attempts).
Proof.
  induction attempts as [|attempt rest IH]; cbn [fetch_preview].
  - apply same_fs_ret.
  - unfold request_preview, preview_url. same_fs_tac.
Qed.

Lemma fetch_video_list_same_fs : stable same_fs (fetch_video_list cfg env).
Proof.
  unfold fetch_video_list. pose proof fetch_preview_same_fs. same_fs_tac.
Qed.

Lemma delete_attempts_same_fs (handle : string) (attempts : list nat) :
  stable same_fs (delete_attempts cfg env handle attempts).
Proof.
  induction attempts as [|attempt rest IH]; cbn [delete_attempts].
  - apply same_fs_ret.
  - unfold request_delete, preview_url. same_fs_tac.
Qed.

Lemma delete_attempts_total (handle : string) (attempts : list nat) :
  total (delete_attempts cfg env handle attempts).
Proof.
  induction attempts as [|attempt rest IH]; cbn [delete_attempts].
  - apply total_ret.
  - apply total_bind; [apply total_try_except; total_tac|].
    intros done. destruct done; [apply total_ret|exact IH].
Qed.

Lemma delete_video_from_server_same_fs (video_meta : VideoMeta) :
  stable same_fs (delete_video_from_server cfg env video_meta).
Proof.
  unfold delete_video_from_server. pose proof delete_attempts_same_fs. same_fs_tac.
Qed.

Lemma delete_video_from_server_total (video_meta : VideoMeta) :
  total (delete_video_from_server cfg env video_meta).
Proof.
  unfold delete_video_from_server. pose proof delete_attempts_total.
  destruct (thumbnail video_meta) as [handle|]; [destruct (handle =? "")|];
    auto using total_ret.
Qed.

(** X7.  [delete_video_from_server] never raises and never touches the
    disk.  For a record without a (non-empty) handle it returns [False]
    at once: no request, no wait.  With a handle and a base URL, it posts
    the handle to the preview page: failed attempts, each followed by its
    wait of 1, 2, 4, ... seconds, then either an accepted request and
    [True], or [False] after [MAX_RETRIES] attempts. *)
Theorem delete_video_from_server_effect (video_meta : VideoMeta) (w : World) :
  let r := delete_video_from_server cfg env video_meta w in
  (exists b, value r = Ret b)
  /\ fs (world_after r) = fs w
  /\ (has_thumbnail video_meta = false -> r = (Ret false, w, []))
  /\ (forall handle,
        thumbnail video_meta = Some handle -> handle <> "" -> BASE_URL cfg <> "" ->
        let req := HttpPost (Py.rstrip_slash (BASE_URL cfg) ++ "/preview.php") handle in
        exists failed,
          sleeps (events r) = backoff failed
          /\ ((value r = Ret true
               /\ failed < Z.to_nat (MAX_RETRIES cfg)
               /\ events r = (retry_trace req (seq 0 failed) ++ [req])%list)
              \/ (value r = Ret false
                  /\ failed = Z.to_nat (MAX_RETRIES cfg)
                  /\ events r = retry_trace req (seq 0 failed)))).
Proof.
  cbv zeta.
  split; [apply delete_video_from_server_total|].
  split; [apply delete_video_from_server_same_fs|].
  unfold delete_video_from_server, has_thumbnail. split.
  - destruct (thumbnail video_meta) as [handle|]; [|reflexivity].
    destruct (handle =? ""); [reflexivity|discriminate].
  - intros handle -> Hne Hurl. apply String.eqb_neq in Hne. rewrite Hne.
    set (req := HttpPost (Py.rstrip_slash (BASE_URL cfg) ++ "/preview.php") handle).
    destruct (retry_loop_trace
                (fun attempt => try_except (request_delete cfg env handle) any_exception
                                  (fun _ => time_sleep (Py.pow2 attempt) ;;; ret false))
                req (delete_attempts cfg env handle)
                (fun w => eq_refl) (fun attempt rest w => eq_refl)
                (fun attempt w => delete_attempt_cases cfg env handle attempt w Hurl)
                (Py.range (MAX_RETRIES cfg)) w)
      as [failed [(Hv & Hlt & He)|(Hv & Hlen & He)]];
      rewrite range_length in *; exists failed.
    + rewrite firstn_range in He by lia. split; [|left; auto].
      rewrite He, sleeps_app.
      destruct (sleeps_retry_trace req (seq 0 failed) eq_refl) as [-> _].
      apply app_nil_r.
    + assert (Hrange : Py.range (MAX_RETRIES cfg) = seq 0 failed)
        by (unfold Py.range; now rewrite Hlen).
      rewrite Hrange in Hv, He |- *. split; [|right; auto].
      rewrite He.
      now destruct (sleeps_retry_trace req (seq 0 failed) eq_refl) as [-> _].
Qed.

End ScraperDisk.

Lemma delete_video_from_server_effect_witness :
  VideoScraper.delete_video_from_server (cfg_cam 3) env_ok
    (VideoScraper.mk_meta "media/video002.mp4" None "Unknown DateTime" "" "" "" "") w_two_files
  = (Ret false, w_two_files, [])
  /\ events (VideoScraper.delete_video_from_server (cfg_cam 3) env_ok
               (VideoScraper.mk_meta "media/video001.mp4" (Some "thumb001")
                  "Unknown DateTime" "" "" "" "") w_two_files)
     = [HttpPost "http://cam/preview.php" "thumb001"].
Proof.
  split.
  - apply (delete_video_from_server_effect (cfg_cam 3) env_ok
             (VideoScraper.mk_meta "media/video002.mp4" None "Unknown DateTime" "" "" "" "")
             w_two_files).
    reflexivity.
  - destruct (delete_video_from_server_effect (cfg_cam 3) env_ok
                (VideoScraper.mk_meta "media/video001.mp4" (Some "thumb001")
                   "Unknown DateTime" "" "" "" "") w_two_files) as (_ & _ & _ & H).
    destruct (H "thumb001" eq_refl) as (failed & _ & _); [discriminate|discriminate|].
    reflexivity.
Defined.

Section FetchAndCleanDisk.

Import VideoScraper.

Variable cfg : Config.
Variable env : Env.

Lemma collect_videos_raises (fieldsets : list Fieldset) (e : exn) :
  collect_videos fieldsets = Raise e -> e = key_error.
Proof.
  induction fieldsets as [|fieldset rest IH]; cbn [collect_videos]; [discriminate|].
  destruct (parse_video_metadata fieldset) as [meta|e'] eqn:Hp.
  - destruct (collect_videos rest) as [videos|e']; [discriminate|].
    intros [= <-]. now apply IH.
  - intros [= <-]. unfold parse_video_metadata in Hp.
    destruct (a_href fieldset) as [href|]; [|discriminate].
    destruct (negb (is_media_href href)); [discriminate|].
    destruct (delete_btn fieldset) as [[value|]|]; try discriminate.
    now injection Hp as <-.
Qed.

Lemma fetch_video_list_raises (w : World) (e : exn) :
  value (fetch_video_list cfg env w) = Raise e -> e = key_error.
Proof.
  unfold fetch_video_list, bind.
  destruct (fetch_preview_spec cfg env (Py.range (MAX_RETRIES cfg)) w) as ([page Hv] & _).
  destruct (fetch_preview cfg env (Py.range (MAX_RETRIES cfg)) w) as [[r1 w1] t1].
  cbn in Hv. subst r1. destruct page as [soup|]; [|discriminate].
  destruct (collect_videos soup) as [videos|e'] eqn:Hc; [discriminate|].
  cbn. intros [= <-]. exact (collect_videos_raises _ _ Hc).
Qed.

Lemma download_then_delete_keeps (day_dir : string) (video_meta : VideoMeta) :
  total (download_then_delete cfg env day_dir video_meta)
  /\ stable nothing_lost (download_then_delete cfg env day_dir video_meta).
Proof.
  unfold download_then_delete. split.
  - apply total_bind.
    + intros w. now destruct (download_video_writes cfg env video_meta day_dir w) as [H _].
    + intros downloaded. destruct downloaded; [|apply total_ret].
      apply total_bind; [apply delete_video_from_server_total|intros; apply total_ret].
  - apply (stable_bind nothing_lost nothing_lost_trans).
    + intros w. destruct (download_video_writes cfg env video_meta day_dir w) as (_ & H & _).
      exact (wrote_at_most_nothing_lost _ _ _ H).
    + intros downloaded. destruct downloaded; [|intros w; apply nothing_lost_refl].
      apply (stable_bind nothing_lost nothing_lost_trans).
      * intros w. apply same_fs_nothing_lost, delete_video_from_server_same_fs.
      * intros _ w. apply nothing_lost_refl.
Qed.

Lemma for_in_keeps {A} (l : list A) (body : A -> M unit) :
  (forall x, total (body x) /\ stable nothing_lost (body x)) ->
  total (for_in l body) /\ stable nothing_lost (for_in l body).
Proof.
  intros Hb. induction l as [|x l [IHt IHs]]; cbn [for_in].
  - split; [apply total_ret|intros w; apply nothing_lost_refl].
  - destruct (Hb x) as [Ht Hs]. split.
    + apply total_bind; auto.
    + apply (stable_bind nothing_lost nothing_lost_trans); auto.
Qed.

(** X8.  [fetch_and_clean] never removes anything from the local disk:
    every file and every directory that was there before is there
    afterwards.  While the listing is fetched the disk is not touched at
    all, so a run that finds the listing empty leaves the disk exactly as
    it was (no bucket is created).  The only exceptions that escape are the
    [KeyError] of a delete button without a value, raised while the listing
    is parsed, and the [OSError] of a bucket that cannot be created. *)
Theorem fetch_and_clean_keeps_disk (w : World) :
  let r := fetch_and_clean cfg env w in
  let listing := fetch_video_list cfg env w in
  nothing_lost w (world_after r)
  /\ fs (world_after listing) = fs w
  /\ (value listing = Ret [] -> r = (Ret tt, world_after listing, events listing))
  /\ (forall e, value r = Raise e ->
        (e = key_error /\ value listing = Raise e) \/ e = os_error).
Proof.
  intros r listing.
  assert (Hr : r = fetch_and_clean cfg env w) by reflexivity.
  assert (Hl : listing = fetch_video_list cfg env w) by reflexivity.
  pose proof (fetch_video_list_same_fs cfg env w) as Hsame. rewrite <- Hl in Hsame.
  pose proof (fetch_video_list_raises w) as Hraise. rewrite <- Hl in Hraise.
  unfold fetch_and_clean in Hr. unfold bind at 1 in Hr. rewrite <- Hl in Hr.
  clearbody r listing. destruct listing as [[l w1] t1].
  cbn [value world_after events fst snd] in *.
  split; [|split; [exact Hsame|]].
  - destruct l as [videos|e]; [|subst r; now apply same_fs_nothing_lost].
    destruct videos as [|v vs].
    + cbn in Hr. subst r. now apply same_fs_nothing_lost.
    + remember (v :: vs) as videos eqn:Hvideos. cbv beta iota in Hr.
      assert (Hrest : forall day_dir,
                 stable nothing_lost
                   (fs_update (fun s => makedirs s day_dir) ;;;
                    for_in videos (download_then_delete cfg env day_dir))).
      { intros day_dir. apply (stable_bind nothing_lost nothing_lost_trans).
        - apply makedirs_nothing_lost.
        - intros _. now apply for_in_keeps, download_then_delete_keeps. }
      rewrite Hvideos in Hr. cbv beta iota in Hr. rewrite <- Hvideos in Hr.
      unfold bind at 1, ask at 1 in Hr.
      match type of Hr with
      | context [bind (fs_update (fun s => makedirs s ?d)) ?k (answered w1)] =>
          pose proof (Hrest d (answered w1)) as Hstep;
          destruct (bind (fs_update (fun s => makedirs s d)) k (answered w1))
            as [[r2 w2] t2]
      end.
      subst r. cbn [world_after fst snd] in *.
      apply (nothing_lost_trans _ w1); [now apply same_fs_nothing_lost|].
      exact Hstep.
  - split.
    + intros ->. cbn in Hr. now rewrite app_nil_r in Hr.
    + intros e. destruct l as [videos|e'].
      * destruct videos as [|v vs]; [subst r; discriminate|].
        remember (v :: vs) as videos eqn:Hvideos.
        rewrite Hvideos in Hr. cbv beta iota in Hr. rewrite <- Hvideos in Hr.
        unfold bind at 1, ask at 1 in Hr. unfold bind at 1, fs_update at 1 in Hr.
        destruct (makedirs _ _) as [s|].
        -- cbn [put_fs] in Hr.
           match type of Hr with context [for_in ?l ?b ?w2] =>
             destruct (for_in_keeps l b (download_then_delete_keeps _)) as [Ht _];
             destruct (Ht w2) as [u Hu]; destruct (for_in l b w2) as [[r3 w3] t3]
           end.
           cbn in Hu. subst r3 r. discriminate.
        -- subst r. cbn. intros [= <-]. now right.
      * subst r. cbn. intros [= <-]. left. split; [now apply Hraise|reflexivity].
Qed.

End FetchAndCleanDisk.

(* ====================================================================== *)
(** * Degenerate configurations                                            *)
(* ====================================================================== *)

Section NoBaseUrl.

Import VideoScraper.

Variable cfg : Config.
Variable env : Env.

Hypothesis no_base_url : BASE_URL cfg = "".

Lemma fetch_preview_no_base_url (attempts : list nat) (w : World) :
  fetch_preview cfg env attempts w = (Ret None, w, map Sleep (map Py.pow2 attempts)).
Proof.
  induction attempts as [|attempt rest IH]; [reflexivity|].
  cbn [fetch_preview]. unfold request_preview, preview_url. rewrite no_base_url.
  unfold_monad. cbn. rewrite IH. reflexivity.
Qed.

Lemma delete_attempts_no_base_url (handle : string) (attempts : list nat) (w : World) :
  delete_attempts cfg env handle attempts w
  = (Ret false, w, map Sleep (map Py.pow2 attempts)).
Proof.
  induction attempts as [|attempt rest IH]; [reflexivity|].
  cbn [delete_attempts]. unfold request_delete, preview_url. rewrite no_base_url.
  unfold_monad. cbn. rewrite IH. reflexivity.
Qed.

(** X9.  Without a base URL the scraper sends no request at all and
    reports no error: every attempt to fetch the listing fails before the
    request is made and is followed by its wait, so that [fetch_video_list]
    returns the empty list and [fetch_and_clean] returns normally, after
    waits of 1, 2, 4, ... seconds and with nothing else done.  The scheduler
    logs such a scrape as completed.  A deletion with a handle goes the
    same way and returns [False]. *)
Theorem no_base_url_no_request (w : World) :
  let waits := map Sleep (backoff (Z.to_nat (MAX_RETRIES cfg))) in
  fetch_video_list cfg env w = (Ret [], w, waits)
  /\ fetch_and_clean cfg env w = (Ret tt, w, waits)
  /\ events (Scheduler.run_scraping cfg env w)
     = (Print (datetime_now env (calls w)) ScrapingStarted :: waits
        ++ [Print (datetime_now env (S (calls w))) ScrapingCompleted])%list
  /\ (forall video_meta,
        has_thumbnail video_meta = true ->
        delete_video_from_server cfg env video_meta w = (Ret false, w, waits)).
Proof.
  cbv zeta. unfold backoff. change (seq 0 (Z.to_nat (MAX_RETRIES cfg)))
    with (Py.range (MAX_RETRIES cfg)).
  assert (Hlist : forall w, fetch_video_list cfg env w
                            = (Ret [], w, map Sleep (map Py.pow2 (Py.range (MAX_RETRIES cfg))))).
  { intros w'. unfold fetch_video_list, bind. rewrite fetch_preview_no_base_url.
    cbn. now rewrite app_nil_r. }
  assert (Hclean : forall w, fetch_and_clean cfg env w
                             = (Ret tt, w, map Sleep (map Py.pow2 (Py.range (MAX_RETRIES cfg))))).
  { intros w'. unfold fetch_and_clean, bind. rewrite Hlist. cbn. now rewrite app_nil_r. }
  split; [apply Hlist|]. split; [apply Hclean|]. split.
  - unfold Scheduler.run_scraping, Scheduler.print_now.
    generalize Hclean. generalize (fetch_and_clean cfg env). intros m Hm.
    unfold_monad. cbn. rewrite Hm. cbn. now rewrite ?app_nil_r.
  - intros video_meta Hh. unfold delete_video_from_server, has_thumbnail in *.
    destruct (thumbnail video_meta) as [handle|]; [|discriminate].
    destruct (handle =? ""); [discriminate|].
    apply delete_attempts_no_base_url.
Qed.

End NoBaseUrl.

Lemma no_base_url_no_request_witness :
  VideoScraper.fetch_and_clean (cfg_blank 3) env_ok w_empty
  = (Ret tt, w_empty, [Sleep 1; Sleep 2; Sleep 4]).
Proof.
  apply (no_base_url_no_request (cfg_blank 3) env_ok eq_refl w_empty).
Defined.

Section NoRetryBudget.

Variable cfg : Config.
Variable env : Env.

Hypothesis no_budget : (MAX_RETRIES cfg <= 0)%Z.

Lemma range_no_budget : Py.range (MAX_RETRIES cfg) = [].
Proof. unfold Py.range. now replace (Z.to_nat (MAX_RETRIES cfg)) with 0 by lia. Qed.

(** X10.  With [MAX_RETRIES] zero or negative no stage makes a single
    attempt.  The scraper fetches nothing and returns; a download and a
    deletion return [False] without a request; the merge writes its
    manifest and returns [False] without running ffmpeg; an upload whose
    session is established and whose file exists returns [False] without a
    request.  The daily pipeline therefore never returns [True] and never
    talks to ffmpeg or to the publishing service. *)
Theorem no_retry_budget_no_attempt (w : World) :
  VideoScraper.fetch_and_clean cfg env w = (Ret tt, w, [])
  /\ (forall video_meta day_dir,
        VideoScraper.download_video cfg env video_meta day_dir w = (Ret false, w, []))
  /\ (forall video_meta,
        VideoScraper.delete_video_from_server cfg env video_meta w = (Ret false, w, []))
  /\ (forall day_dir files output_path,
        let r := VideoProcessor.concatenate_videos cfg env day_dir files output_path w in
        events r = []
        /\ match open_write (fs w) (Py.os_path_join day_dir "files.txt") with
           | Some s => value r = Ret false /\ fs (world_after r) = s
           | None => value r = Raise os_error /\ fs (world_after r) = fs w
           end)
  /\ (forall file_path title description,
        youtube_service w = true -> mem file_path (files (fs w)) = true ->
        YouTubeUploader.upload_video cfg env file_path title description w
        = (Ret false, w, []))
  /\ (forall date_str,
        let r := VideoProcessor.process_daily_videos cfg env date_str w in
        value r <> Ret true /\ events r = []).
Proof.
  pose proof range_no_budget as Hrange.
  assert (Hmerge : forall day_dir files output_path w,
             let r := VideoProcessor.concatenate_videos cfg env day_dir files output_path w in
             events r = []
             /\ match open_write (fs w) (Py.os_path_join day_dir "files.txt") with
                | Some s => value r = Ret false /\ fs (world_after r) = s
                | None => value r = Raise os_error /\ fs (world_after r) = fs w
                end).
  { intros day_dir files output_path w'. cbv zeta.
    unfold VideoProcessor.concatenate_videos, VideoProcessor.create_ffmpeg_file_list,
      fs_update.
    rewrite Hrange. unfold_monad. cbn.
    destruct (open_write (fs w') _); cbn; auto. }
  split; [|split; [|split; [|split; [exact (fun d f o => Hmerge d f o w)|split]]]].
  - unfold VideoScraper.fetch_and_clean, VideoScraper.fetch_video_list. now rewrite Hrange.
  - intros video_meta day_dir. unfold VideoScraper.download_video. now rewrite Hrange.
  - intros video_meta. unfold VideoScraper.delete_video_from_server. rewrite Hrange.
    destruct (VideoScraper.thumbnail video_meta) as [handle|]; [|reflexivity].
    now destruct (handle =? "").
  - intros file_path title description Hs Hf.
    rewrite upload_video_unfold. cbv zeta. now rewrite Hs, Hf, Hrange.
  - intros date_str. cbv zeta. rewrite process_daily_videos_unfold. cbv zeta.
    destruct (path_exists _ _); cbn [negb]; [|split; [discriminate|reflexivity]].
    destruct (listdir _ _) as [names|]; [|split; [discriminate|reflexivity]].
    destruct (Py.sorted _) as [|f media]; [split; [discriminate|reflexivity]|].
    match goal with |- context [VideoProcessor.concatenate_videos cfg env ?d ?f ?o ?w'] =>
      destruct (Hmerge d f o w') as [He Hv];
      destruct (open_write (fs w') (Py.os_path_join d "files.txt"));
      destruct Hv as [Hv _]; rewrite Hv, He
    end; split; (discriminate || reflexivity).
Qed.

End NoRetryBudget.

Lemma no_retry_budget_no_attempt_witness :
  VideoScraper.fetch_and_clean (cfg_cam 0) env_ok w_two_files = (Ret tt, w_two_files, [])
  /\ value (VideoProcessor.process_daily_videos (cfg_cam 0) env_ok (Some "2025-08-12")
              w_two_files) <> Ret true.
Proof.
  assert (Hb : (MAX_RETRIES (cfg_cam 0) <= 0)%Z) by (cbn; lia).
  destruct (no_retry_budget_no_attempt (cfg_cam 0) env_ok Hb w_two_files)
    as (Hfetch & _ & _ & _ & _ & Hdaily).
  split; [exact Hfetch|]. apply Hdaily.
Defined.

(* ====================================================================== *)
(** * What a daily run does to the disk                                    *)
(* ====================================================================== *)

Section CreatedWithin.

Variable allowed : list string.

Lemma created_within_refl (w : World) : created_within allowed w w.
Proof. split; [apply only_adds_files_refl|auto]. Qed.

Lemma created_within_trans (w1 w2 w3 : World) :
  created_within allowed w1 w2 -> created_within allowed w2 w3 ->
  created_within allowed w1 w3.
Proof.
  intros [Ha1 Hb1] [Ha2 Hb2]. split; [exact (only_adds_files_trans _ _ _ Ha1 Ha2)|].
  intros p Hp. destruct (Hb2 p Hp) as [H|H]; auto.
Qed.

Lemma cw_bind {A B} (m : M A) (k : A -> M B) :
  stable (created_within allowed) m -> (forall a, stable (created_within allowed) (k a)) ->
  stable (created_within allowed) (bind m k).
Proof. apply stable_bind. exact created_within_trans. Qed.

Lemma cw_try_except {A} (m : M A) (catches : exn -> bool) (h : exn -> M A) :
  stable (created_within allowed) m -> (forall e, stable (created_within allowed) (h e)) ->
  stable (created_within allowed) (try_except m catches h).
Proof. apply stable_try_except. exact created_within_trans. Qed.

Lemma cw_of_same_fs {A} (m : M A) :
  stable same_fs m -> stable (created_within allowed) m.
Proof.
  intros H w. specialize (H w). unfold same_fs in H.
  unfold created_within, only_adds_files, same_dirs, keeps_files. rewrite H. auto.
Qed.

Lemma In_add_inv (p q : string) (l : list string) : In q (add p l) -> In q l \/ q = p.
Proof.
  unfold add. destruct (mem p l); [auto|].
  intros H. apply in_app_or in H as [H|[<-|[]]]; auto.
Qed.

Lemma cw_add_file (p : string) (w : World) :
  In p allowed ->
  created_within allowed w
    (mk_world (calls w) (mk_fs (add p (files (fs w))) (dirs (fs w))) (youtube_service w)).
Proof.
  intros Hp. split; [split; [reflexivity|intros q; apply In_add]|].
  intros q Hq. cbn in Hq. apply In_add_inv in Hq as [Hq| ->]; auto.
Qed.

Lemma cw_open_write (p : string) :
  In p allowed -> stable (created_within allowed) (fs_update (fun s => open_write s p)).
Proof.
  intros Hp w. unfold fs_update, open_write.
  destruct (_ || _); [apply created_within_refl|]. now apply cw_add_file.
Qed.

Lemma cw_record_output (p : string) (written : bool) :
  In p allowed -> stable (created_within allowed) (VideoProcessor.record_output p written).
Proof.
  intros Hp w. unfold VideoProcessor.record_output.
  destruct written; [|apply created_within_refl].
  unfold_monad. cbn. destruct (mem p (dirs (fs w))); [apply created_within_refl|].
  now apply cw_add_file.
Qed.

Lemma cw_leaf {A} (m : M A) :
  (forall w, fs (world_after (m w)) = fs w) -> stable (created_within allowed) m.
Proof. intros H. apply cw_of_same_fs. exact H. Qed.

End CreatedWithin.

Ltac cw_tac :=
  repeat first
    [ solve [apply cw_leaf; intro; reflexivity]
    | solve [apply cw_leaf; intros ?w; match goal with |- context [raise_if ?r] =>
                                          now destruct r end]
    | solve [auto]
    | apply cw_bind
    | apply cw_try_except
    | match goal with |- forall _, _ => intro end
    | progress unfold time_sleep
    | split_cases ].

Section DailyDisk.

Import VideoProcessor.

Variable cfg : Config.
Variable env : Env.

Lemma concatenate_videos_creates (allowed : list string) (day_dir : string)
      (files : list string) (output_path : string) :
  In (Py.os_path_join day_dir "files.txt") allowed -> In output_path allowed ->
  stable (created_within allowed) (concatenate_videos cfg env day_dir files output_path).
Proof.
  intros Hlist Hout. unfold concatenate_videos, create_ffmpeg_file_list.
  pose proof (cw_open_write allowed _ Hlist) as Hopen.
  apply cw_bind; [cw_tac|]. intros list_path.
  induction (Py.range (MAX_RETRIES cfg)) as [|attempt rest IH]; cbn [concatenate_attempts].
  - cw_tac.
  - assert (Hrec : forall written,
               stable (created_within allowed) (record_output output_path written))
      by (intros written; now apply cw_record_output).
    unfold run_ffmpeg. cw_tac.
Qed.

Lemma upload_video_creates (allowed : list string) (file_path title : string)
      (description : option string) :
  In (YOUTUBE_TOKEN_PATH cfg) allowed ->
  stable (created_within allowed)
    (YouTubeUploader.upload_video cfg env file_path title description).
Proof.
  intros Htoken.
  pose proof (cw_open_write allowed _ Htoken) as Hopen.
  unfold YouTubeUploader.upload_video, YouTubeUploader.get_authenticated_service,
    YouTubeUploader.media_file_upload, YouTubeUploader.log_in, YouTubeUploader.save_token.
  apply cw_bind; [cw_tac|]. intros service.
  apply cw_bind; [cw_tac|]. intros _.
  apply cw_bind; [cw_tac|]. intros _.
  induction (Py.range (MAX_RETRIES cfg)) as [|attempt rest IH];
    cbn [YouTubeUploader.upload_attempts].
  - cw_tac.
  - unfold YouTubeUploader.request_insert. cw_tac.
Qed.

(** X11.  What a daily run may do to the disk, the merge tool writing
    nothing but the output file it is given.  The run never creates a
    directory, and the only files it can create are the manifest
    "files.txt" of the bucket, the merged artifact and the token file of
    the publishing session.  Unless it returns [True] it deletes nothing:
    every file and every directory that was there before the run is there
    after it, whether the run returned [False] or raised. *)
Theorem daily_run_disk_frame (date_str : option string) (w : World) :
  let date := date_key env date_str w in
  let run := process_daily_videos cfg env date_str w in
  (forall p, In p (files (fs (world_after run))) ->
             In p (files (fs w)) \/ In p (may_create cfg date))
  /\ (forall d, In d (dirs (fs (world_after run))) -> In d (dirs (fs w)))
  /\ (value run <> Ret true -> created_within (may_create cfg date) w (world_after run)).
Proof.
  intros date run.
  assert (Hrun : run = process_daily_videos cfg env date_str w) by reflexivity.
  clearbody run. rewrite process_daily_videos_unfold in Hrun. cbv zeta in Hrun.
  fold date in Hrun.
  set (w0 := after_date date_str w) in *. set (day_dir := day_dir_of cfg date) in *.
  set (allowed := may_create cfg date).
  assert (Hw0 : created_within allowed w w0).
  { subst w0. destruct date_str; (split; [split; [reflexivity|now intros p]|auto]). }
  assert (Hgoal : forall w',
             created_within allowed w w' ->
             (forall p, In p (files (fs w')) -> In p (files (fs w)) \/ In p allowed)
             /\ (forall d, In d (dirs (fs w')) -> In d (dirs (fs w)))
             /\ created_within allowed w w').
  { intros w' H. split; [apply H|]. split; [|exact H].
    destruct H as [[Hd _] _]. unfold same_dirs in Hd. now rewrite Hd. }
  assert (Hweak : forall w' : World,
             ((forall p, In p (files (fs w')) -> In p (files (fs w)) \/ In p allowed)
              /\ (forall d, In d (dirs (fs w')) -> In d (dirs (fs w)))
              /\ created_within allowed w w') ->
             forall v : outcome bool,
               (forall p, In p (files (fs w')) -> In p (files (fs w)) \/ In p allowed)
               /\ (forall d, In d (dirs (fs w')) -> In d (dirs (fs w)))
               /\ (v <> Ret true -> created_within allowed w w')).
  { intros w' (H1 & H2 & H3) v. auto. }
  destruct (path_exists (fs w0) day_dir); cbn [negb] in Hrun;
    [|subst run; now apply Hweak, Hgoal].
  destruct (listdir (fs w0) day_dir) as [names|]; [|subst run; now apply Hweak, Hgoal].
  destruct (Py.sorted (filter is_mp4 names)) as [|f media];
    [subst run; now apply Hweak, Hgoal|].
  assert (Hmerge : created_within allowed w0
                     (world_after (concatenate_videos cfg env day_dir (f :: media)
                                     (output_path_of cfg date) w0))).
  { apply concatenate_videos_creates; cbn; auto. }
  set (merge := concatenate_videos cfg env day_dir (f :: media) (output_path_of cfg date) w0)
    in *.
  pose proof (created_within_trans _ _ _ _ Hw0 Hmerge) as H1.
  destruct (value merge) as [[|]|e]; [|subst run; now apply Hweak, Hgoal ..].
  assert (Hpublish : created_within allowed (world_after merge)
                       (world_after (YouTubeUploader.upload_video cfg env
                                       (output_path_of cfg date) (title_of cfg date) None
                                       (world_after merge)))).
  { apply upload_video_creates. cbn. auto. }
  set (publish := YouTubeUploader.upload_video cfg env (output_path_of cfg date)
                    (title_of cfg date) None (world_after merge)) in *.
  pose proof (created_within_trans _ _ _ _ H1 Hpublish) as H2.
  destruct (value publish) as [[|]|e]; [|subst run; now apply Hweak, Hgoal ..].
  subst run. cbn [value world_after fst snd].
  destruct (Hgoal _ H2) as (Hf & Hd & _).
  rewrite cleanup_effect. cbv zeta.
  split; [|split; [|congruence]].
  - intros p Hp. apply Hf.
    destruct (_ && _) in Hp; cbn in Hp; now apply spared_In in Hp.
  - intros d Hin. apply Hd.
    destruct (_ && _) in Hin; cbn in Hin; [now apply discard_In in Hin|exact Hin].
Qed.

End DailyDisk.

(** The upload is refused three times: the recordings stay, and the
    manifest and the artifact have appeared beside them. *)
Lemma daily_run_disk_frame_witness :
  let run := VideoProcessor.process_daily_videos (cfg_cam 3) env_no_publish
               (Some "2025-08-12") w_two_files in
  In "/data/videos/2025-08-12/video001.mp4" (files (fs (world_after run)))
  /\ dirs (fs (world_after run)) = ["/data/videos/2025-08-12"].
Proof.
  cbv zeta.
  destruct (daily_run_disk_frame (cfg_cam 3) env_no_publish (Some "2025-08-12") w_two_files)
    as (_ & _ & H).
  destruct H as [[Hd Hk] _]; [discriminate|].
  split; [apply Hk; now left|exact Hd].
Defined.

Section DailyEdges.

Import VideoProcessor.

Variable cfg : Config.
Variable env : Env.

(** X12.  A bucket path at which there is a regular file, not a
    directory: [get_video_files] raises [OSError] (the path exists, so the
    check for a missing bucket does not apply, and it cannot be listed),
    and so does [process_daily_videos], before anything is written or
    sent.  A run that the scheduler triggers in the state [w'], so that the
    pipeline starts in [w] just after the start line, is logged as an error
    and leaves the scheduler as it was. *)
Theorem bucket_is_a_file (date_str : option string) (w : World) :
  let day_dir := day_dir_of cfg (date_key env date_str w) in
  mem day_dir (files (fs w)) = true ->
  mem day_dir (dirs (fs w)) = false ->
  get_video_files day_dir w = (Raise os_error, w, [])
  /\ process_daily_videos cfg env date_str w = (Raise os_error, after_date date_str w, [])
  /\ (date_str = None -> forall self w',
        answered w' = w ->
        let r := Scheduler.run_daily_process cfg env self w' in
        value r = Ret self
        /\ events r = [Print (datetime_now env (calls w')) DailyStarted;
                       Print (datetime_now env (S (calls w))) DailyError]).
Proof.
  intros day_dir Hfile Hdir.
  assert (Hex : path_exists (fs w) day_dir = true) by (unfold path_exists; now rewrite Hfile).
  assert (Hls : listdir (fs w) day_dir = None) by (unfold listdir; now rewrite Hdir).
  assert (Hrun : process_daily_videos cfg env date_str w
                 = (Raise os_error, after_date date_str w, [])).
  { rewrite process_daily_videos_unfold. cbv zeta. fold day_dir.
    now rewrite fs_after_date, Hex, Hls. }
  split; [|split; [exact Hrun|]].
  - unfold get_video_files. unfold_monad. now rewrite Hex, Hls.
  - intros -> self w' Hw'. cbv zeta. rewrite run_daily_process_eq. cbv zeta.
    rewrite Hw', Hrun. cbn. split; reflexivity.
Qed.

End DailyEdges.

Lemma bucket_is_a_file_witness :
  VideoProcessor.process_daily_videos (cfg_cam 3) env_ok (Some "2025-08-12") w_file_at_bucket
  = (Raise os_error, w_file_at_bucket, []).
Proof.
  apply (bucket_is_a_file (cfg_cam 3) env_ok (Some "2025-08-12") w_file_at_bucket);
    reflexivity.
Defined.

Section Cleanup.

Import VideoProcessor.



End Cleanup.

Section Authentication.

Import YouTubeUploader.

Variable cfg : Config.
Variable env : Env.

Lemma open_write_Some (s s' : FS) (p : string) :
  open_write s p = Some s' -> s' = mk_fs (add p (files s)) (dirs s).
Proof. unfold open_write. destruct (_ || _); [discriminate|now intros [= <-]]. Qed.

Lemma save_token_effect (w : World) :
  let r := save_token cfg w in
  youtube_service (world_after r) = youtube_service w
  /\ wrote_at_most (YOUTUBE_TOKEN_PATH cfg) w (world_after r)
  /\ (value r = Ret tt -> mem (YOUTUBE_TOKEN_PATH cfg) (files (fs (world_after r))) = true).
Proof.
  cbv zeta. unfold save_token, fs_update, open_write.
  destruct (_ || _); cbn.
  - split; [reflexivity|]. split; [apply wrote_at_most_refl|discriminate].
  - split; [reflexivity|]. split; [split; auto|]. intros _. apply mem_In, In_add_self.
Qed.

Lemma get_authenticated_service_spec (w : World) :
  let r := get_authenticated_service cfg env w in
  events r = []
  /\ wrote_at_most (YOUTUBE_TOKEN_PATH cfg) w (world_after r)
  /\ (value r = Ret tt ->
      youtube_service (world_after r) = true
      /\ mem (YOUTUBE_TOKEN_PATH cfg) (files (fs (world_after r))) = true)
  /\ (forall e, value r = Raise e -> youtube_service (world_after r) = youtube_service w).
Proof.
  intros r. split; [apply get_authenticated_service_silent|].
  assert (Hr : r = get_authenticated_service cfg env w) by reflexivity. clearbody r.
  unfold get_authenticated_service in Hr.
  set (build := failure <- ask (build_service env) ;;
                raise_if failure ;;; set_youtube_service) in Hr.
  assert (Hbuild : forall w1 : World,
             fs (world_after (build w1)) = fs w1
             /\ (value (build w1) = Ret tt -> youtube_service (world_after (build w1)) = true)
             /\ (forall e, value (build w1) = Raise e ->
                           youtube_service (world_after (build w1)) = youtube_service w1)).
  { intros w1. subst build. unfold_monad. cbn. destruct (build_service env (calls w1)); cbn.
    - split; [reflexivity|]. split; [discriminate|reflexivity].
    - split; [reflexivity|]. split; [reflexivity|discriminate]. }
  assert (Hfinish : forall (m : M unit) (w1 : World),
             youtube_service (world_after (m w1)) = youtube_service w1 ->
             wrote_at_most (YOUTUBE_TOKEN_PATH cfg) w1 (world_after (m w1)) ->
             (value (m w1) = Ret tt ->
              mem (YOUTUBE_TOKEN_PATH cfg) (files (fs (world_after (m w1)))) = true) ->
             wrote_at_most (YOUTUBE_TOKEN_PATH cfg) w1 (world_after ((m ;;; build) w1))
             /\ (value ((m ;;; build) w1) = Ret tt ->
                 youtube_service (world_after ((m ;;; build) w1)) = true
                 /\ mem (YOUTUBE_TOKEN_PATH cfg)
                      (files (fs (world_after ((m ;;; build) w1)))) = true)
             /\ (forall e, value ((m ;;; build) w1) = Raise e ->
                           youtube_service (world_after ((m ;;; build) w1))
                           = youtube_service w1)).
  { intros m w1 Hyt Hwrote Htoken. unfold bind.
    destruct (m w1) as [[[[]|e] w2] t2]; cbn [value world_after fst snd] in *.
    - destruct (Hbuild w2) as (Hfs & Hok & Hfail).
      destruct (build w2) as [[r3 w3] t3]. cbn [value world_after fst snd] in *.
      split; [|split].
      + destruct Hwrote as [Hd Hf]. split; rewrite Hfs; assumption.
      + intros H. split; [auto|]. rewrite Hfs. auto.
      + intros e H. rewrite (Hfail e H). exact Hyt.
    - split; [exact Hwrote|]. split; [discriminate|]. intros e' _. exact Hyt. }
  assert (Hensure : forall (pre : M unit) (w1 : World),
             fs (world_after (pre w1)) = fs w1 ->
             youtube_service (world_after (pre w1)) = youtube_service w1 ->
             let m := pre ;;; save_token cfg in
             youtube_service (world_after (m w1)) = youtube_service w1
             /\ wrote_at_most (YOUTUBE_TOKEN_PATH cfg) w1 (world_after (m w1))
             /\ (value (m w1) = Ret tt ->
                 mem (YOUTUBE_TOKEN_PATH cfg) (files (fs (world_after (m w1)))) = true)).
  { intros pre w1 Hfs Hyt. cbv zeta. unfold bind.
    destruct (pre w1) as [[[[]|e] w2] t2]; cbn [value world_after fst snd] in *.
    - destruct (save_token_effect w2) as (Hy & [Hd Hf] & Hm).
      destruct (save_token cfg w2) as [[r3 w3] t3]. cbn [value world_after fst snd] in *.
      split; [congruence|]. split; [|exact Hm].
      split; [congruence|]. now rewrite <- Hfs.
    - split; [exact Hyt|]. split; [|discriminate].
      split; [now rewrite Hfs|left; now rewrite Hfs]. }
  assert (Hpre : forall (oracle : nat -> option exn) (w1 : World),
             let pre := failure <- ask oracle ;; raise_if failure in
             fs (world_after (pre w1)) = fs w1
             /\ youtube_service (world_after (pre w1)) = youtube_service w1).
  { intros oracle w1. unfold_monad. cbn. now destruct (oracle (calls w1)). }
  rewrite (bind_Ret get_fs _ w w (fs w) [] eq_refl) in Hr.
  subst r. cbn [value world_after fst snd].
  assert (Hraised : forall (e : exn) (w1 : World),
             fs w1 = fs w -> youtube_service w1 = youtube_service w ->
             wrote_at_most (YOUTUBE_TOKEN_PATH cfg) w w1
             /\ (@Raise unit e = Ret tt ->
                 youtube_service w1 = true
                 /\ mem (YOUTUBE_TOKEN_PATH cfg) (files (fs w1)) = true)
             /\ (forall e', @Raise unit e = Raise e' ->
                            youtube_service w1 = youtube_service w)).
  { intros e w1 Hfs Hyt. split; [split; [now rewrite Hfs|left; now rewrite Hfs]|].
    split; [discriminate|auto]. }
  assert (Hlogin : forall (oracle : nat -> option exn) (w1 : World),
             fs w1 = fs w -> youtube_service w1 = youtube_service w ->
             let run := (((failure <- ask oracle ;; raise_if failure) ;;; save_token cfg)
                         ;;; build) w1 in
             wrote_at_most (YOUTUBE_TOKEN_PATH cfg) w (world_after run)
             /\ (value run = Ret tt ->
                 youtube_service (world_after run) = true
                 /\ mem (YOUTUBE_TOKEN_PATH cfg) (files (fs (world_after run))) = true)
             /\ (forall e, value run = Raise e ->
                           youtube_service (world_after run) = youtube_service w)).
  { intros oracle w1 Hfs Hyt. cbv zeta.
    destruct (Hpre oracle w1) as [H1 H2].
    destruct (Hensure _ w1 H1 H2) as (H3 & H4 & H5).
    destruct (Hfinish _ w1 H3 H4 H5) as ([Hd Hf] & Hok & Hfail).
    split; [split; [now rewrite Hd, Hfs|]|].
    { destruct Hf as [Hf|Hf]; [left|right]; now rewrite Hf, Hfs. }
    split; [exact Hok|]. intros e He. now rewrite (Hfail e He). }
  destruct (path_exists (fs w) (YOUTUBE_TOKEN_PATH cfg)) eqn:Hex.
  - destruct (mem (YOUTUBE_TOKEN_PATH cfg) (files (fs w))) eqn:Hfile.
    + rewrite !bind_assoc.
      rewrite (bind_Ret (ask (pickle_load env)) _ w (answered w)
                 (pickle_load env (calls w)) [] eq_refl).
      cbn [value world_after fst snd].
      destruct (pickle_load env (calls w)) as [creds|e].
      * rewrite (bind_Ret (ret creds) _ (answered w) (answered w) creds [] eq_refl).
        cbn [value world_after fst snd].
        destruct creds as [c|]; [destruct (valid c)|].
        -- exact (Hfinish (ret tt) (answered w) eq_refl (wrote_at_most_refl _ _)
                    (fun _ => Hfile)).
        -- destruct (expired c && refresh_token c);
             exact (Hlogin _ (answered w) eq_refl eq_refl).
        -- exact (Hlogin _ (answered w) eq_refl eq_refl).
      * rewrite (bind_Raise (raise e) _ (answered w) (answered w) e [] eq_refl).
        exact (Hraised e (answered w) eq_refl eq_refl).
    + rewrite (bind_Raise (raise os_error) _ w w os_error [] eq_refl).
      exact (Hraised os_error w eq_refl eq_refl).
  - rewrite (bind_Ret (ret None) _ w w None [] eq_refl).
    cbn [value world_after fst snd].
    exact (Hlogin _ w eq_refl eq_refl).
Qed.

(** X14.  [get_authenticated_service] sends no upload request and does
    not wait.  On disk it can only create the token file.  When it returns,
    the publishing session is established and the token file is on disk
    (it was loaded from there, or it has just been written); when it
    raises, the session is as it was before the call. *)
Theorem get_authenticated_service_effect (w : World) :
  let r := get_authenticated_service cfg env w in
  events r = []
  /\ wrote_at_most (YOUTUBE_TOKEN_PATH cfg) w (world_after r)
  /\ (value r = Ret tt ->
      youtube_service (world_after r) = true
      /\ mem (YOUTUBE_TOKEN_PATH cfg) (files (fs (world_after r))) = true)
  /\ (forall e, value r = Raise e -> youtube_service (world_after r) = youtube_service w).
Proof. exact (get_authenticated_service_spec w). Qed.

Lemma upload_attempts_frame (file_path title description : string) (attempts : list nat) :
  forall w,
    let r := upload_attempts env file_path title description attempts w in
    fs (world_after r) = fs w
    /\ youtube_service (world_after r) = youtube_service w
    /\ calls (world_after r) = calls w + length (requests (events r)).
Proof.
  induction attempts as [|attempt rest IH]; intros w; cbv zeta.
  - cbn. auto.
  - rewrite upload_attempts_step.
    destruct (videos_insert env (calls w) file_path title description) as [id|e].
    + cbn. repeat split. lia.
    + cbv zeta. cbn [value world_after events fst snd].
      destruct (IH (answered w)) as (Hfs & Hyt & Hcalls).
      rewrite Hfs, Hyt, Hcalls. cbn. repeat split. unfold requests. lia.
Qed.

(** X15.  The publishing session is established once.  Whenever
    [upload_video] returns, the session is established afterwards.  A call
    made with the session already established loads no credentials and
    asks for no log-in: it leaves the disk as it was, and the only calls it
    makes to its collaborators are its upload requests. *)
Theorem upload_video_session
    (file_path title : string) (description : option string) (w : World) :
  let r := upload_video cfg env file_path title description w in
  ((exists b, value r = Ret b) -> youtube_service (world_after r) = true)
  /\ (youtube_service w = true ->
      fs (world_after r) = fs w
      /\ youtube_service (world_after r) = true
      /\ calls (world_after r) = calls w + length (requests (events r))).
Proof.
  cbv zeta. rewrite upload_video_unfold. cbv zeta.
  set (sent := match description with Some d => _ | None => _ end).
  pose proof (upload_attempts_frame file_path title sent (Py.range (MAX_RETRIES cfg)))
    as Hframe. cbv zeta in Hframe.
  destruct (youtube_service w) eqn:Hyt.
  - destruct (mem file_path (files (fs w))).
    + destruct (Hframe w) as (Hfs & Hy & Hcalls). rewrite Hy, Hyt. auto.
    + cbn. split; [intros [b H]; discriminate|]. intros _. repeat split; auto.
  - split; [|discriminate]. intros [b Hb].
    pose proof (get_authenticated_service_spec w) as (_ & _ & Hok & _).
    destruct (get_authenticated_service cfg env w) as [[[[]|e] w1] t1];
      cbn [value world_after fst snd] in *; [|discriminate].
    destruct (Hok eq_refl) as [Hy1 _].
    destruct (mem file_path (files (fs w1))); [|discriminate].
    destruct (Hframe w1) as (_ & Hy & _). now rewrite Hy.
Qed.

End Authentication.

(** A fresh process with valid stored credentials: the first upload
    establishes the session, and the token file is still there. *)
Lemma get_authenticated_service_effect_witness :
  let w := mk_world 0 (mk_fs ["token.pickle"] []) false in
  youtube_service (world_after (YouTubeUploader.get_authenticated_service (cfg_cam 3) env_ok w))
  = true
  /\ mem "token.pickle"
       (files (fs (world_after (YouTubeUploader.get_authenticated_service (cfg_cam 3)
                                  env_ok w)))) = true.
Proof.
  cbv zeta.
  apply (get_authenticated_service_effect (cfg_cam 3) env_ok
           (mk_world 0 (mk_fs ["token.pickle"] []) false)).
  reflexivity.
Defined.

Lemma upload_video_session_witness :
  calls (world_after (YouTubeUploader.upload_video (cfg_cam 3) env_ok artifact_0812
                        "RPiCam 2025-08-12" None w_ready))
  = 1.
Proof.
  destruct (upload_video_session (cfg_cam 3) env_ok artifact_0812 "RPiCam 2025-08-12" None
              w_ready) as [_ H].
  destruct (H eq_refl) as (_ & _ & ->). reflexivity.
Defined.

(* ====================================================================== *)
(** * What can stop the scheduler                                          *)
(* ====================================================================== *)

Section SchedulerSurvival.

Import Scheduler.

Variable cfg : Config.
Variable env : Env.









End SchedulerSurvival.


(* ====================================================================== *)
(** * The date a successful run is booked on                               *)
(* ====================================================================== *)

Section CompletionDate.

Import Scheduler.

Variable cfg : Config.
Variable env : Env.

(** X17.  A successful daily run is booked on the date of its completion,
    not on the date of the bucket it processed.  The bucket is named by the
    clock reading made when the pipeline starts; the last-run date is taken
    from a reading made after the pipeline has returned; and every check
    made on that last-run date answers that no run is due.  A run that
    starts before midnight and completes after it therefore marks the new
    day as done. *)
Theorem last_run_date_is_completion_date (self : RPiCamScheduler) (w : World) :
  let r := run_daily_process cfg env self w in
  let pipeline := VideoProcessor.process_daily_videos cfg env None (answered w) in
  let processed := Datetime.dt_date (datetime_now env (S (calls w))) in
  let completed := Datetime.dt_date (datetime_now env (S (calls (world_after pipeline)))) in
  value pipeline = Ret true ->
  date_key env None (answered w) = Datetime.strftime_ymd processed
  /\ value r = Ret (mk_scheduler (running self) (Some completed))
  /\ forall w',
       Datetime.dt_date (datetime_now env (calls w')) = completed ->
       value (should_run_daily_process cfg env
                (mk_scheduler (running self) (Some completed)) w') <> Ret true.
Proof.
  intros r pipeline processed completed Hok.
  split; [reflexivity|]. split.
  - subst r. rewrite run_daily_process_eq. cbv zeta. fold pipeline. now rewrite Hok.
  - intros w' Hdate. rewrite should_run_daily_process_eq. cbv zeta.
    cbn [last_daily_process]. rewrite Hdate.
    assert (Heq : Datetime.date_eqb completed completed = true) by now apply date_eqb_eq.
    rewrite Heq. cbn [negb].
    destruct (Datetime.replace_time _ _ _); [|discriminate].
    cbn [value fst]. rewrite andb_false_r. discriminate.
Qed.

End CompletionDate.

(** The run starts at 23:58 on 2025-08-12 and completes at 00:05: the
    bucket of the 12th is processed and the 13th is booked. *)
Lemma last_run_date_is_completion_date_witness :
  date_key env_over_midnight None (answered w_two_files) = "2025-08-12"
  /\ value (Scheduler.run_daily_process (cfg_cam 3) env_over_midnight Scheduler.init
              w_two_files)
     = Ret (Scheduler.mk_scheduler false (Some (Datetime.mk_date 2025 8 13))).
Proof.
  destruct (last_run_date_is_completion_date (cfg_cam 3) env_over_midnight Scheduler.init
              w_two_files) as (Hkey & Hv & _).
  - reflexivity.
  - split; [exact Hkey|exact Hv].
Defined.

(* ====================================================================== *)
(** * The merge                                                            *)
(* ====================================================================== *)

Section MergeTrace.

Import VideoProcessor.

Variable cfg : Config.
Variable env : Env.

Lemma concatenate_attempts_cons (list_path output_path : string) (attempt : nat)
      (rest : list nat) (w : World) :
  concatenate_attempts env list_path output_path (attempt :: rest) w
  = bind (done <- try_except
                    (try_except (run_ffmpeg env list_path output_path) is_timeout_expired
                       (fun _ => ret false))
                    any_exception (fun _ => ret false) ;;
          if done : bool then ret true else time_sleep (Py.pow2 attempt) ;;; ret false)
      (fun done : bool =>
         if done then ret true else concatenate_attempts env list_path output_path rest) w.
Proof.
  cbn [concatenate_attempts]. rewrite bind_assoc. apply bind_ext.
  intros done w1. destruct done.
  - reflexivity.
  - rewrite bind_assoc. unfold_monad. cbn.
    now destruct (concatenate_attempts env list_path output_path rest w1) as [[r w2] t].
Qed.

Lemma concatenate_step_cases (list_path output_path : string) (attempt : nat) (w : World) :
  let step := done <- try_except
                        (try_except (run_ffmpeg env list_path output_path) is_timeout_expired
                           (fun _ => ret false))
                        any_exception (fun _ => ret false) ;;
              if done : bool then ret true else time_sleep (Py.pow2 attempt) ;;; ret false in
  let req := Ffmpeg (ffmpeg_cmd list_path output_path) in
  (value (step w) = Ret true /\ events (step w) = [req])
  \/ (value (step w) = Ret false /\ events (step w) = [req; Sleep (Py.pow2 attempt)]).
Proof.
  intros step req. set (r := step w).
  assert (Hr : r = step w) by reflexivity. clearbody r. subst step.
  unfold bind at 1 in Hr.
  destruct (ffmpeg_attempt_cases env list_path output_path w) as ([b Hv] & He).
  destruct (try_except _ _ _ w) as [[r1 w1] t1]. cbn in Hv, He. subst r1 t1.
  destruct b; subst r; [left|right]; now split.
Qed.

Lemma concatenate_attempts_grows (list_path output_path : string) (attempts : list nat) :
  stable only_adds_files (concatenate_attempts env list_path output_path attempts).
Proof.
  induction attempts as [|attempt rest IH]; cbn [concatenate_attempts].
  - apply grows_ret.
  - assert (Hrun : stable only_adds_files (run_ffmpeg env list_path output_path)).
    { unfold run_ffmpeg. pose proof record_output_grows. grows_tac. }
    apply grows_bind; [grows_tac|].
    intros done. destruct done; [apply grows_ret|]. grows_tac.
Qed.

(** X18.  The merge.  When the manifest "files.txt" cannot be written (the
    bucket is not a directory, say) [concatenate_videos] raises [OSError]
    before ffmpeg is run.  Otherwise it never raises, the manifest is on
    disk afterwards, and the ffmpeg runs and waits are: failed runs, each
    followed by its wait of 1, 2, 4, ... seconds, then either one more run
    that exits with code zero and [True], or [False] after [MAX_RETRIES]
    runs and the wait that follows the last of them. *)
Theorem concatenate_videos_trace
    (day_dir : string) (files : list string) (output_path : string) (w : World) :
  let list_path := Py.os_path_join day_dir "files.txt" in
  let r := concatenate_videos cfg env day_dir files output_path w in
  let req := Ffmpeg (ffmpeg_cmd list_path output_path) in
  (open_write (fs w) list_path = None -> r = (Raise os_error, w, []))
  /\ (open_write (fs w) list_path <> None ->
      mem list_path (Runtime.files (fs (world_after r))) = true
      /\ exists failed,
           sleeps (events r) = backoff failed
           /\ ((value r = Ret true
                /\ failed < Z.to_nat (MAX_RETRIES cfg)
                /\ events r = (retry_trace req (seq 0 failed) ++ [req])%list)
               \/ (value r = Ret false
                   /\ failed = Z.to_nat (MAX_RETRIES cfg)
                   /\ events r = retry_trace req (seq 0 failed)))).
Proof.
  intros list_path r req.
  assert (Hr : r = concatenate_videos cfg env day_dir files output_path w) by reflexivity.
  clearbody r. unfold concatenate_videos, create_ffmpeg_file_list in Hr.
  fold list_path in Hr. rewrite bind_assoc in Hr.
  unfold bind at 1, fs_update at 1 in Hr.
  destruct (open_write (fs w) list_path) as [s|] eqn:Hopen.
  - split; [discriminate|]. intros _.
    apply open_write_Some in Hopen. cbn [put_fs] in Hr.
    set (w1 := mk_world (calls w) s (youtube_service w)) in *.
    rewrite (bind_Ret (ret list_path) _ w1 w1 list_path [] eq_refl) in Hr.
    cbn [app] in Hr.
    set (loop := concatenate_attempts env list_path output_path (Py.range (MAX_RETRIES cfg)) w1)
      in *.
    assert (Hrw : value r = value loop /\ world_after r = world_after loop
                  /\ events r = events loop) by (now subst r).
    destruct Hrw as (-> & -> & ->). clear Hr r.
    split.
    + apply mem_In.
      destruct (concatenate_attempts_grows list_path output_path
                  (Py.range (MAX_RETRIES cfg)) w1) as [_ Hkeep].
      apply Hkeep. subst w1 s. cbn. apply In_add_self.
    + destruct (retry_loop_trace _ req (concatenate_attempts env list_path output_path)
                  (fun w => eq_refl) (concatenate_attempts_cons list_path output_path)
                  (concatenate_step_cases list_path output_path)
                  (Py.range (MAX_RETRIES cfg)) w1)
        as [failed [(Hv & Hlt & He)|(Hv & Hlen & He)]];
        rewrite range_length in *; exists failed; fold loop in Hv, He.
      * rewrite firstn_range in He by lia. split; [|left; auto].
        rewrite He, sleeps_app.
        destruct (sleeps_retry_trace req (seq 0 failed) eq_refl) as [-> _].
        apply app_nil_r.
      * assert (Hrange : Py.range (MAX_RETRIES cfg) = seq 0 failed)
          by (unfold Py.range; now rewrite Hlen).
        rewrite Hrange in He. split; [|right; auto].
        rewrite He.
        now destruct (sleeps_retry_trace req (seq 0 failed) eq_refl) as [-> _].
  - split; [|congruence]. intros _. subst r. reflexivity.
Qed.

End MergeTrace.

(* ====================================================================== *)
(** * Nothing is deleted from the camera that is not on disk               *)
(* ====================================================================== *)

Section BucketOfTheDay.

Lemma decimal_digits_suffix (fuel : nat) :
  forall n acc, exists pre, Py.decimal_digits fuel n acc = pre ++ acc.
Proof.
  induction fuel as [|fuel IH]; intros n acc; cbn [Py.decimal_digits].
  - now exists "".
  - destruct (n / 10 =? 0)%Z.
    + now exists (String (Py.digit_char n) "").
    + destruct (IH (n / 10)%Z (String (Py.digit_char n) acc)) as [pre ->].
      exists (pre ++ String (Py.digit_char n) ""). now rewrite append_assoc.
Qed.

Lemma zero_pad_append (k : nat) (a b : string) :
  Py.zero_pad k (a ++ b) = Py.zero_pad k a ++ b.
Proof. induction k as [|k IH]; cbn; [reflexivity|now rewrite IH]. Qed.

Lemma format_padded_last (width : nat) (n : Z) :
  exists pre, Py.format_padded width n = pre ++ String (Py.digit_char n) "".
Proof.
  unfold Py.format_padded. cbn [Py.decimal_digits].
  destruct (n / 10 =? 0)%Z.
  - eexists. change (String (Py.digit_char n) "") with ("" ++ String (Py.digit_char n) "").
    apply zero_pad_append.
  - destruct (decimal_digits_suffix (Z.to_nat n) (n / 10)%Z (String (Py.digit_char n) ""))
      as [pre ->].
    eexists. apply zero_pad_append.
Qed.

Lemma digit_char_not_slash (n : Z) : Py.digit_char n <> "/"%char.
Proof.
  unfold Py.digit_char.
  assert (H : (0 <= n mod 10 < 10)%Z) by (apply Z.mod_pos_bound; lia).
  assert (Hc : (n mod 10 = 0 \/ n mod 10 = 1 \/ n mod 10 = 2 \/ n mod 10 = 3 \/ n mod 10 = 4
                \/ n mod 10 = 5 \/ n mod 10 = 6 \/ n mod 10 = 7 \/ n mod 10 = 8
                \/ n mod 10 = 9)%Z) by lia.
  repeat (destruct Hc as [-> | Hc]; [discriminate|]). rewrite Hc. discriminate.
Qed.

Lemma strftime_ymd_last (d : Datetime.date) :
  exists pre c, Datetime.strftime_ymd d = pre ++ String c "" /\ c <> "/"%char.
Proof.
  unfold Datetime.strftime_ymd.
  destruct (format_padded_last 2 (Datetime.day d)) as [pre ->].
  eexists. exists (Py.digit_char (Datetime.day d)).
  split; [|apply digit_char_not_slash].
  now rewrite <- !append_assoc.
Qed.

Lemma rstrip_slash_nonempty (pre : string) (c : ascii) :
  c <> "/"%char -> Py.rstrip_slash (pre ++ String c "") <> "".
Proof.
  intros Hc. induction pre as [|x pre IH]; cbn [append Py.rstrip_slash].
  - apply Ascii.eqb_neq in Hc. now rewrite Hc.
  - destruct (Py.rstrip_slash (pre ++ String c "")); [congruence|discriminate].
Qed.

Lemma os_path_join_last (a pre : string) (c : ascii) :
  exists pre', Py.os_path_join a (pre ++ String c "") = pre' ++ String c "".
Proof.
  unfold Py.os_path_join.
  destruct (Py.startswith _ "/"); [now exists pre|].
  destruct (_ || _).
  - exists (a ++ pre). now rewrite append_assoc.
  - exists (a ++ "/" ++ pre). now rewrite !append_assoc.
Qed.

(** The bucket of a day is never the root directory. *)
Lemma day_dir_not_root (data_dir : string) (d : Datetime.date) :
  Py.rstrip_slash (Py.os_path_join data_dir (Datetime.strftime_ymd d)) <> "".
Proof.
  destruct (strftime_ymd_last d) as (pre & c & -> & Hc).
  destruct (os_path_join_last data_dir pre c) as [pre' ->].
  now apply rstrip_slash_nonempty.
Qed.

Lemma makedirs_upto_available (fuel : nat) :
  forall s d s', makedirs_upto fuel s d = Some s' -> dir_available s' d = true.
Proof.
  induction fuel as [|fuel IH]; intros s d s'; cbn [makedirs_upto].
  - destruct (dir_available s d) eqn:Ha; [now intros [= <-]|].
    destruct (mem d (files s)); discriminate.
  - destruct (dir_available s d) eqn:Ha; [now intros [= <-]|].
    destruct (mem d (files s)); [discriminate|].
    destruct (makedirs_upto fuel s (dirname d)) as [s1|]; [|discriminate].
    intros [= <-]. unfold dir_available. destruct (Py.rstrip_slash d); [reflexivity|].
    cbn. apply mem_In, In_add_self.
Qed.

Lemma makedirs_creates (s s' : FS) (d : string) :
  Py.rstrip_slash d <> "" -> makedirs s d = Some s' -> mem d (dirs s') = true.
Proof.
  intros Hd H. apply makedirs_upto_available in H. unfold dir_available in H.
  destruct (Py.rstrip_slash d); [congruence|exact H].
Qed.

End BucketOfTheDay.

Section DeletedIsOnDisk.

Import VideoScraper.

Variable cfg : Config.
Variable env : Env.

Hypothesis base_url : BASE_URL cfg <> "".
Hypothesis budget : Py.range (MAX_RETRIES cfg) <> [].

(** A deletion requested for a record: the record has that handle and its
    file is on disk when the loop body returns. *)
Lemma download_then_delete_posts (day_dir : string) (video_meta : VideoMeta) (w : World) :
  let r := download_then_delete cfg env day_dir video_meta w in
  forall url handle,
    In (HttpPost url handle) (events r) ->
    thumbnail video_meta = Some handle
    /\ mem (Py.os_path_join day_dir (Py.last_component (video video_meta)))
         (files (fs (world_after r))) = true.
Proof.
  intros r url handle Hin.
  destruct (download_then_delete_spec cfg env day_dir video_meta w base_url budget)
    as (_ & _ & Hiff & Hhandle).
  fold r in Hiff, Hhandle. split; [exact (Hhandle _ _ Hin)|].
  assert (Hdel : existsb is_delete_request (events r) = true).
  { apply existsb_exists. now exists (HttpPost url handle). }
  apply Hiff in Hdel as [Htrue _].
  destruct (download_video_writes cfg env video_meta day_dir w) as (_ & _ & Hfile).
  specialize (Hfile Htrue).
  assert (Hr : r = download_then_delete cfg env day_dir video_meta w) by reflexivity.
  clearbody r. unfold download_then_delete in Hr. unfold bind at 1 in Hr.
  destruct (download_video cfg env video_meta day_dir w) as [[r1 w1] t1].
  cbn [value world_after fst snd] in Htrue, Hfile. subst r1.
  pose proof (delete_video_from_server_same_fs cfg env video_meta w1) as Hsame.
  unfold bind at 1 in Hr.
  destruct (delete_video_from_server cfg env video_meta w1) as [[[b|e] w2] t2];
    subst r; unfold same_fs in Hsame; cbn in Hsame |- *; now rewrite Hsame.
Qed.

Lemma for_in_posts (day_dir : string) (videos : list VideoMeta) :
  forall w,
    let r := for_in videos (download_then_delete cfg env day_dir) w in
    dirs (fs (world_after r)) = dirs (fs w)
    /\ forall url handle,
         In (HttpPost url handle) (events r) ->
         exists video_meta,
           In video_meta videos
           /\ thumbnail video_meta = Some handle
           /\ mem (Py.os_path_join day_dir (Py.last_component (video video_meta)))
                (files (fs (world_after r))) = true.
Proof.
  induction videos as [|v l IH]; intros w r.
  - subst r. split; [reflexivity|]. intros url handle [].
  - assert (Hr : r = for_in (v :: l) (download_then_delete cfg env day_dir) w)
      by reflexivity.
    clearbody r. cbn [for_in] in Hr. unfold bind at 1 in Hr.
    pose proof (download_then_delete_posts day_dir v w) as Hbody. cbv zeta in Hbody.
    destruct (download_then_delete_keeps cfg env day_dir v) as [Htot Hkeep].
    destruct (Htot w) as [[] Hv]. specialize (Hkeep w).
    assert (Hdirs1 : dirs (fs (world_after (download_then_delete cfg env day_dir v w)))
                     = dirs (fs w)).
    { unfold download_then_delete. unfold bind at 1.
      destruct (download_video_writes cfg env v day_dir w) as (_ & [Hd _] & _).
      destruct (download_video cfg env v day_dir w) as [[[b|e] w1] t1];
        cbn [world_after fst snd] in *; [|exact Hd].
      destruct b; [|cbn; exact Hd].
      pose proof (delete_video_from_server_same_fs cfg env v w1) as Hsame.
      unfold bind at 1.
      destruct (delete_video_from_server cfg env v w1) as [[[b|e] w2] t2];
        unfold same_fs in Hsame; cbn in Hsame |- *; now rewrite Hsame. }
    destruct (download_then_delete cfg env day_dir v w) as [[r1 w1] t1].
    cbn [value world_after events fst snd] in *. subst r1.
    specialize (IH w1). cbv zeta in IH. destruct IH as [Hdirs2 IH].
    destruct (for_in_keeps l (download_then_delete cfg env day_dir)
                (download_then_delete_keeps cfg env day_dir)) as [_ Hrest].
    specialize (Hrest w1).
    destruct (for_in l (download_then_delete cfg env day_dir) w1) as [[r2 w2] t2].
    cbn [value world_after events fst snd] in *. subst r.
    cbn [world_after events fst snd]. split; [congruence|].
    intros url handle Hin. apply in_app_or in Hin as [Hin|Hin].
    + destruct (Hbody url handle Hin) as [Hh Hfile]. exists v.
      split; [now left|]. split; [exact Hh|].
      apply mem_In. apply Hrest. now apply mem_In.
    + destruct (IH url handle Hin) as (v' & Hv' & Hh & Hfile). exists v'.
      split; [now right|auto].
Qed.

End DeletedIsOnDisk.

Section FootageKept.

Import VideoScraper.

Variable cfg : Config.
Variable env : Env.

Lemma listed_videos_are_media (w : World) (videos : list VideoMeta) (video_meta : VideoMeta) :
  value (fetch_video_list cfg env w) = Ret videos ->
  In video_meta videos -> is_media_href (video video_meta) = true.
Proof.
  unfold fetch_video_list, bind.
  destruct (fetch_preview cfg env (Py.range (MAX_RETRIES cfg)) w) as [[[page|e] w1] t1];
    [|discriminate].
  destruct page as [soup|]; [|cbn; intros [= <-] []].
  destruct (collect_videos soup) as [vs|e] eqn:Hc; [|discriminate].
  cbn. intros [= <-] Hin.
  pose proof (collect_videos_keeps _ _ Hc) as Hmap.
  assert (H : In (video video_meta) (map video vs)) by now apply in_map.
  rewrite Hmap in H. now apply filter_In in H.
Qed.

(** X19.  Nothing is deleted from the camera that is not on the local
    disk.  Whenever [fetch_and_clean] has sent a deletion request, the
    handle it carries is that of a record of the fetched listing whose
    file, <bucket of the day>/<file name of the recording>, is on disk when
    [fetch_and_clean] is over; and [get_video_files] lists that file name
    for the bucket, so that the daily run will find the recording. *)
Theorem deleted_videos_are_on_disk (w : World) :
  let run := fetch_and_clean cfg env w in
  let listing := fetch_video_list cfg env w in
  let today := Datetime.strftime_ymd
                 (Datetime.dt_date (datetime_now env (calls (world_after listing)))) in
  let day_dir := Py.os_path_join (DATA_DIR cfg) today in
  forall url handle,
    In (HttpPost url handle) (events run) ->
    exists videos video_meta media,
      value listing = Ret videos
      /\ In video_meta videos
      /\ thumbnail video_meta = Some handle
      /\ mem (Py.os_path_join day_dir (Py.last_component (video video_meta)))
           (files (fs (world_after run))) = true
      /\ value (VideoProcessor.get_video_files day_dir (world_after run)) = Ret media
      /\ In (Py.last_component (video video_meta)) media.
Proof.
  intros run listing today day_dir url handle Hin.
  assert (Hrun : run = fetch_and_clean cfg env w) by reflexivity.
  assert (Hl : listing = fetch_video_list cfg env w) by reflexivity.
  pose proof (fetch_video_list_spec cfg env w) as Hspec. cbv zeta in Hspec.
  rewrite <- Hl in Hspec.
  pose proof (listed_videos_are_media w) as Hmedia. rewrite <- Hl in Hmedia.
  unfold fetch_and_clean in Hrun. unfold bind at 1 in Hrun. rewrite <- Hl in Hrun.
  clearbody run listing.
  destruct listing as [[r w1] t1]. cbn [value events world_after fst snd] in *.
  destruct Hspec as [Hnd Hcfg].
  assert (Hposts : forall u h, ~ In (HttpPost u h) t1).
  { intros u h H. rewrite <- not_true_iff_false in Hnd. apply Hnd.
    apply existsb_exists. now exists (HttpPost u h). }
  destruct r as [videos|e]; [|subst run; now apply Hposts in Hin].
  destruct videos as [|v vs]; [subst run; cbn in Hin; rewrite app_nil_r in Hin;
                               now apply Hposts in Hin|].
  destruct (Hcfg (v :: vs) eq_refl) as [Hurl Hn]; [discriminate|].
  specialize (Hmedia (v :: vs)).
  cbv beta iota in Hrun.
  remember (v :: vs) as videos eqn:Hvideos. clear Hvideos.
  unfold bind at 1, ask at 1 in Hrun. unfold bind at 1, fs_update at 1 in Hrun.
  fold today in Hrun. fold day_dir in Hrun.
  change (fs (answered w1)) with (fs w1) in Hrun.
  destruct (makedirs (fs w1) day_dir) as [s|] eqn:Hmk;
    [|subst run; cbn in Hin; rewrite ?app_nil_r in Hin; now apply Hposts in Hin].
  cbn [put_fs] in Hrun.
  set (w2 := mk_world (calls (answered w1)) s (youtube_service (answered w1))) in *.
  destruct (for_in_posts cfg env Hurl Hn day_dir videos w2) as [Hdirs Hloop].
  destruct (for_in videos (download_then_delete cfg env day_dir) w2) as [[r3 w3] t3].
  cbn [world_after events fst snd] in Hdirs, Hloop.
  subst run. cbn [world_after events fst snd] in *.
  assert (Hin' : In (HttpPost url handle) t3).
  { cbn in Hin. apply in_app_or in Hin as [Hin|Hin]; [now apply Hposts in Hin|exact Hin]. }
  destruct (Hloop url handle Hin') as (video_meta & Hv & Hh & Hfile).
  assert (Hdir : mem day_dir (dirs (fs w3)) = true).
  { rewrite Hdirs. subst w2. cbn [fs]. apply (makedirs_creates (fs w1)); [|exact Hmk].
    apply day_dir_not_root. }
  destruct (media_file_name _ (Hmedia video_meta eq_refl Hv)) as (Hne & Hplain & Hmp4).
  destruct (listdir_lists_file _ _ _ Hne Hplain Hdir Hfile) as (names & Hls & Hname).
  exists videos, video_meta, (Py.sorted (filter VideoProcessor.is_mp4 names)).
  split; [reflexivity|]. split; [exact Hv|]. split; [exact Hh|]. split; [exact Hfile|].
  rewrite (get_video_files_listed _ _ _ Hls). split; [reflexivity|].
  apply (Permutation_in _ (Permutation_sym (sorted_perm _))).
  apply filter_In. now split.
Qed.

End FootageKept.

(** The camera lists two recordings, the first with a handle: the first is
    downloaded, deleted from the camera, and listed for the daily run. *)
Lemma deleted_videos_are_on_disk_witness :
  exists media,
    value (VideoProcessor.get_video_files "/data/videos/2025-08-12"
             (world_after (VideoScraper.fetch_and_clean (cfg_cam 3) env_ok w_empty)))
    = Ret media
    /\ In "video001.mp4" media.
Proof.
  destruct (deleted_videos_are_on_disk (cfg_cam 3) env_ok w_empty
              "http://cam/preview.php" "thumb001")
    as (videos & video_meta & media & Hl & Hv & Hh & _ & Hmedia & Hin).
  - vm_compute. tauto.
  - exists media. split; [exact Hmedia|].
    injection Hl as <-.
    destruct Hv as [<-|[<-|[]]]; [exact Hin|discriminate].
Defined.

(* ====================================================================== *)
(** * The retry loops on concrete runs                                     *)
(* ====================================================================== *)

(** The camera refuses the first recording three times: three requests,
    waits of 1, 2 and 4 seconds, [False], and nothing written. *)
Lemma download_video_trace_witness :
  let run := VideoScraper.download_video (cfg_cam 3) env_first_lost
               (VideoScraper.mk_meta "media/video001.mp4" (Some "thumb001")
                  "2025-08-12 19:52:10" "26 MB" "19s" "2025-08-12" "19:52:10")
               "/data/videos/2025-08-12" w_empty in
  sleeps (events run) = [1; 2; 4]%Z /\ value run = Ret false.
Proof.
  cbv zeta.
  destruct (download_video_trace (cfg_cam 3) env_first_lost
              (VideoScraper.mk_meta "media/video001.mp4" (Some "thumb001")
                 "2025-08-12 19:52:10" "26 MB" "19s" "2025-08-12" "19:52:10")
              "/data/videos/2025-08-12" w_empty)
    as [failed [Hs [(Hv & _ & _)|(Hv & Hf & _)]]].
  - discriminate.
  - split; [|exact Hv]. rewrite Hs, Hf. reflexivity.
Defined.

(** The download of a recording into an existing bucket: the file is
    there afterwards, and no directory has changed. *)
Lemma download_video_disk_witness :
  let run := VideoScraper.download_video (cfg_cam 3) env_ok
               (VideoScraper.mk_meta "media/video003.mp4" None "Unknown DateTime" "" "" "" "")
               "/data/videos/2025-08-12" w_two_files in
  mem "/data/videos/2025-08-12/video003.mp4" (files (fs (world_after run))) = true
  /\ dirs (fs (world_after run)) = dirs (fs w_two_files).
Proof.
  cbv zeta.
  destruct (download_video_disk (cfg_cam 3) env_ok
              (VideoScraper.mk_meta "media/video003.mp4" None "Unknown DateTime" "" "" "" "")
              "/data/videos/2025-08-12" w_two_files) as (_ & [Hd _] & Hfile).
  split; [apply Hfile; reflexivity|exact Hd].
Defined.

(** Two recordings merged at the first run of ffmpeg: one command, no
    wait, and the manifest on disk. *)
Lemma concatenate_videos_trace_witness :
  let run := VideoProcessor.concatenate_videos (cfg_cam 3) env_ok "/data/videos/2025-08-12"
               ["video001.mp4"; "video002.mp4"] artifact_0812 w_two_files in
  mem "/data/videos/2025-08-12/files.txt" (files (fs (world_after run))) = true
  /\ sleeps (events run) = [].
Proof.
  cbv zeta.
  destruct (concatenate_videos_trace (cfg_cam 3) env_ok "/data/videos/2025-08-12"
              ["video001.mp4"; "video002.mp4"] artifact_0812 w_two_files) as [_ H].
  destruct H as (Hfile & _); [discriminate|].
  split; [exact Hfile|reflexivity].
Defined.

(** A scrape whose bucket cannot be created (a regular file is in the
    way) raises [OSError], and the file is still there. *)
Lemma fetch_and_clean_keeps_disk_witness :
  let run := VideoScraper.fetch_and_clean (cfg_cam 3) env_ok w_file_at_bucket in
  value run = Raise os_error
  /\ In "/data/videos/2025-08-12" (files (fs (world_after run))).
Proof.
  cbv zeta.
  destruct (fetch_and_clean_keeps_disk (cfg_cam 3) env_ok w_file_at_bucket)
    as ([Hfiles _] & _ & _ & Hraise).
  split; [reflexivity|]. apply Hfiles. now left.
Defined.

